(** * Recipe interpreter (epi-parser): a shallow embedding and its properties

    The development follows [src/epi-parser.py] (the loop-capable parser:
    [parse_lay_file], [parse_layer_line], [parse_epi_file_with_loops],
    [flatten_layers]) and the loop-free [parse_epi_file] and the
    [get_material_family] of "MBE_with rate_No Ramp.py".

    Conventions of the embedding:
    - text is ASCII ([string]); the character classes answer [false] on
      codes above 127;
    - a file is the list of its lines as [readlines] returns them;
    - a Python exception is a value of [exn], and code that may raise
      returns a [result];
    - a Python [float] is a binary64 value: every operation is the exact
      rational operation followed by rounding to nearest, ties to even;
      all numbers of this program come from unsigned literals, so only
      the non-negative floats appear;
    - a Python [int] is an unbounded [Z]. *)

From Stdlib Require Import Ascii String ZArith QArith Qround Qpower Lia Lqa.
From stdpp Require Import gmap strings list fin_maps.

Local Open Scope string_scope.
Local Open Scope list_scope.
Local Open Scope Z_scope.

(** ** Exceptions *)

Inductive exn : Type :=
| AttributeError
| KeyError (key : string)
| TypeError
| ValueError
| ZeroDivisionError
| OverflowError
| IndexError.

Inductive result (A : Type) : Type :=
| Ok (a : A)
| Raise (e : exn).
Arguments Ok {A} a.
Arguments Raise {A} e.

Definition rbind {A B} (r : result A) (k : A -> result B) : result B :=
  match r with
  | Ok a => k a
  | Raise e => Raise e
  end.

Notation "'do' x <- r ; k" := (rbind r (fun x => k))
  (at level 10, x name, r at level 100, k at level 200).

(** [f] applied under [Ok] *)
Definition rmap {A B} (f : A -> B) (r : result A) : result B :=
  match r with
  | Ok a => Ok (f a)
  | Raise e => Raise e
  end.

(** ** Strings *)

Module Str.

Definition code (c : ascii) : Z := Z.of_N (N_of_ascii c).

Definition in_range (lo hi : Z) (c : ascii) : bool :=
  (lo <=? code c) && (code c <=? hi).

(** [str.isspace] on ASCII: tab, LF, VT, FF, CR, the separators
    0x1c-0x1f and the blank. *)
Definition isspace (c : ascii) : bool :=
  in_range 9 13 c || in_range 28 31 c || (code c =? 32).

Definition isdigit (c : ascii) : bool := in_range 48 57 c.
Definition isupper (c : ascii) : bool := in_range 65 90 c.
Definition islower (c : ascii) : bool := in_range 97 122 c.

(** the class [\w] *)
Definition isword (c : ascii) : bool :=
  isdigit c || isupper c || islower c || (code c =? 95).

Fixpoint lstrip (s : string) : string :=
  match s with
  | String c s' => if isspace c then lstrip s' else s
  | EmptyString => EmptyString
  end.

Fixpoint rstrip (s : string) : string :=
  match s with
  | String c s' =>
      match rstrip s' with
      | EmptyString => if isspace c then EmptyString else String c EmptyString
      | r => String c r
      end
  | EmptyString => EmptyString
  end.

(** [s.strip()] *)
Definition strip (s : string) : string := rstrip (lstrip s).

(** [s.startswith(p)] *)
Fixpoint startswith (p s : string) : bool :=
  match p, s with
  | EmptyString, _ => true
  | String a p', String b s' => if Ascii.eqb a b then startswith p' s' else false
  | String _ _, EmptyString => false
  end.

(** [s.split(sep)] for a one-character separator. *)
Fixpoint split (sep : ascii) (s : string) : list string :=
  match s with
  | EmptyString => [EmptyString]
  | String c s' =>
      if Ascii.eqb c sep then EmptyString :: split sep s'
      else match split sep s' with
           | p :: ps => String c p :: ps
           | [] => [String c EmptyString]
           end
  end.

Definition lower_char (c : ascii) : ascii :=
  if isupper c then ascii_of_N (N_of_ascii c + 32) else c.

(** [s.lower()] *)
Fixpoint lower (s : string) : string :=
  match s with
  | EmptyString => EmptyString
  | String c s' => String (lower_char c) (lower s')
  end.

(** [sep.join(l)] *)
Fixpoint join (sep : string) (l : list string) : string :=
  match l with
  | [] => EmptyString
  | [x] => x
  | x :: rest => String.append x (String.append sep (join sep rest))
  end.

(** the first [n] characters *)
Fixpoint take (n : nat) (s : string) : string :=
  match n, s with
  | S n', String c s' => String c (take n' s')
  | _, _ => EmptyString
  end.

End Str.

(** ** Regular expressions

    A backtracking matcher with the semantics of Python's [re]:
    alternatives are tried in order, repetition is greedy, a group
    remembers the text of its last match. *)

Module Re.

Inductive regex : Type :=
| Class (p : ascii -> bool)
| Seq (r1 r2 : regex)
| Alt (r1 r2 : regex)
| Star (r : regex)
| Group (i : nat) (r : regex)
| Empty.

Definition Plus (r : regex) : regex := Seq r (Star r).

Definition Char (c : ascii) : regex := Class (Ascii.eqb c).

Fixpoint Lit (s : string) : regex :=
  match s with
  | EmptyString => Empty
  | String c EmptyString => Char c
  | String c s' => Seq (Char c) (Lit s')
  end.

Fixpoint seq_of (rs : list regex) : regex :=
  match rs with
  | [] => Empty
  | [r] => r
  | r :: rs' => Seq r (seq_of rs')
  end.

(** the classes used by the program *)
Definition d : regex := Class Str.isdigit.                   (* \d *)
Definition w : regex := Class Str.isword.                    (* \w *)
Definition s : regex := Class Str.isspace.                   (* \s *)
Definition d_dot : regex :=                                   (* [\d.] *)
  Class (fun c => Str.isdigit c || Ascii.eqb c ".").
Definition a_z : regex := Class Str.islower.                 (* [a-z] *)
Definition dot : regex :=                                     (* . *)
  Class (fun c => negb (Str.code c =? 10)).

(** the groups of a match, by index *)
Definition groups : Type := list (nat * string).

Fixpoint group (i : nat) (g : groups) : option string :=
  match g with
  | [] => None
  | (j, t) :: g' => if Nat.eqb i j then Some t else group i g'
  end.

Section Matcher.
Context {R : Type}.

(** [run r txt g k]: match [r] at the head of [txt]; on success call
    the continuation on what is left of the text; [None] makes the
    matcher backtrack. *)
Fixpoint run (r : regex) (txt : string) (g : groups)
    (k : string -> groups -> option R) {struct r} : option R :=
  match r with
  | Empty => k txt g
  | Class p =>
      match txt with
      | String c rest => if p c then k rest g else None
      | EmptyString => None
      end
  | Seq r1 r2 => run r1 txt g (fun t1 g1 => run r2 t1 g1 k)
  | Alt r1 r2 =>
      match run r1 txt g k with
      | Some x => Some x
      | None => run r2 txt g k
      end
  | Group i r1 =>
      run r1 txt g (fun t1 g1 =>
        k t1 ((i, Str.take (String.length txt - String.length t1) txt) :: g1))
  | Star r1 =>
      (fix loop (fuel : nat) (t : string) (g0 : groups) : option R :=
         match fuel with
         | O => k t g0
         | S fuel' =>
             match run r1 t g0 (fun t1 g1 =>
                     if (String.length t1 <? String.length t)%nat
                     then loop fuel' t1 g1 else None) with
             | Some x => Some x
             | None => k t g0
             end
         end) (String.length txt) txt g
  end.
End Matcher.

(** [re.match(r, txt)]: the groups and the text left after the match *)
Definition match_ (r : regex) (txt : string) : option (groups * string) :=
  run r txt [] (fun rest g => Some (g, rest)).

(** [re.search(r, txt)]: the leftmost match *)
Fixpoint search (r : regex) (txt : string) : option (groups * string) :=
  match match_ r txt with
  | Some m => Some m
  | None =>
      match txt with
      | String _ rest => search r rest
      | EmptyString => None
      end
  end.

(** [re.findall(r, txt)] for a pattern without groups: the texts of the
    non-overlapping matches, left to right; after an empty match the scan
    moves on by one character. *)
Fixpoint findall_from (fuel : nat) (r : regex) (txt : string) : list string :=
  match fuel with
  | O => []
  | S fuel' =>
      match match_ r txt with
      | Some (_, rest) =>
          let n := (String.length txt - String.length rest)%nat in
          match n, txt with
          | O, String _ txt' => EmptyString :: findall_from fuel' r txt'
          | O, EmptyString => [EmptyString]
          | _, _ => Str.take n txt :: findall_from fuel' r rest
          end
      | None =>
          match txt with
          | String _ txt' => findall_from fuel' r txt'
          | EmptyString => []
          end
      end
  end.

Definition findall (r : regex) (txt : string) : list string :=
  findall_from (S (String.length txt)) r txt.

End Re.

(** ** Binary64 floats *)

Module Float.

Local Open Scope Q_scope.

Inductive float : Type :=
| Fin (q : Q)     (* a finite value, as a reduced fraction *)
| Inf
| NaN.

Definition pow2 (e : Z) : Q := Qpower 2 e.

(** the integer part of the base-2 logarithm of a positive rational *)
Definition ilog2 (x : Q) : Z :=
  let g := (Z.log2 (Qnum x) - Z.log2 (Zpos (Qden x)))%Z in
  if Qle_bool (pow2 g) x then g else (g - 1)%Z.

(** the nearest integer, ties to the even one *)
Definition rne (x : Q) : Z :=
  let f := Qfloor x in
  match Qcompare (x - inject_Z f) (1 # 2) with
  | Lt => f
  | Gt => (f + 1)%Z
  | Eq => if Z.even f then f else (f + 1)%Z
  end.

(** Rounding of a non-negative rational to binary64: 53 significant bits,
    smallest spacing [2^-1074], overflow from [2^1024]. *)
Definition RN (x : Q) : float :=
  if Qle_bool x 0 then Fin 0
  else
    let e := Z.max (ilog2 x - 52) (-1074) in
    let y := inject_Z (rne (x / pow2 e)) * pow2 e in
    if Qle_bool (pow2 1024) y then Inf else Fin (Qred y).

Definition is_zero (q : Q) : bool := Qeq_bool q 0.

(** [a * b] *)
Definition mul (a b : float) : float :=
  match a, b with
  | NaN, _ | _, NaN => NaN
  | Inf, Inf => Inf
  | Inf, Fin q | Fin q, Inf => if is_zero q then NaN else Inf
  | Fin p, Fin q => RN (p * q)
  end.

(** [a / b] *)
Definition div (a b : float) : result float :=
  match b with
  | Fin q =>
      if is_zero q then Raise ZeroDivisionError
      else match a with
           | Fin p => Ok (RN (p / q))
           | other => Ok other
           end
  | Inf => match a with
           | Fin _ => Ok (Fin 0)
           | _ => Ok NaN
           end
  | NaN => Ok NaN
  end.

(** [round(a, 2)]: the exact value is rounded to two decimals, ties to
    even, and the decimal is converted back to the nearest float;
    infinities and NaN round to themselves. *)
Definition round2 (a : float) : float :=
  match a with
  | Fin q => RN (inject_Z (rne (q * 100)) / 100)
  | other => other
  end.

(** [float(n)] for a non-negative [int] *)
Definition of_int (n : Z) : result float :=
  match RN (inject_Z n) with
  | Inf => Raise OverflowError
  | f => Ok f
  end.

(** The value of a run of decimal digits; [None] on another character. *)
Fixpoint digits_value (acc : Z) (s : string) : option Z :=
  match s with
  | EmptyString => Some acc
  | String c s' =>
      if Str.isdigit c then digits_value (10 * acc + (Str.code c - 48))%Z s'
      else None
  end.

(** [float(s)] for a text made of digits and dots, the only texts the
    program passes: at most one dot and at least one digit, or
    [ValueError]. *)
Definition of_literal (s : string) : result float :=
  match Str.split "." s with
  | [ip] =>
      match ip, digits_value 0 ip with
      | String _ _, Some n => Ok (RN (inject_Z n))
      | _, _ => Raise ValueError
      end
  | [ip; fp] =>
      match String.append ip fp, digits_value 0 ip, digits_value 0 fp with
      | String _ _, Some n, Some m =>
          let k := Z.of_nat (String.length fp) in
          Ok (RN ((inject_Z n * inject_Z (10 ^ k) + inject_Z m) / inject_Z (10 ^ k)))
      | _, _, _ => Raise ValueError
      end
  | _ => Raise ValueError
  end.

(** The rationals with at most 53 significant bits and a spacing of at
    least [2^-1074]; the finite binary64 values are those below [2^1024]. *)
Definition b64 (q : Q) : Prop :=
  exists m e, q == inject_Z m * pow2 e /\ (0 <= m < 2 ^ 53)%Z /\ (-1074 <= e)%Z.

(** [f] is a value that rounding produces. *)
Definition is_float (f : float) : Prop :=
  match f with
  | Fin q => RN q = Fin q
  | _ => True
  end.

End Float.

(** ** Data *)

(** A Python number: an [int] or a [float]. *)
Inductive num : Type :=
| Int (z : Z)
| Flt (f : Float.float).

(** [x * n] for a non-negative [int] [n]: an [int] stays an [int], a
    [float] is multiplied by [float(n)]. *)
Definition mul_int (x : num) (n : Z) : result num :=
  match x with
  | Int z => Ok (Int (z * n))
  | Flt f => do g <- Float.of_int n; Ok (Flt (Float.mul f g))
  end.

(** An entry of the definitions table:
    [{"shutters": [...], "rate": None or a float}]. *)
Record layer_def : Type := {
  shutters : list string;
  rate : option Float.float
}.

(** The value under ["Shutters"]: the list [[]] of an idle layer, or the
    joined text of the other layers. *)
Inductive shutter_field : Type :=
| ShutterList (l : list string)
| ShutterText (s : string).

(** A layer dictionary; the keys that some layers lack are options. *)
Record layer : Type := {
  Material : string;
  Composition : string;
  Thickness : num;                (* "Thickness (nm)" *)
  Time : num;                     (* "Time (s)" *)
  Shutters : shutter_field;
  Repeat : option Z;
  GrowthRate : option num         (* "Growth Rate (nm/h)" *)
}.

(** An element of the stack: a layer, or the dictionary
    [{"Group": True, "Repeat": n, "Layers": [...]}] of a loop. *)
Inductive item : Type :=
| Layer (l : layer)
| Group (repeat : Z) (layers : list layer).

(** ** The patterns of the program *)

Module Pat.
Import Re.

(** the pattern "rate\(([\d.]+)\)" *)
Definition rate : regex :=
  seq_of [Lit "rate("; Re.Group 1 (Plus d_dot); Char ")"].

(** the pattern "for\((\w+),\s*(\d+),\s*([\d.]+)\)" *)
Definition for_ : regex :=
  seq_of [Lit "for("; Re.Group 1 (Plus w); Char ","; Star s;
          Re.Group 2 (Plus d); Char ","; Star s;
          Re.Group 3 (Plus d_dot); Char ")"].

(** the pattern "layer\((\w+),([\d.]+)([a-z]+)\)" followed by a fourth
    group that takes the rest of the line (any characters but a newline) *)
Definition layer : regex :=
  seq_of [Lit "layer("; Re.Group 1 (Plus w); Char ",";
          Re.Group 2 (Plus d_dot); Re.Group 3 (Plus a_z); Char ")";
          Re.Group 4 (Star dot)].

Definition Al_n_GaAs : regex := seq_of [Lit "Al"; Plus d; Lit "GaAs"].
Definition In_n_GaAs : regex := seq_of [Lit "In"; Plus d; Lit "GaAs"].

(** the pattern "(Al\d+GaAs|In\d+GaAs|AlAs|GaAs)" of [parse_layer_line] *)
Definition composition : regex :=
  Re.Group 1 (Alt Al_n_GaAs (Alt In_n_GaAs (Alt (Lit "AlAs") (Lit "GaAs")))).

(** the pattern "(Al\d+GaAs|In\d+GaAs)" of [parse_epi_file] *)
Definition composition_ternary : regex :=
  Re.Group 1 (Alt Al_n_GaAs In_n_GaAs).

(** the pattern "\w+" *)
Definition word : regex := Plus w.

(** [m.group(i)] *)
Definition text (i : nat) (g : groups) : string :=
  match group i g with
  | Some t => t
  | None => EmptyString
  end.

End Pat.

(** ** The program *)

(** [l[i]] *)
Definition index {A} (l : list A) (i : nat) : result A :=
  match l !! i with
  | Some a => Ok a
  | None => Raise IndexError
  end.

(** [int(s)] for a run of digits *)
Definition int_of (s : string) : result Z :=
  match s, Float.digits_value 0 s with
  | String _ _, Some n => Ok n
  | _, _ => Raise ValueError
  end.

(** the truth value of [current_layer]: [None] and the empty text are false *)
Definition truthy (current_layer : option string) : bool :=
  match current_layer with
  | Some (String _ _) => true
  | _ => false
  end.

(** [d[key]] on the definitions table *)
Definition getitem (d : gmap string layer_def) (key : option string)
    : result layer_def :=
  match key with
  | Some k => match d !! k with
              | Some v => Ok v
              | None => Raise (KeyError k)
              end
  | None => Raise (KeyError "None")
  end.

Definition lay_state : Type := gmap string layer_def * option string.

(** One turn of the loop of [parse_lay_file]. *)
Definition lay_line (st : lay_state) (raw : string) : result lay_state :=
  let '(layers, current_layer) := st in
  let line := Str.strip raw in
  if Str.startswith "definelayer(" line then
    do a <- index (Str.split "(" line) 1;
    do id <- index (Str.split ")" a) 0;
    Ok (<[id := {| shutters := []; rate := None |}]> layers, Some id)
  else if Str.startswith "rate(" line && truthy current_layer then
    match Re.search Pat.rate line with
    | None => Raise AttributeError
    | Some (g, _) =>
        do r <- Float.of_literal (Pat.text 1 g);
        do entry <- getitem layers current_layer;
        Ok (<[default "" current_layer :=
                {| shutters := shutters entry; rate := Some r |}]> layers,
            current_layer)
    end
  else if Str.startswith "open(" line && truthy current_layer then
    let found := Re.findall Pat.word line in
    do entry <- getitem layers current_layer;
    Ok (<[default "" current_layer :=
            {| shutters := tail found; rate := rate entry |}]> layers,
        current_layer)
  else if Str.startswith "enddefine" line then
    Ok (layers, None)
  else Ok st.

Fixpoint lay_lines (st : lay_state) (lines : list string) : result lay_state :=
  match lines with
  | [] => Ok st
  | raw :: rest => do st' <- lay_line st raw; lay_lines st' rest
  end.

Definition parse_lay_file (lines : list string) : result (gmap string layer_def) :=
  do st <- lay_lines (∅, None) lines; Ok (fst st).

(** [rate * time_s / 3600] *)
Definition thickness_of_time (rate : option Float.float) (time_s : Float.float)
    : result Float.float :=
  match rate with
  | None => Raise TypeError
  | Some r => do h <- Float.of_int 3600; Float.div (Float.mul r time_s) h
  end.

(** [thickness * 3600 / rate] *)
Definition time_of_thickness (rate : option Float.float) (thickness : Float.float)
    : result Float.float :=
  do h <- Float.of_int 3600;
  match rate with
  | None => Raise TypeError
  | Some r => Float.div (Float.mul thickness h) r
  end.

(** The dictionary of an idle period. *)
Definition idle_layer (value : Float.float) (unit : string) : layer :=
  {| Material := "Idle";
     Thickness := Int 0;
     Time := if String.eqb unit "s" then Flt value else Int 0;
     Shutters := ShutterList [];
     Composition := "None";
     GrowthRate := Some (Int 0);
     Repeat := None |}.

(** [parse_layer_line(line, lay_data)]; [Ok None] is the [None] it
    returns for a line that is not an instruction. *)
Definition parse_layer_line (line : string) (lay_data : gmap string layer_def)
    : result (option layer) :=
  match Re.match_ Pat.layer line with
  | None => Ok None
  | Some (g, _) =>
      let material := Pat.text 1 g in
      let unit := Pat.text 3 g in
      let comment := Pat.text 4 g in
      let composition :=
        match Re.search Pat.composition comment with
        | Some (c, _) => Pat.text 1 c
        | None => "Unknown"
        end in
      do value <- Float.of_literal (Pat.text 2 g);
      if String.eqb material "shutterzu" then Ok (Some (idle_layer value unit))
      else
        do entry <- getitem lay_data (Some material);
        let rate := rate entry in
        let shutters := Str.join ", " (shutters entry) in
        do tt <-
          (if String.eqb unit "nm" then
             do time_s <- time_of_thickness rate value;
             Ok (Some (value, time_s))
           else if String.eqb unit "s" then
             do thickness <- thickness_of_time rate value;
             Ok (Some (thickness, value))
           else Ok None);
        match tt with
        | None => Ok None
        | Some (thickness, time_s) =>
            Ok (Some {| Material := material;
                        Composition := composition;
                        Thickness := Flt (Float.round2 thickness);
                        Time := Flt (Float.round2 time_s);
                        Shutters := ShutterText shutters;
                        Repeat := Some 1;
                        GrowthRate := None |})
        end
  end.

(** The lines of a loop body, parsed one after the other; the lines that
    give [None] are left out. *)
Fixpoint parse_block (block : list string) (lay_data : gmap string layer_def)
    : result (list layer) :=
  match block with
  | [] => Ok []
  | bl :: rest =>
      do parsed <- parse_layer_line bl lay_data;
      do more <- parse_block rest lay_data;
      Ok (match parsed with
          | Some l => l :: more
          | None => more
          end)
  end.

(** [l.get("Material", "")] *)
Definition material_of (it : item) : string :=
  match it with
  | Layer l => Material l
  | Group _ _ => EmptyString
  end.

Definition has_substrate (layer_stack : list item) : bool :=
  existsb (fun l => String.eqb (Str.lower (material_of l)) "substrate") layer_stack.

Definition substrate_layer : layer :=
  {| Material := "Substrate";
     Composition := "";
     Thickness := Int 500;
     Time := Int 0;
     Shutters := ShutterText "";
     Repeat := Some 1;
     GrowthRate := None |}.

(** The last statement of [parse_epi_file_with_loops]. *)
Definition insert_substrate (layer_stack : list item) : list item :=
  if has_substrate layer_stack then layer_stack
  else Layer substrate_layer :: layer_stack.

(** The [while] loop of [parse_epi_file_with_loops], from the line at
    index [i] on; [lines] are the lines not yet read.  The inner [while]
    is [block]: it gathers the body up to a line that starts with
    "next(", or to the end of the file, and the outer loop then steps
    over that line. *)
Fixpoint scan_lines (lay_data : gmap string layer_def) (lines : list string)
    (layer_stack : list item) {struct lines} : result (list item) :=
  match lines with
  | [] => Ok layer_stack
  | raw :: rest =>
      let line := Str.strip raw in
      if Str.startswith "for(" line then
        match Re.match_ Pat.for_ line with
        | Some (m, _) =>
            do iterations <- int_of (Pat.text 2 m);
            (fix block (ls : list string) (body : list string) {struct ls}
               : result (list item) :=
               match ls with
               | [] =>
                   do block_layers <- parse_block (rev body) lay_data;
                   Ok (layer_stack ++ [Group iterations block_layers])
               | b :: ls' =>
                   if Str.startswith "next(" (Str.strip b) then
                     do block_layers <- parse_block (rev body) lay_data;
                     scan_lines lay_data ls'
                       (layer_stack ++ [Group iterations block_layers])
                   else block ls' (Str.strip b :: body)
               end) rest []
        | None => scan_lines lay_data rest layer_stack
        end
      else if Str.startswith "layer(" line then
        do parsed <- parse_layer_line line lay_data;
        match parsed with
        | Some l => scan_lines lay_data rest (layer_stack ++ [Layer l])
        | None => scan_lines lay_data rest layer_stack
        end
      else scan_lines lay_data rest layer_stack
  end.

Definition parse_epi_file_with_loops (lines : list string)
    (lay_data : gmap string layer_def) : result (list item) :=
  do layer_stack <- scan_lines lay_data lines [];
  Ok (insert_substrate layer_stack).

(** The copy of a layer of a group that [flatten_layers] appends. *)
Definition scaled (repeat : Z) (l : layer) : result layer :=
  do thickness <- mul_int (Thickness l) repeat;
  do time <- mul_int (Time l) repeat;
  Ok {| Material := Material l;
        Composition := Composition l;
        Thickness := thickness;
        Time := time;
        Shutters := Shutters l;
        Repeat := Some repeat;
        GrowthRate := GrowthRate l |}.

Fixpoint scaled_all (repeat : Z) (ls : list layer) : result (list layer) :=
  match ls with
  | [] => Ok []
  | l :: rest =>
      do l_copy <- scaled repeat l;
      do more <- scaled_all repeat rest;
      Ok (l_copy :: more)
  end.

Fixpoint flatten_layers (layers : list item) : result (list layer) :=
  match layers with
  | [] => Ok []
  | Group repeat ls :: rest =>
      do flat <- scaled_all repeat ls;
      do more <- flatten_layers rest;
      Ok (flat ++ more)
  | Layer l :: rest =>
      do more <- flatten_layers rest;
      Ok (l :: more)
  end.



(** ** The loop-free parser [parse_epi_file]

    The state of its loop is the stack and the lines printed so far. *)

Definition epi_state : Type := list layer * list string.

Definition epi_line (lay_data : gmap string layer_def) (st : epi_state)
    (raw : string) : result epi_state :=
  let '(layer_stack, printed) := st in
  let line := Str.strip raw in
  if Str.startswith "layer(" line then
    match Re.match_ Pat.layer line with
    | None => Ok st
    | Some (g, _) =>
        let material := Pat.text 1 g in
        let unit := Pat.text 3 g in
        let comment := Pat.text 4 g in
        let composition :=
          match Re.search Pat.composition_ternary comment with
          | Some (c, _) => Pat.text 1 c
          | None => "Unknown"
          end in
        do value <- Float.of_literal (Pat.text 2 g);
        if String.eqb material "shutterzu" then
          Ok ((layer_stack ++ [idle_layer value unit]), printed)
        else
          match lay_data !! material with
          | None =>
              Ok (layer_stack,
                  (printed ++ [String.append "Warning: "
                                 (String.append material " not in .lay file.")]))
          | Some entry =>
              let shutters := shutters entry in
              let rate_nm_per_h := rate entry in
              do tt <-
                (if String.eqb unit "s" then
                   do thickness_nm <- thickness_of_time rate_nm_per_h value;
                   Ok (Some (thickness_nm, value))
                 else if String.eqb unit "nm" then
                   do time_s <- time_of_thickness rate_nm_per_h value;
                   Ok (Some (value, time_s))
                 else Ok None);
              match tt with
              | None => Ok st
              | Some (thickness_nm, time_s) =>
                  Ok ((layer_stack ++
                       [{| Material := material;
                           Thickness := Flt (Float.round2 thickness_nm);
                           Time := Flt (Float.round2 time_s);
                           Shutters := ShutterText (Str.join ", " shutters);
                           Composition := composition;
                           GrowthRate := option_map Flt rate_nm_per_h;
                           Repeat := None |}]), printed)
              end
          end
    end
  else Ok st.

Fixpoint epi_lines (lay_data : gmap string layer_def) (st : epi_state)
    (lines : list string) : result epi_state :=
  match lines with
  | [] => Ok st
  | raw :: rest => do st' <- epi_line lay_data st raw; epi_lines lay_data st' rest
  end.

Definition parse_epi_file (lines : list string) (lay_data : gmap string layer_def)
    : result epi_state :=
  epi_lines lay_data ([], []) lines.

(** ** The material families of the plot *)

(** [p in s] *)
Fixpoint contains (p s : string) : bool :=
  Str.startswith p s ||
  match s with
  | String _ s' => contains p s'
  | EmptyString => false
  end.

(** [get_material_family(material)], the family that gives a layer its
    colour in the plot. *)
Definition get_material_family (material : string) : string :=
  if String.eqb material "Idle" then "Idle"
  else if contains "InGa" material then "InGaAs"
  else if contains "Ga" material && contains "Al" material then "AlGaAs"
  else if contains "Ga" material then "GaAs"
  else if contains "Al" material then "AlAs"
  else if contains "In" material then "InAs"
  else if String.eqb material "Substrate" then "Substrate"
  else "Other".

(** * Notions used to state the properties

    ** The script *)

(** The run at the end of the script: the definitions, then the program,
    then the flattening that [print_layer_table] starts with. *)
Definition example_run (lay_file epi_file : list string) : result (list layer) :=
  do lay_data <- parse_lay_file lay_file;
  do layer_stack <- parse_epi_file_with_loops epi_file lay_data;
  flatten_layers layer_stack.

(** ** The loops *)

(** What the outer loop does with a line: it opens a loop (with the
    count that [int] gives), it is an instruction, or it is stepped
    over. *)
Inductive line_kind : Type :=
| KLoop (count : result Z)
| KLayer
| KOther.

Definition kind_of (raw : string) : line_kind :=
  let line := Str.strip raw in
  if Str.startswith "for(" line then
    match Re.match_ Pat.for_ line with
    | Some (m, _) => KLoop (int_of (Pat.text 2 m))
    | None => KOther
    end
  else if Str.startswith "layer(" line then KLayer
  else KOther.

Definition closes_loop (raw : string) : bool :=
  Str.startswith "next(" (Str.strip raw).

(** The body of a loop, stripped, and the lines after its closing line;
    [None] when the file ends first. *)
Fixpoint split_block (ls : list string) : list string * option (list string) :=
  match ls with
  | [] => ([], None)
  | b :: ls' =>
      if closes_loop b then ([], Some ls')
      else let '(body, after) := split_block ls' in (Str.strip b :: body, after)
  end.

(** The programs in which every loop that is opened is closed. *)
Inductive closed : list string -> Prop :=
| closed_nil : closed []
| closed_line raw rest :
    (forall c, kind_of raw <> KLoop c) -> closed rest -> closed (raw :: rest)
| closed_loop raw c body nxt rest :
    kind_of raw = KLoop c ->
    Forall (fun b => closes_loop b = false) body ->
    closes_loop nxt = true ->
    closed rest ->
    closed (raw :: body ++ nxt :: rest).

(** What holds of every layer of a stack, in a group or not. *)
Definition item_all (P : layer -> Prop) (it : item) : Prop :=
  match it with
  | Layer l => P l
  | Group _ ls => Forall P ls
  end.


(** ** The layers *)

(** The invariants of an idle layer. *)
Definition idle_fields (l : layer) : Prop :=
  Thickness l = Int 0 /\
  GrowthRate l = Some (Int 0) /\
  Composition l = "None" /\
  Shutters l = ShutterList [].


(** the lines that are instructions: they match the layer pattern *)
Definition is_instruction (raw : string) : bool :=
  Str.startswith "layer(" (Str.strip raw) &&
  bool_decide (is_Some (Re.match_ Pat.layer (Str.strip raw))).

Definition instruction_count (lines : list string) : nat :=
  length (filter (fun raw => is_instruction raw = true) lines).

(** ** The conversions *)

(** The thickness that a time resolves to, and the time that a thickness
    resolves to, as [parse_layer_line] computes and rounds them for the
    units s and nm. *)
Definition time_to_thickness (rate time_s : Float.float) : result Float.float :=
  rmap Float.round2 (thickness_of_time (Some rate) time_s).

Definition thickness_to_time (rate thickness : Float.float) : result Float.float :=
  rmap Float.round2 (time_of_thickness (Some rate) thickness).

(** time, then thickness, then time again *)
Definition round_trip (rate time_s : Float.float) : result Float.float :=
  do thickness <- time_to_thickness rate time_s;
  thickness_to_time rate thickness.

(** ** The definitions table *)

(** Two runs of the definitions loop agree on the entry [id], on the
    current definition and on failures. *)
Definition agree (id : string) (r1 r2 : result lay_state) : Prop :=
  match r1, r2 with
  | Ok (l1, c1), Ok (l2, c2) =>
      c1 = c2 /\ l1 !! id = l2 !! id /\
      forall k, c1 = Some k -> l1 !! k = l2 !! k
  | Raise e1, Raise e2 => e1 = e2
  | _, _ => False
  end.

(** ** The patterns, the table and the stack *)

(** [matches r s g g']: the pattern [r] matches the whole text [s] and
    takes the groups from [g] to [g']. *)
Inductive matches : Re.regex -> string -> Re.groups -> Re.groups -> Prop :=
| matches_empty g : matches Re.Empty EmptyString g g
| matches_class (p : ascii -> bool) c g :
    p c = true -> matches (Re.Class p) (String c EmptyString) g g
| matches_seq r1 r2 s1 s2 g g1 g2 :
    matches r1 s1 g g1 -> matches r2 s2 g1 g2 ->
    matches (Re.Seq r1 r2) (String.append s1 s2) g g2
| matches_alt_l r1 r2 s g g1 :
    matches r1 s g g1 -> matches (Re.Alt r1 r2) s g g1
| matches_alt_r r1 r2 s g g1 :
    matches r2 s g g1 -> matches (Re.Alt r1 r2) s g g1
| matches_star_stop r g : matches (Re.Star r) EmptyString g g
| matches_star_step r s1 s2 g g1 g2 :
    matches r s1 g g1 -> matches (Re.Star r) s2 g1 g2 ->
    matches (Re.Star r) (String.append s1 s2) g g2
| matches_group i r s g g1 :
    matches r s g g1 -> matches (Re.Group i r) s g ((i, s) :: g1).

(** every character of the text satisfies [p] *)
Fixpoint all_chars (p : ascii -> bool) (s : string) : bool :=
  match s with
  | EmptyString => true
  | String c s' => p c && all_chars p s'
  end.

(** a nonempty run of word characters *)
Definition is_word (x : string) : Prop :=
  x <> EmptyString /\ all_chars Str.isword x = true.

(** An entry of the table as the definitions loop builds it: its
    shutters are words, its rate is absent, finite or infinite. *)
Definition entry_wf (d : layer_def) : Prop :=
  Forall is_word (shutters d) /\
  match rate d with
  | None => True
  | Some f => Float.is_float f /\ f <> Float.NaN
  end.

(** The identifier that a line of the definitions file opens. *)
Definition opened_id (raw : string) : option string :=
  let line := Str.strip raw in
  if Str.startswith "definelayer(" line then
    match index (Str.split "(" line) 1 with
    | Ok a => match index (Str.split ")" a) 0 with
              | Ok id => Some id
              | Raise _ => None
              end
    | Raise _ => None
    end
  else None.

(** the entry that an opening line creates *)
Definition fresh_entry : layer_def := {| shutters := []; rate := None |}.

(** The current definition, when there is one, is a key of the table. *)
Definition current_defined (st : lay_state) : Prop :=
  forall k, snd st = Some k -> is_Some (fst st !! k).

(** The rate that a line sets inside a definition: the float of the
    number of a rate line. *)
Definition line_rate (raw : string) : option Float.float :=
  let line := Str.strip raw in
  if Str.startswith "rate(" line then
    match Re.search Pat.rate line with
    | Some (g, _) =>
        match Float.of_literal (Pat.text 1 g) with
        | Ok r => Some r
        | Raise _ => None
        end
    | None => None
    end
  else None.

(** The shutters that a line sets inside a definition: the words of an
    open line, but the first. *)
Definition line_shutters (raw : string) : option (list string) :=
  let line := Str.strip raw in
  if Str.startswith "open(" line then Some (tail (Re.findall Pat.word line))
  else None.

(** The rate and the shutters of a block, from the lines between its
    opening and its closing line: those of the last rate line and of the
    last open line, and none without such a line. *)
Definition block_rate (body : list string) : option Float.float :=
  foldl (fun acc raw => match line_rate raw with Some r => Some r | None => acc end)
        None body.

Definition block_shutters (body : list string) : list string :=
  foldl (fun acc raw => match line_shutters raw with Some s => s | None => acc end)
        [] body.

(** A line inside a block: it neither opens nor closes a definition. *)
Definition inside_block (raw : string) : Prop :=
  opened_id raw = None /\ Str.startswith "enddefine" (Str.strip raw) = false.

(** What makes a conversion fail: a definition without a rate, or with
    the rate zero. *)
Definition no_rate (lay_data : gmap string layer_def) : Prop :=
  exists k entry, lay_data !! k = Some entry /\ rate entry = None.

Definition zero_rate (lay_data : gmap string layer_def) : Prop :=
  exists k entry q, lay_data !! k = Some entry /\
                    rate entry = Some (Float.Fin q) /\ (q == 0)%Q.

(** The failures of an instruction and their causes. *)
Definition instruction_failure (lay_data : gmap string layer_def) (e : exn) : Prop :=
  e = ValueError \/
  (exists k, e = KeyError k /\ lay_data !! k = None) \/
  (e = TypeError /\ no_rate lay_data) \/
  (e = ZeroDivisionError /\ zero_rate lay_data).

(** The lines that the loop of [parse_epi_file_with_loops] looks at:
    the loop headers, the instructions and the loop ends. *)
Definition relevant (raw : string) : bool :=
  let line := Str.strip raw in
  Str.startswith "for(" line || Str.startswith "layer(" line ||
  Str.startswith "next(" line.

(** What the two parsers agree on: the material, the thickness, the
    time and the shutters of a layer. *)
Definition same_growth (l l' : layer) : Prop :=
  Material l = Material l' /\ Thickness l = Thickness l' /\
  Time l = Time l' /\ Shutters l = Shutters l'.

(** The layers of an element of the stack. *)
Definition item_layers (it : item) : list layer :=
  match it with
  | Layer l => [l]
  | Group _ ls => ls
  end.

(** The count of a loop lies in the range without overflow. *)
Definition count_in_range (it : item) : Prop :=
  match it with
  | Layer _ => True
  | Group n _ => 0 <= n < 2 ^ 1023
  end.

(** What flattening keeps of a layer. *)
Definition same_labels (l l' : layer) : Prop :=
  Material l' = Material l /\ Composition l' = Composition l /\
  Shutters l' = Shutters l /\ GrowthRate l' = GrowthRate l.

(** A run of digits, not empty. *)
Definition is_number (n : string) : Prop :=
  n <> EmptyString /\ all_chars Str.isdigit n = true.

(** The composition tags that [parse_layer_line] looks for. *)
Definition is_tag (s : string) : Prop :=
  s = "AlAs" \/ s = "GaAs" \/
  exists n, is_number n /\
    (s = String.append "Al" (String.append n "GaAs") \/
     s = String.append "In" (String.append n "GaAs")).

(** What a layer of the stack is: the substrate that the parser puts in,
    an idle period, or a layer of a material of the table, with the
    shutters of its definition. *)
Definition follows_table (lay_data : gmap string layer_def) (l : layer) : Prop :=
  l = substrate_layer \/
  (exists value unit, l = idle_layer value unit) \/
  (exists entry, lay_data !! Material l = Some entry /\
                 Shutters l = ShutterText (Str.join ", " (shutters entry)) /\
                 Repeat l = Some 1).

(** The text does not go on with a character of the class. *)
Definition stops (p : ascii -> bool) (rest : string) : Prop :=
  match rest with
  | EmptyString => True
  | String c _ => p c = false
  end.

(** ** Inputs of the examples *)

Definition GaAs_definitions : list string :=
  ["definelayer(GaAs)"; "rate(600)"; "open(As,Ga)"; "enddefine"].

Definition GaAs_program : list string := ["layer(GaAs,120s) // GaAs buffer"].

Definition GaAs_table : gmap string layer_def :=
  {[ "GaAs" := {| shutters := ["As"; "Ga"]; rate := Some (Float.Fin 600) |} ]}.

Definition AlGaAs_table : gmap string layer_def :=
  {[ "AlGaAs" := {| shutters := []; rate := Some (Float.Fin 3600) |} ]}.

(** a definition that sets no rate *)
Definition no_rate_table : gmap string layer_def :=
  {[ "X" := {| shutters := []; rate := None |} ]}.

Definition substrate_table : gmap string layer_def :=
  {[ "Substrate" := {| shutters := []; rate := Some (Float.Fin 3600) |} ]}.

Definition upper_case_table : gmap string layer_def :=
  {[ "SUBSTRATE" := {| shutters := []; rate := Some (Float.Fin 3600) |} ]}.



(** * Properties

    ** Binary64 rounding *)

Module FloatFacts.
Import Float.
Local Open Scope Q_scope.

Lemma pow2_pos e : 0 < pow2 e.
Proof. apply Qpower_0_lt. reflexivity. Qed.

Lemma pow2_add a b : pow2 (a + b) == pow2 a * pow2 b.
Proof. apply Qpower_plus. discriminate. Qed.

Lemma pow2_le a b : (a <= b)%Z -> pow2 a <= pow2 b.
Proof. intros H. apply Qpower_le_compat_l; [exact H | discriminate]. Qed.

Lemma pow2_lt a b : (a < b)%Z -> pow2 a < pow2 b.
Proof. intros H. apply Qpower_lt_compat_l; [exact H | reflexivity]. Qed.

Lemma pow2_lt_inv a b : pow2 a < pow2 b -> (a < b)%Z.
Proof. intros H. apply (Qpower_lt_compat_l_inv 2); [exact H | reflexivity]. Qed.

Lemma pow2_Z e : (0 <= e)%Z -> pow2 e == inject_Z (2 ^ e).
Proof. intros H. unfold pow2. rewrite Zpower_Qpower by exact H. reflexivity. Qed.

Lemma pow2_succ a : pow2 (a + 1) == 2 * pow2 a.
Proof. rewrite pow2_add. change (pow2 1) with 2. ring. Qed.

(** a positive integer lies between two consecutive powers of two *)
Lemma log2_bounds (n : Z) :
  (0 < n)%Z -> pow2 (Z.log2 n) <= inject_Z n /\ inject_Z n < pow2 (Z.log2 n + 1).
Proof.
  intros H. destruct (Z.log2_spec n H) as [H1 H2].
  pose proof (Z.log2_nonneg n) as H0.
  rewrite !pow2_Z by lia. rewrite <- Zle_Qle, <- Zlt_Qlt.
  replace (Z.log2 n + 1)%Z with (Z.succ (Z.log2 n)) by lia. split; assumption.
Qed.

Lemma Qmake_mul (a : Z) (b : positive) : (a # b) * inject_Z (Zpos b) == inject_Z a.
Proof. unfold Qeq, Qmult, inject_Z. cbn. lia. Qed.

Lemma ilog2_spec x : 0 < x -> pow2 (ilog2 x) <= x /\ x < pow2 (ilog2 x + 1).
Proof.
  intros Hx. unfold ilog2.
  destruct x as [a b]. cbn [Qnum Qden].
  assert (Ha : (0 < a)%Z) by (unfold Qlt in Hx; cbn in Hx; lia).
  destruct (log2_bounds a Ha) as [A1 A2].
  destruct (log2_bounds (Zpos b) eq_refl) as [B1 B2].
  pose proof (Qmake_mul a b) as Hab.
  set (la := Z.log2 a) in *. set (lb := Z.log2 (Zpos b)) in *.
  rewrite pow2_succ in A2, B2.
  assert (E : pow2 (la - lb) * pow2 lb == pow2 la).
  { rewrite <- pow2_add. replace (la - lb + lb)%Z with la by lia. reflexivity. }
  pose proof (pow2_pos la). pose proof (pow2_pos lb). pose proof (pow2_pos (la - lb)).
  destruct (Qle_bool (pow2 (la - lb)) (a # b)) eqn:Hc.
  - apply Qle_bool_iff in Hc. split; [exact Hc|].
    rewrite pow2_succ. nra.
  - assert (Hlt : a # b < pow2 (la - lb)).
    { apply Qnot_le_lt. intros Hle. apply Qle_bool_iff in Hle. congruence. }
    replace (la - lb - 1 + 1)%Z with (la - lb)%Z by lia. split; [|exact Hlt].
    assert (E' : 2 * pow2 (la - lb - 1) == pow2 (la - lb)).
    { rewrite <- pow2_succ. replace (la - lb - 1 + 1)%Z with (la - lb)%Z by lia. reflexivity. }
    nra.
Qed.

Lemma ilog2_unique x e : pow2 e <= x -> x < pow2 (e + 1) -> ilog2 x = e.
Proof.
  intros H1 H2.
  assert (Hx : 0 < x) by (pose proof (pow2_pos e); lra).
  destruct (ilog2_spec x Hx) as [S1 S2].
  assert (ilog2 x < e + 1)%Z by (apply pow2_lt_inv; lra).
  assert (e < ilog2 x + 1)%Z by (apply pow2_lt_inv; lra).
  lia.
Qed.

Lemma ilog2_comp x y : 0 < x -> x == y -> ilog2 x = ilog2 y.
Proof.
  intros Hx E. symmetry. destruct (ilog2_spec x Hx) as [S1 S2].
  apply ilog2_unique; rewrite <- E; assumption.
Qed.

Lemma rne_comp x y : x == y -> rne x = rne y.
Proof.
  intros E. unfold rne.
  assert (F : Qfloor x = Qfloor y) by (rewrite E; reflexivity).
  rewrite F. rewrite E. reflexivity.
Qed.

Lemma rne_Z (n : Z) : rne (inject_Z n) = n.
Proof.
  unfold rne. rewrite Qfloor_Z.
  assert (E : inject_Z n - inject_Z n == 0) by ring.
  rewrite E. reflexivity.
Qed.

Lemma rne_bounds x : inject_Z (rne x) - (1 # 2) <= x /\ x <= inject_Z (rne x) + (1 # 2).
Proof.
  unfold rne. pose proof (Qfloor_le x) as L. pose proof (Qlt_floor x) as U.
  rewrite inject_Z_plus in U. change (inject_Z 1) with 1 in U.
  destruct (Qcompare_spec (x - inject_Z (Qfloor x)) (1 # 2)) as [E|E|E].
  - destruct (Z.even (Qfloor x));
      [|rewrite inject_Z_plus; change (inject_Z 1) with 1]; split; lra.
  - split; lra.
  - rewrite inject_Z_plus. change (inject_Z 1) with 1. split; lra.
Qed.

(** rounding to an integer is monotone with respect to integer bounds *)
Lemma rne_ge x (n : Z) : inject_Z n <= x -> (n <= rne x)%Z.
Proof.
  intros H. unfold rne.
  assert (n <= Qfloor x)%Z.
  { rewrite <- (Qfloor_Z n). apply Qfloor_resp_le. exact H. }
  destruct (Qcompare _ _); [destruct (Z.even _)| |]; lia.
Qed.

Lemma rne_le x (n : Z) : x <= inject_Z n -> (rne x <= n)%Z.
Proof.
  intros H. unfold rne.
  pose proof (Qfloor_le x) as L.
  assert (F : (Qfloor x <= n)%Z).
  { rewrite <- (Qfloor_Z n). apply Qfloor_resp_le. exact H. }
  destruct (Z.eq_dec (Qfloor x) n) as [E0|Hne].
  - rewrite E0 in *. assert (E : x - inject_Z n == 0) by (apply Qle_antisym; lra).
    rewrite E. change (0 ?= 1 # 2) with Lt. cbv iota. lia.
  - destruct (Qcompare _ _); [destruct (Z.even _)| |]; lia.
Qed.

Lemma RN_comp x y : x == y -> RN x = RN y.
Proof.
  intros E. unfold RN. rewrite <- E.
  destruct (Qle_bool x 0) eqn:Hx; [reflexivity|].
  assert (0 < x).
  { apply Qnot_le_lt. intros Hle. apply Qle_bool_iff in Hle. congruence. }
  rewrite <- (ilog2_comp x y) by assumption.
  set (e := Z.max (ilog2 x - 52) (-1074)).
  assert (R : rne (x / pow2 e) = rne (y / pow2 e)) by (apply rne_comp; rewrite E; reflexivity).
  rewrite <- R. reflexivity.
Qed.

Lemma pow2_diff a b : pow2 a == pow2 (a - b) * pow2 b.
Proof. rewrite <- pow2_add. replace (a - b + b)%Z with a by lia. reflexivity. Qed.

Lemma RN_b64 q : b64 q -> q < pow2 1024 -> RN q = Fin (Qred q).
Proof.
  intros (m & e & E & Hm & He) Hfin. unfold RN.
  destruct (Qle_bool q 0) eqn:H0.
  - apply Qle_bool_iff in H0.
    assert (Hz : q == 0).
    { apply Qle_antisym; [exact H0|]. rewrite E.
      apply Qmult_le_0_compat; [rewrite <- (Zle_Qle 0); lia | apply Qlt_le_weak, pow2_pos]. }
    f_equal. symmetry. apply (Qred_complete q 0 Hz).
  - assert (Hq : 0 < q).
    { apply Qnot_le_lt. intros Hle. apply Qle_bool_iff in Hle. congruence. }
    assert (Hm0 : (0 < m)%Z).
    { destruct (Z.eq_dec m 0%Z) as [->|]; [|lia].
      exfalso. assert (q == 0) by (rewrite E; ring). lra. }
    destruct (log2_bounds m Hm0) as [L1 L2].
    assert (HL : (Z.log2 m < 53)%Z).
    { apply Z.log2_lt_pow2; lia. }
    pose proof (Z.log2_nonneg m) as HL0.
    set (L := Z.log2 m) in *.
    assert (Hlog : ilog2 q = (L + e)%Z).
    { pose proof (pow2_pos e).
      apply ilog2_unique; rewrite E.
      - rewrite pow2_add. nra.
      - replace (L + e + 1)%Z with ((L + 1) + e)%Z by lia. rewrite pow2_add. nra. }
    rewrite Hlog.
    set (ex := Z.max (L + e - 52) (-1074)).
    assert (Hex : (ex <= e)%Z) by (unfold ex; lia).
    assert (Ediv : q / pow2 ex == inject_Z (m * 2 ^ (e - ex))).
    { rewrite inject_Z_mult, <- pow2_Z by lia. rewrite E.
      rewrite (pow2_diff e ex). field.
      pose proof (pow2_pos ex). lra. }
    rewrite (rne_comp _ _ Ediv), rne_Z.
    assert (Ey : inject_Z (m * 2 ^ (e - ex)) * pow2 ex == q).
    { rewrite inject_Z_mult, <- pow2_Z by lia. rewrite E.
      rewrite (pow2_diff e ex). ring. }
    rewrite Ey.
    assert (Hov : Qle_bool (pow2 1024) q = false).
    { destruct (Qle_bool (pow2 1024) q) eqn:Hc; [|reflexivity].
      apply Qle_bool_iff in Hc. lra. }
    rewrite Hov. f_equal. apply Qred_complete. exact Ey.
Qed.

Lemma RN_range x q :
  RN x = Fin q -> b64 q /\ q < pow2 1024 /\ Qred q = q.
Proof.
  unfold RN. destruct (Qle_bool x 0) eqn:H0.
  - intros [= <-]. split; [|split; [reflexivity|reflexivity]].
    exists 0%Z, 0%Z. split; [reflexivity|lia].
  - assert (Hx : 0 < x).
    { apply Qnot_le_lt. intros Hle. apply Qle_bool_iff in Hle. congruence. }
    destruct (ilog2_spec x Hx) as [S1 S2].
    set (e := Z.max (ilog2 x - 52) (-1074)).
    set (M := rne (x / pow2 e)).
    destruct (Qle_bool (pow2 1024) (inject_Z M * pow2 e)) eqn:Hov; [discriminate|].
    intros [= <-].
    assert (Hfin : inject_Z M * pow2 e < pow2 1024).
    { apply Qnot_le_lt. intros Hle. apply Qle_bool_iff in Hle. congruence. }
    pose proof (pow2_pos e) as He.
    assert (HM0 : (0 <= M)%Z).
    { apply rne_ge. apply Qlt_le_weak. apply Qlt_shift_div_l; [exact He|].
      change (inject_Z 0) with 0. lra. }
    assert (HM1 : (M <= 2 ^ 53)%Z).
    { apply rne_le. apply Qle_shift_div_r; [exact He|].
      rewrite <- pow2_Z by lia. rewrite <- pow2_add.
      apply Qlt_le_weak. eapply Qlt_le_trans; [exact S2|].
      apply pow2_le. unfold e. lia. }
    split; [|split].
    + destruct (Z.eq_dec M (2 ^ 53)%Z) as [EM|NM].
      * exists (2 ^ 52)%Z, (e + 1)%Z. split; [|split; [lia | unfold e; lia]].
        rewrite Qred_correct, EM, pow2_succ.
        rewrite <- !pow2_Z by lia.
        change (pow2 53) with (2 * pow2 52). ring.
      * exists M, e. split; [apply Qred_correct | split; [lia | unfold e; lia]].
    + rewrite Qred_correct. exact Hfin.
    + apply Qred_complete, Qred_correct.
Qed.

(** Rounding a binary64 value gives it back. *)
Lemma RN_idem x q : RN x = Fin q -> RN q = Fin q.
Proof.
  intros H. destruct (RN_range x q H) as (B & F & R).
  rewrite (RN_b64 q B F). f_equal. exact R.
Qed.

(** The rounding of a positive rational below [2^1023], written out. *)
Lemma RN_pos x :
  0 < x -> x < pow2 1023 ->
  RN x = Fin (Qred (inject_Z (rne (x / pow2 (Z.max (ilog2 x - 52) (-1074))))
                    * pow2 (Z.max (ilog2 x - 52) (-1074)))).
Proof.
  intros Hpos Hx. unfold RN.
  assert (H0 : Qle_bool x 0 = false).
  { destruct (Qle_bool x 0) eqn:E; [|reflexivity]. apply Qle_bool_iff in E. lra. }
  rewrite H0.
  destruct (ilog2_spec x Hpos) as [S1 S2].
  assert (Hlog : (ilog2 x < 1023)%Z) by (apply pow2_lt_inv; lra).
  set (e := Z.max (ilog2 x - 52) (-1074)).
  set (M := rne (x / pow2 e)).
  pose proof (pow2_pos e) as He.
  assert (HM1 : (M <= 2 ^ 53)%Z).
  { apply rne_le. apply Qle_shift_div_r; [exact He|].
    rewrite <- pow2_Z by lia. rewrite <- pow2_add.
    apply Qlt_le_weak. eapply Qlt_le_trans; [exact S2|].
    apply pow2_le. unfold e. lia. }
  assert (Hy : inject_Z M * pow2 e <= pow2 1023).
  { apply Qle_trans with (inject_Z (2 ^ 53) * pow2 e).
    - apply Qmult_le_compat_r; [rewrite <- Zle_Qle; exact HM1 | lra].
    - rewrite <- pow2_Z by lia. rewrite <- pow2_add.
      apply pow2_le. unfold e. lia. }
  assert (Hlt : pow2 1023 < pow2 1024) by (apply pow2_lt; lia).
  destruct (Qle_bool (pow2 1024) (inject_Z M * pow2 e)) eqn:Hov; [|reflexivity].
  apply Qle_bool_iff in Hov. lra.
Qed.

End FloatFacts.

(** ** The loops *)

Module ScanFacts.

Lemma scan_lines_cons lay_data raw rest st :
  scan_lines lay_data (raw :: rest) st =
  match kind_of raw with
  | KLoop c =>
      do iterations <- c;
      let '(body, after) := split_block rest in
      do block_layers <- parse_block body lay_data;
      match after with
      | None => Ok (st ++ [Group iterations block_layers])
      | Some rest' => scan_lines lay_data rest' (st ++ [Group iterations block_layers])
      end
  | KLayer =>
      do parsed <- parse_layer_line (Str.strip raw) lay_data;
      match parsed with
      | Some l => scan_lines lay_data rest (st ++ [Layer l])
      | None => scan_lines lay_data rest st
      end
  | KOther => scan_lines lay_data rest st
  end.
Proof.
  cbn [scan_lines]. unfold kind_of.
  destruct (Str.startswith "for(" (Str.strip raw)) eqn:Hfor.
  - destruct (Re.match_ Pat.for_ (Str.strip raw)) as [[m r]|]; [|reflexivity].
    destruct (int_of (Pat.text 2 m)) as [n|e]; [|reflexivity].
    cbn [rbind].
    assert (G : forall ls acc,
      (fix block (ls : list string) (body : list string) {struct ls} : result (list item) :=
         match ls with
         | [] => do block_layers <- parse_block (rev body) lay_data;
                 Ok (st ++ [Group n block_layers])
         | b :: ls' =>
             if Str.startswith "next(" (Str.strip b)
             then do block_layers <- parse_block (rev body) lay_data;
                  scan_lines lay_data ls' (st ++ [Group n block_layers])
             else block ls' (Str.strip b :: body)
         end) ls acc =
      let '(body, after) := split_block ls in
      do block_layers <- parse_block (rev acc ++ body) lay_data;
      match after with
      | None => Ok (st ++ [Group n block_layers])
      | Some rest' => scan_lines lay_data rest' (st ++ [Group n block_layers])
      end).
    { induction ls as [|b ls IH]; intros acc.
      - cbn. rewrite app_nil_r. reflexivity.
      - cbn [split_block]. unfold closes_loop.
        destruct (Str.startswith "next(" (Str.strip b)).
        + rewrite app_nil_r. reflexivity.
        + rewrite IH. destruct (split_block ls) as [body after].
          cbn [rev]. rewrite <- app_assoc. reflexivity. }
    rewrite (G rest []). reflexivity.
  - destruct (Str.startswith "layer(" (Str.strip raw)); reflexivity.
Qed.

Lemma split_block_closed body nxt rest :
  Forall (fun b => closes_loop b = false) body ->
  closes_loop nxt = true ->
  split_block (body ++ nxt :: rest) = (map Str.strip body, Some rest).
Proof.
  intros Hb Hn. induction Hb as [|b body Hb _ IH]; cbn [app split_block map].
  - rewrite Hn. reflexivity.
  - rewrite Hb, IH. reflexivity.
Qed.

Lemma split_block_open body :
  Forall (fun b => closes_loop b = false) body ->
  split_block body = (map Str.strip body, None).
Proof.
  intros Hb. induction Hb as [|b body Hb _ IH]; cbn [split_block map].
  - reflexivity.
  - rewrite Hb, IH. reflexivity.
Qed.

Lemma split_block_shorter ls body rest' :
  split_block ls = (body, Some rest') -> (length rest' < length ls)%nat.
Proof.
  revert body. induction ls as [|b ls IH]; intros body; cbn [split_block length].
  - discriminate.
  - destruct (closes_loop b).
    + intros [= _ <-]. lia.
    + destruct (split_block ls) as [body0 after] eqn:E.
      intros [= _ ->]. specialize (IH _ eq_refl). lia.
Qed.

(** A closed prefix is scanned on its own. *)
Lemma scan_closed_app lay_data pre :
  closed pre -> forall rest st,
  scan_lines lay_data (pre ++ rest) st =
  do st' <- scan_lines lay_data pre st; scan_lines lay_data rest st'.
Proof.
  induction 1 as [|raw pre Hk _ IH|raw c body nxt pre Hk Hb Hn _ IH]; intros rest st.
  - reflexivity.
  - cbn [app]. rewrite !scan_lines_cons.
    destruct (kind_of raw) as [c| |].
    + destruct (Hk c eq_refl).
    + destruct (parse_layer_line (Str.strip raw) lay_data) as [[l|]|e]; cbn [rbind]; auto.
    + auto.
  - cbn [app]. rewrite !scan_lines_cons, Hk.
    destruct c as [n|e]; [|reflexivity]. cbn [rbind].
    rewrite <- app_assoc. cbn [app].
    rewrite !(split_block_closed body nxt) by assumption.
    destruct (parse_block (map Str.strip body) lay_data) as [bl|e]; cbn [rbind]; auto.
Qed.

Lemma parse_block_inv (P : layer -> Prop) lay_data :
  (forall line l, parse_layer_line line lay_data = Ok (Some l) -> P l) ->
  forall block ls, parse_block block lay_data = Ok ls -> Forall P ls.
Proof.
  intros HP. induction block as [|bl block IH]; intros ls; cbn.
  - intros [= <-]. constructor.
  - destruct (parse_layer_line bl lay_data) as [parsed|e] eqn:E; [|discriminate].
    cbn [rbind]. destruct (parse_block block lay_data) as [more|e]; [|discriminate].
    cbn [rbind]. intros [= <-]. specialize (IH _ eq_refl).
    destruct parsed as [l|]; [constructor; eauto | exact IH].
Qed.

Lemma scan_lines_inv (P : layer -> Prop) lay_data :
  (forall line l, parse_layer_line line lay_data = Ok (Some l) -> P l) ->
  forall lines st st',
  Forall (item_all P) st ->
  scan_lines lay_data lines st = Ok st' ->
  Forall (item_all P) st'.
Proof.
  intros HP lines.
  remember (length lines) as k eqn:Hk.
  assert (Hle : (length lines <= k)%nat) by lia. clear Hk.
  revert lines Hle. induction k as [|k IH]; intros lines Hle st st' Hst;
    (destruct lines as [|raw rest]; [cbn; intros [= <-]; exact Hst | cbn in Hle]);
    [lia|].
  rewrite scan_lines_cons. destruct (kind_of raw) as [[n|e]| |]; cbn [rbind].
  - destruct (split_block rest) as [body after] eqn:Hsplit.
    destruct (parse_block body lay_data) as [bl|e] eqn:Hbl; [|discriminate].
    cbn [rbind].
    assert (Hst' : Forall (item_all P) (st ++ [Group n bl])).
    { apply Forall_app; split; [exact Hst|]. constructor; [|constructor].
      cbn. eapply parse_block_inv; eauto. }
    destruct after as [rest'|].
    + apply IH; [|exact Hst'].
      apply split_block_shorter in Hsplit. lia.
    + intros [= <-]. exact Hst'.
  - discriminate.
  - destruct (parse_layer_line (Str.strip raw) lay_data) as [[l|]|e] eqn:E; cbn [rbind].
    + apply IH; [lia|]. apply Forall_app; split; [exact Hst|].
      constructor; [|constructor]. cbn. eauto.
    + apply IH; [lia | exact Hst].
    + discriminate.
  - apply IH; [lia | exact Hst].
Qed.

Lemma lay_lines_app st a b :
  lay_lines st (a ++ b) = do st' <- lay_lines st a; lay_lines st' b.
Proof.
  revert st. induction a as [|raw a IH]; intros st; cbn.
  - reflexivity.
  - destruct (lay_line st raw) as [st'|e]; cbn [rbind]; auto.
Qed.

End ScanFacts.

Module LineFacts.

(** The growth branch of [parse_layer_line], once the line has matched. *)
Lemma parse_layer_line_growth line lay_data g rest value :
  Re.match_ Pat.layer line = Some (g, rest) ->
  Float.of_literal (Pat.text 2 g) = Ok value ->
  String.eqb (Pat.text 1 g) "shutterzu" = false ->
  parse_layer_line line lay_data =
  do entry <- getitem lay_data (Some (Pat.text 1 g));
  do tt <- (if String.eqb (Pat.text 3 g) "nm" then
              do time_s <- time_of_thickness (rate entry) value;
              Ok (Some (value, time_s))
            else if String.eqb (Pat.text 3 g) "s" then
              do thickness <- thickness_of_time (rate entry) value;
              Ok (Some (thickness, value))
            else Ok None);
  match tt with
  | None => Ok None
  | Some (thickness, time_s) =>
      Ok (Some {| Material := Pat.text 1 g;
                  Composition :=
                    match Re.search Pat.composition (Pat.text 4 g) with
                    | Some (c, _) => Pat.text 1 c
                    | None => "Unknown"
                    end;
                  Thickness := Flt (Float.round2 thickness);
                  Time := Flt (Float.round2 time_s);
                  Shutters := ShutterText (Str.join ", " (shutters entry));
                  Repeat := Some 1;
                  GrowthRate := None |})
  end.
Proof.
  intros Hm Hv Hs. unfold parse_layer_line. rewrite Hm, Hv. cbn [rbind].
  rewrite Hs. reflexivity.
Qed.

(** A line that raises at the top level of a program whose earlier loops
    are closed makes the whole parse raise. *)
Lemma raise_propagates lay_data pre raw post st e :
  closed pre ->
  scan_lines lay_data pre [] = Ok st ->
  kind_of raw = KLayer ->
  parse_layer_line (Str.strip raw) lay_data = Raise e ->
  parse_epi_file_with_loops (pre ++ raw :: post) lay_data = Raise e.
Proof.
  intros Hc Hpre Hk Hr. unfold parse_epi_file_with_loops.
  rewrite (ScanFacts.scan_closed_app lay_data pre Hc), Hpre. cbn [rbind].
  rewrite ScanFacts.scan_lines_cons, Hk, Hr. reflexivity.
Qed.

End LineFacts.

(** C1, as the code has it: for the definitions
    definelayer(GaAs) rate(600) open(As,Ga) enddefine (one directive a
    line) and the program line "layer(GaAs,120s) // GaAs buffer", the
    table maps GaAs to the rate 600.0 and the shutters As, Ga; the
    loop-capable parser returns the synthetic substrate followed by one
    growth layer with material GaAs, thickness 20.0, time 120.0, the
    shutters joined as the text "As, Ga", repeat 1 and the composition
    tag GaAs, which its pattern list finds in the comment; the loop-free
    [parse_epi_file], whose patterns are the ternary ones only, returns
    that single layer with the tag Unknown and prints nothing. *)
Theorem GaAs_buffer_resolved :
  (do t <- parse_lay_file GaAs_definitions; Ok (t !! "GaAs")) =
    Ok (Some {| shutters := ["As"; "Ga"]; rate := Some (Float.Fin 600) |}) /\
  example_run GaAs_definitions GaAs_program =
    Ok [substrate_layer;
        {| Material := "GaAs"; Composition := "GaAs";
           Thickness := Flt (Float.Fin 20); Time := Flt (Float.Fin 120);
           Shutters := ShutterText "As, Ga";
           Repeat := Some 1; GrowthRate := None |}] /\
  (do t <- parse_lay_file GaAs_definitions; parse_epi_file GaAs_program t) =
    Ok ([{| Material := "GaAs"; Composition := "Unknown";
            Thickness := Flt (Float.Fin 20); Time := Flt (Float.Fin 120);
            Shutters := ShutterText "As, Ga";
            Repeat := None; GrowthRate := Some (Flt (Float.Fin 600)) |}], []).
Proof. split; [|split]; vm_compute; reflexivity. Qed.

(** C1 fails as stated: the layer that [parse_layer_line] resolves for
    the program line does not carry the tag Unknown. *)
Lemma GaAs_buffer_tag_not_Unknown :
  exists lay_data l,
    parse_lay_file GaAs_definitions = Ok lay_data /\
    parse_layer_line "layer(GaAs,120s) // GaAs buffer" lay_data = Ok (Some l) /\
    Composition l = "GaAs" /\ Composition l <> "Unknown".
Proof.
  exists GaAs_table. eexists.
  split; [vm_compute; reflexivity|].
  split; [vm_compute; reflexivity|]. split; [reflexivity|discriminate].
Qed.

Module EpiFacts.

(** One turn of the loop-free parser adds at most one layer or one
    warning, and only for an instruction. *)
Lemma epi_line_count lay_data st pr raw st' pr' :
  epi_line lay_data (st, pr) raw = Ok (st', pr') ->
  (length st' + length pr' <=
   length st + length pr + (if is_instruction raw then 1 else 0))%nat.
Proof.
  unfold epi_line, is_instruction.
  destruct (Str.startswith "layer(" (Str.strip raw)); cbn [andb];
    [|intros [= <- <-]; lia].
  destruct (Re.match_ Pat.layer (Str.strip raw)) as [[g rest]|];
    [|intros [= <- <-]; lia].
  rewrite bool_decide_eq_true_2 by eauto.
  destruct (Float.of_literal (Pat.text 2 g)) as [value|e]; [|discriminate].
  cbn [rbind].
  destruct (String.eqb (Pat.text 1 g) "shutterzu").
  { intros [= <- <-]. rewrite length_app. cbn. lia. }
  destruct (lay_data !! Pat.text 1 g) as [entry|].
  - destruct (String.eqb (Pat.text 3 g) "s").
    + destruct (thickness_of_time (rate entry) value); [|discriminate].
      cbn [rbind]. intros [= <- <-]. rewrite length_app. cbn. lia.
    + destruct (String.eqb (Pat.text 3 g) "nm").
      * destruct (time_of_thickness (rate entry) value); [|discriminate].
        cbn [rbind]. intros [= <- <-]. rewrite length_app. cbn. lia.
      * cbn [rbind]. intros [= <- <-]. lia.
  - intros [= <- <-]. rewrite length_app. cbn. lia.
Qed.

Lemma epi_lines_count lay_data lines : forall st pr st' pr',
  epi_lines lay_data (st, pr) lines = Ok (st', pr') ->
  (length st' + length pr' <= length st + length pr + instruction_count lines)%nat.
Proof.
  induction lines as [|raw lines IH]; intros st pr st' pr'; cbn [epi_lines].
  - intros [= <- <-]. unfold instruction_count. cbn. lia.
  - destruct (epi_line lay_data (st, pr) raw) as [[st1 pr1]|e] eqn:E; [|discriminate].
    cbn [rbind]. intros H. apply IH in H. apply epi_line_count in E.
    unfold instruction_count in *. rewrite filter_cons.
    destruct (is_instruction raw); case_decide; try congruence; cbn [length]; lia.
Qed.

End EpiFacts.

(** C2, on the loop-capable parser: an instruction at the top level of a
    program whose material is neither the idle sentinel nor a key of the
    definitions table makes [parse_epi_file_with_loops] abort with
    KeyError; nothing is dropped and no stack is returned.  The
    loop-free [parse_epi_file] does what the claim says: it drops the
    line, prints a warning and goes on, and the layers and the warnings
    it returns are together at most as many as the instructions, so that
    a warning leaves the stack strictly shorter than the instruction
    count. *)
Theorem undefined_material_aborts lay_data pre raw post st g rest value :
  closed pre ->
  scan_lines lay_data pre [] = Ok st ->
  kind_of raw = KLayer ->
  Re.match_ Pat.layer (Str.strip raw) = Some (g, rest) ->
  Float.of_literal (Pat.text 2 g) = Ok value ->
  String.eqb (Pat.text 1 g) "shutterzu" = false ->
  lay_data !! Pat.text 1 g = None ->
  parse_epi_file_with_loops (pre ++ raw :: post) lay_data
    = Raise (KeyError (Pat.text 1 g)) /\
  (forall layer_stack printed,
     epi_line lay_data (layer_stack, printed) raw =
     Ok (layer_stack,
         printed ++ [String.append "Warning: "
                       (String.append (Pat.text 1 g) " not in .lay file.")])) /\
  (forall lines layer_stack printed,
     parse_epi_file lines lay_data = Ok (layer_stack, printed) ->
     (length layer_stack + length printed <= instruction_count lines)%nat).
Proof.
  intros Hc Hpre Hk Hm Hv Hs Hno. split; [|split].
  - apply (LineFacts.raise_propagates lay_data pre raw post st); try assumption.
    rewrite (LineFacts.parse_layer_line_growth _ _ _ _ _ Hm Hv Hs).
    unfold getitem. rewrite Hno. reflexivity.
  - intros layer_stack printed. unfold epi_line.
    assert (Hl : Str.startswith "layer(" (Str.strip raw) = true).
    { unfold kind_of in Hk.
      destruct (Str.startswith "for(" (Str.strip raw)).
      - destruct (Re.match_ Pat.for_ (Str.strip raw)) as [[? ?]|]; discriminate.
      - destruct (Str.startswith "layer(" (Str.strip raw)); [reflexivity|discriminate]. }
    rewrite Hl, Hm, Hv. cbn [rbind]. rewrite Hs, Hno. reflexivity.
  - intros lines layer_stack printed H.
    apply (EpiFacts.epi_lines_count lay_data lines [] []) in H. exact H.
Qed.

(** An instance: the material AlAs with an empty table, between two idle
    periods. *)
Lemma undefined_material_aborts_witness :
  parse_epi_file_with_loops
    ["layer(shutterzu,30s)"; "layer(AlAs,10nm)"; "layer(shutterzu,5s)"] ∅
    = Raise (KeyError "AlAs") /\
  parse_epi_file
    ["layer(shutterzu,30s)"; "layer(AlAs,10nm)"; "layer(shutterzu,5s)"] ∅
    = Ok ([idle_layer (Float.Fin 30) "s"; idle_layer (Float.Fin 5) "s"],
          ["Warning: AlAs not in .lay file."]).
Proof.
  split; [|vm_compute; reflexivity].
  apply (undefined_material_aborts ∅ ["layer(shutterzu,30s)"] "layer(AlAs,10nm)"
           ["layer(shutterzu,5s)"]
           [Layer (idle_layer (Float.Fin 30) "s")]
           [(4%nat, ""); (3%nat, "nm"); (2%nat, "10"); (1%nat, "AlAs")] ""
           (Float.Fin 10)).
  - apply closed_line; [intros c; vm_compute; discriminate | apply closed_nil].
  - vm_compute. reflexivity.
  - vm_compute. reflexivity.
  - vm_compute. reflexivity.
  - vm_compute. reflexivity.
  - vm_compute. reflexivity.
  - vm_compute. reflexivity.
Defined.

Module ConvFacts.
Import Float.
Local Open Scope Q_scope.

Lemma RN_zero q : q == 0 -> RN q = Fin 0.
Proof. intros E. rewrite (FloatFacts.RN_comp q 0 E). reflexivity. Qed.

Lemma is_zero_true q : is_zero q = true <-> q == 0.
Proof. apply Qeq_bool_iff. Qed.

(** [0.0 * t / 3600] is [0.0] for a finite [t]. *)
Lemma thickness_of_time_zero_rate r t :
  r == 0 -> thickness_of_time (Some (Fin r)) (Fin t) = Ok (Fin 0).
Proof.
  intros E. unfold thickness_of_time.
  change (of_int 3600) with (Ok (Fin 3600)). cbn [rbind mul].
  rewrite (RN_zero (r * t)) by (rewrite E; ring).
  reflexivity.
Qed.

(** [x * 3600 / 0.0] raises. *)
Lemma time_of_thickness_zero_rate r x :
  r == 0 -> time_of_thickness (Some (Fin r)) x = Raise ZeroDivisionError.
Proof.
  intros E. unfold time_of_thickness.
  change (of_int 3600) with (Ok (Fin 3600)). cbn [rbind]. unfold div.
  apply is_zero_true in E. rewrite E. reflexivity.
Qed.

End ConvFacts.

(** C3, as the code has it: for a growth instruction at the top level
    whose material is defined and is not the idle sentinel, an absent
    rate makes the conversion raise TypeError for the units nm and s,
    and a zero rate makes it raise ZeroDivisionError for the unit nm;
    either aborts the whole parse, no instruction is dropped and no
    diagnostic is kept.  With a zero rate, the unit s and a finite value
    nothing is raised: the layer is resolved with thickness 0.0. *)
Theorem missing_rate_aborts lay_data pre raw post st g rest value entry :
  closed pre ->
  scan_lines lay_data pre [] = Ok st ->
  kind_of raw = KLayer ->
  Re.match_ Pat.layer (Str.strip raw) = Some (g, rest) ->
  Float.of_literal (Pat.text 2 g) = Ok value ->
  String.eqb (Pat.text 1 g) "shutterzu" = false ->
  lay_data !! Pat.text 1 g = Some entry ->
  (rate entry = None ->
   Pat.text 3 g = "nm" \/ Pat.text 3 g = "s" ->
   parse_epi_file_with_loops (pre ++ raw :: post) lay_data = Raise TypeError) /\
  (forall r, rate entry = Some (Float.Fin r) -> (r == 0)%Q ->
   (Pat.text 3 g = "nm" ->
    parse_epi_file_with_loops (pre ++ raw :: post) lay_data
      = Raise ZeroDivisionError) /\
   (forall t, Pat.text 3 g = "s" -> value = Float.Fin t ->
    exists l, parse_layer_line (Str.strip raw) lay_data = Ok (Some l) /\
              Thickness l = Flt (Float.Fin 0) /\
              Time l = Flt (Float.round2 value))).
Proof.
  intros Hc Hpre Hk Hm Hv Hs Hent.
  pose proof (LineFacts.parse_layer_line_growth _ lay_data _ _ _ Hm Hv Hs) as Hline.
  unfold getitem in Hline. rewrite Hent in Hline. cbn [rbind] in Hline.
  split; [|intros r Hr Hz; split].
  - intros Hnone [Hu|Hu];
      apply (LineFacts.raise_propagates lay_data pre raw post st); try assumption;
      rewrite Hline, Hu, Hnone; reflexivity.
  - intros Hu.
    apply (LineFacts.raise_propagates lay_data pre raw post st); try assumption.
    rewrite Hline, Hu, Hr. cbn [String.eqb Ascii.eqb Bool.eqb].
    rewrite (ConvFacts.time_of_thickness_zero_rate r value Hz). reflexivity.
  - intros t Hu ->. rewrite Hline, Hu, Hr.
    change (String.eqb "s" "nm") with false. change (String.eqb "s" "s") with true.
    cbv iota.
    rewrite (ConvFacts.thickness_of_time_zero_rate r t Hz). cbn [rbind].
    eexists. split; [reflexivity|]. split; reflexivity.
Qed.

(** An instance: the material X, defined without a rate, grown for 10 s. *)
Lemma missing_rate_aborts_witness :
  (parse_epi_file_with_loops ["layer(X,10s)"] no_rate_table = Raise TypeError) /\
  parse_lay_file ["definelayer(X)"; "enddefine"] = Ok no_rate_table.
Proof.
  split; [|vm_compute; reflexivity].
  apply (missing_rate_aborts no_rate_table [] "layer(X,10s)" [] []
           [(4%nat, ""); (3%nat, "s"); (2%nat, "10"); (1%nat, "X")] ""
           (Float.Fin 10) {| shutters := []; rate := None |}).
  - apply closed_nil.
  - reflexivity.
  - vm_compute. reflexivity.
  - vm_compute. reflexivity.
  - vm_compute. reflexivity.
  - vm_compute. reflexivity.
  - vm_compute. reflexivity.
  - reflexivity.
  - right. reflexivity.
Defined.

(** C3 fails as stated: with a material whose definition has no rate,
    the instruction is not dropped; the parse stops with TypeError. *)
Lemma missing_rate_crashes_parse :
  exists lay_data,
    parse_lay_file ["definelayer(X)"; "enddefine"] = Ok lay_data /\
    (rate <$> lay_data !! "X") = Some None /\
    parse_epi_file_with_loops ["layer(shutterzu,5s)"; "layer(X,10s)"] lay_data
      = Raise TypeError.
Proof.
  exists no_rate_table. split; [vm_compute; reflexivity|].
  split; vm_compute; reflexivity.
Qed.

Module SubstrateFacts.

Lemma has_substrate_false stack :
  has_substrate stack = false <->
  forall l, In (Layer l) stack -> Str.lower (Material l) <> "substrate".
Proof.
  unfold has_substrate. induction stack as [|it stack IH]; cbn [existsb].
  - split; [intros _ l []|reflexivity].
  - rewrite orb_false_iff, IH. split.
    + intros [H1 H2] l [->|Hin]; [|auto].
      cbn in H1. apply String.eqb_neq. exact H1.
    + intros H. split.
      * destruct it as [l|n ls]; [|reflexivity].
        cbn. apply String.eqb_neq. apply H. left. reflexivity.
      * intros l Hin. apply H. right. exact Hin.
Qed.

Lemma has_substrate_true stack :
  has_substrate stack = true <->
  exists l, In (Layer l) stack /\ Str.lower (Material l) = "substrate".
Proof.
  unfold has_substrate. rewrite existsb_exists. split.
  - intros (it & Hin & Heq). destruct it as [l|n ls]; [|discriminate].
    exists l. split; [exact Hin|]. apply String.eqb_eq. exact Heq.
  - intros (l & Hin & Heq). exists (Layer l). split; [exact Hin|].
    cbn. apply String.eqb_eq. exact Heq.
Qed.

Lemma insert_substrate_idem stack :
  insert_substrate (insert_substrate stack) = insert_substrate stack.
Proof.
  unfold insert_substrate at 2 3. destruct (has_substrate stack) eqn:E.
  - unfold insert_substrate. rewrite E. reflexivity.
  - reflexivity.
Qed.

End SubstrateFacts.

(** C4, as the code has it: the substrate is inserted if and only if no
    element at the top level of the scanned stack is a layer whose
    material is "substrate" once lowered; the layers inside the groups
    of loops are not looked at.  The inserted layer is at index 0, with
    thickness 500, time 0, repeat 1, and the empty text as composition
    and as shutters.  A stack with a substrate at its top level is
    returned as it is, and the insertion applied again changes nothing. *)
Theorem substrate_insertion lines lay_data out :
  parse_epi_file_with_loops lines lay_data = Ok out ->
  exists scanned,
    scan_lines lay_data lines [] = Ok scanned /\
    ((forall l, In (Layer l) scanned -> Str.lower (Material l) <> "substrate") ->
     out = Layer substrate_layer :: scanned) /\
    ((exists l, In (Layer l) scanned /\ Str.lower (Material l) = "substrate") ->
     out = scanned) /\
    (out = Layer substrate_layer :: scanned <->
     forall l, In (Layer l) scanned -> Str.lower (Material l) <> "substrate") /\
    insert_substrate out = out /\
    substrate_layer =
      {| Material := "Substrate"; Composition := ""; Thickness := Int 500;
         Time := Int 0; Shutters := ShutterText ""; Repeat := Some 1;
         GrowthRate := None |}.
Proof.
  unfold parse_epi_file_with_loops.
  destruct (scan_lines lay_data lines []) as [scanned|e]; [|discriminate].
  cbn [rbind]. intros [= <-]. exists scanned. split; [reflexivity|].
  split; [|split; [|split; [|split]]].
  - intros H. apply SubstrateFacts.has_substrate_false in H.
    unfold insert_substrate. rewrite H. reflexivity.
  - intros H. apply SubstrateFacts.has_substrate_true in H.
    unfold insert_substrate. rewrite H. reflexivity.
  - rewrite <- SubstrateFacts.has_substrate_false. unfold insert_substrate.
    destruct (has_substrate scanned); split; try reflexivity; try discriminate.
    intros H. exfalso. apply (f_equal (@length item)) in H. cbn in H. lia.
  - apply SubstrateFacts.insert_substrate_idem.
  - reflexivity.
Qed.

(** An instance: a layer of the material SUBSTRATE at the top level; no
    layer is inserted. *)
Lemma substrate_insertion_witness :
  exists scanned,
    scan_lines upper_case_table ["layer(SUBSTRATE,5nm)"] [] = Ok scanned /\
    insert_substrate scanned = scanned.
Proof.
  destruct (substrate_insertion ["layer(SUBSTRATE,5nm)"] upper_case_table
              [Layer {| Material := "SUBSTRATE"; Composition := "Unknown";
                        Thickness := Flt (Float.Fin 5); Time := Flt (Float.Fin 5);
                        Shutters := ShutterText ""; Repeat := Some 1;
                        GrowthRate := None |}])
    as (scanned & Hscan & _ & Hsame & _ & Hidem & _).
  - vm_compute. reflexivity.
  - exists scanned. split; [exact Hscan|].
    rewrite <- Hsame; [exact Hidem|].
    vm_compute in Hscan. injection Hscan as <-.
    eexists. split; [left; reflexivity|]. vm_compute. reflexivity.
Defined.

(** C4 fails as stated: the inserted layer has the empty text, not
    "None", as its composition, and a substrate that only occurs inside
    a loop does not prevent the insertion. *)
Lemma substrate_inside_loop_ignored :
  (parse_epi_file_with_loops [] ∅ = Ok [Layer substrate_layer] /\
   Composition substrate_layer <> "None") /\
  exists inner,
    Material inner = "Substrate" /\
    parse_epi_file_with_loops
      ["for(i,2,0.0)"; "layer(Substrate,5nm)"; "next(i)"] substrate_table
    = Ok [Layer substrate_layer; Group 2 [inner]].
Proof.
  split; [split; [reflexivity|discriminate]|].
  eexists. split; [|vm_compute; reflexivity]. reflexivity.
Qed.

(** C8, as the code has it: a loop that is opened at the top level and
    never closed takes every remaining line as its body; the parse does
    not fail for it and returns the stack with the group of that loop as
    its last element. *)
Theorem unclosed_loop_runs_to_end lay_data pre raw body st n block_layers :
  closed pre ->
  scan_lines lay_data pre [] = Ok st ->
  kind_of raw = KLoop (Ok n) ->
  Forall (fun b => closes_loop b = false) body ->
  parse_block (map Str.strip body) lay_data = Ok block_layers ->
  parse_epi_file_with_loops (pre ++ raw :: body) lay_data =
  Ok (insert_substrate (st ++ [Group n block_layers])).
Proof.
  intros Hc Hpre Hk Hb Hbl. unfold parse_epi_file_with_loops.
  rewrite (ScanFacts.scan_closed_app lay_data pre Hc), Hpre. cbn [rbind].
  rewrite ScanFacts.scan_lines_cons, Hk. cbn [rbind].
  rewrite (ScanFacts.split_block_open body Hb), Hbl. reflexivity.
Qed.

(** An instance: an idle period, then a loop that is never closed. *)
Lemma unclosed_loop_runs_to_end_witness :
  parse_epi_file_with_loops
    ["layer(shutterzu,5s)"; "for(i,2,0.0)"; "layer(shutterzu,30s)"] ∅ =
  Ok [Layer substrate_layer;
      Layer (idle_layer (Float.Fin 5) "s");
      Group 2 [idle_layer (Float.Fin 30) "s"]].
Proof.
  apply (unclosed_loop_runs_to_end ∅ ["layer(shutterzu,5s)"] "for(i,2,0.0)"
           ["layer(shutterzu,30s)"] [Layer (idle_layer (Float.Fin 5) "s")] 2
           [idle_layer (Float.Fin 30) "s"]).
  - apply closed_line; [intros c; vm_compute; discriminate | apply closed_nil].
  - vm_compute. reflexivity.
  - vm_compute. reflexivity.
  - constructor; [vm_compute; reflexivity | constructor].
  - vm_compute. reflexivity.
Defined.

(** C8 fails as stated: a program that opens a loop and ends without
    closing it is parsed to a stack. *)
Lemma unclosed_loop_returns_stack :
  Forall (fun b => closes_loop b = false) ["layer(shutterzu,30s)"] /\
  exists stack,
    parse_epi_file_with_loops ["for(i,2,0.0)"; "layer(shutterzu,30s)"] ∅
      = Ok stack /\
    stack = [Layer substrate_layer; Group 2 [idle_layer (Float.Fin 30) "s"]].
Proof.
  split; [constructor; [vm_compute; reflexivity | constructor]|].
  eexists. split; [vm_compute; reflexivity | reflexivity].
Qed.

Module LayFacts.

Lemma rate_line_not_definelayer line :
  Str.startswith "rate(" line = true -> Str.startswith "definelayer(" line = false.
Proof.
  destruct line as [|c line]; [discriminate|].
  cbn [Str.startswith]. destruct (Ascii.eqb_spec "r" c) as [<-|]; [|discriminate].
  reflexivity.
Qed.


End LayFacts.




Module TableFacts.

Lemma getitem_agree (l1 l2 : gmap string layer_def) cur :
  (forall k, cur = Some k -> l1 !! k = l2 !! k) ->
  getitem l1 cur = getitem l2 cur.
Proof.
  intros H. destruct cur as [k|]; [|reflexivity].
  unfold getitem. rewrite (H k eq_refl). reflexivity.
Qed.

Lemma insert_agree (l1 l2 : gmap string layer_def) k v j :
  l1 !! j = l2 !! j -> <[k := v]> l1 !! j = <[k := v]> l2 !! j.
Proof.
  intros H. destruct (decide (k = j)) as [->|Hne].
  - rewrite !lookup_insert_eq. reflexivity.
  - rewrite !lookup_insert_ne by assumption. exact H.
Qed.

Lemma insert_agree_same (l1 l2 : gmap string layer_def) k v :
  <[k := v]> l1 !! k = <[k := v]> l2 !! k.
Proof. rewrite !lookup_insert_eq. reflexivity. Qed.

Lemma lay_line_agree id l1 l2 cur raw :
  l1 !! id = l2 !! id ->
  (forall k, cur = Some k -> l1 !! k = l2 !! k) ->
  agree id (lay_line (l1, cur) raw) (lay_line (l2, cur) raw).
Proof.
  intros Hid Hcur. unfold lay_line.
  destruct (Str.startswith "definelayer(" (Str.strip raw)).
  { destruct (index (Str.split "(" (Str.strip raw)) 1) as [a|e]; cbn [rbind];
      [|reflexivity].
    destruct (index (Str.split ")" a) 0) as [k|e]; cbn [rbind]; [|reflexivity].
    split; [reflexivity|]. split; [apply insert_agree; exact Hid|].
    intros j [= <-]. apply insert_agree_same. }
  destruct (Str.startswith "rate(" (Str.strip raw) && truthy cur) eqn:Hr.
  { destruct (Re.search Pat.rate (Str.strip raw)) as [[g rest]|]; [|reflexivity].
    destruct (Float.of_literal (Pat.text 1 g)) as [r|e]; cbn [rbind]; [|reflexivity].
    rewrite (getitem_agree l1 l2 cur Hcur).
    destruct (getitem l2 cur) as [entry|e]; cbn [rbind]; [|reflexivity].
    split; [reflexivity|]. split; [apply insert_agree; exact Hid|].
    intros j ->. cbn. apply insert_agree_same. }
  destruct (Str.startswith "open(" (Str.strip raw) && truthy cur) eqn:Ho.
  { rewrite (getitem_agree l1 l2 cur Hcur).
    destruct (getitem l2 cur) as [entry|e]; cbn [rbind]; [|reflexivity].
    split; [reflexivity|]. split; [apply insert_agree; exact Hid|].
    intros j ->. cbn. apply insert_agree_same. }
  destruct (Str.startswith "enddefine" (Str.strip raw)).
  { split; [reflexivity|]. split; [exact Hid|]. intros j [=]. }
  split; [reflexivity|]. split; assumption.
Qed.

Lemma lay_lines_agree id lines : forall l1 l2 cur,
  l1 !! id = l2 !! id ->
  (forall k, cur = Some k -> l1 !! k = l2 !! k) ->
  agree id (lay_lines (l1, cur) lines) (lay_lines (l2, cur) lines).
Proof.
  induction lines as [|raw lines IH]; intros l1 l2 cur Hid Hcur.
  - cbn. auto.
  - cbn [lay_lines].
    pose proof (lay_line_agree id l1 l2 cur raw Hid Hcur) as Hstep.
    unfold agree in Hstep.
    destruct (lay_line (l1, cur) raw) as [[l1' c1]|e1],
             (lay_line (l2, cur) raw) as [[l2' c2]|e2]; cbn [rbind];
      try contradiction.
    + destruct Hstep as (<- & Hid' & Hcur'). apply IH; assumption.
    + exact Hstep.
Qed.

End TableFacts.

Module SuffixFacts.

(** When a line opens a definition for the identifier [id], the entry of
    [id] in the table that [parse_lay_file] returns is the one that the
    lines from that opening line on give by themselves.  If the lines
    before parse, the whole file raises exactly when the lines from the
    opening line on do. *)
Lemma suffix_decides pre raw post st a id :
  lay_lines (∅, None) pre = Ok st ->
  Str.startswith "definelayer(" (Str.strip raw) = true ->
  index (Str.split "(" (Str.strip raw)) 1 = Ok a ->
  index (Str.split ")" a) 0 = Ok id ->
  rmap (fun t : gmap string layer_def => t !! id) (parse_lay_file (pre ++ raw :: post)) =
  rmap (fun t : gmap string layer_def => t !! id) (parse_lay_file (raw :: post)).
Proof.
  intros Hpre Hd Ha Hid. unfold parse_lay_file.
  rewrite ScanFacts.lay_lines_app, Hpre. cbn [rbind lay_lines].
  destruct st as [layers cur].
  assert (Hstep : forall l c, lay_line (l, c) raw =
            Ok (<[id := {| shutters := []; rate := None |}]> l, Some id)).
  { intros l c. unfold lay_line. rewrite Hd, Ha. cbn [rbind]. rewrite Hid.
    reflexivity. }
  rewrite !Hstep. cbn [rbind].
  pose proof (TableFacts.lay_lines_agree id post
                (<[id := {| shutters := []; rate := None |}]> layers)
                (<[id := {| shutters := []; rate := None |}]> ∅)
                (Some id)) as H.
  unfold agree in H.
  destruct (lay_lines (<[id:={| shutters := []; rate := None |}]> layers, Some id) post)
    as [[l1 c1]|e1],
    (lay_lines (<[id:={| shutters := []; rate := None |}]> ∅, Some id) post)
    as [[l2 c2]|e2]; cbn [rbind rmap fst].
  - destruct H as (_ & H & _); [apply TableFacts.insert_agree_same| |].
    + intros k [= <-]. apply TableFacts.insert_agree_same.
    + rewrite H. reflexivity.
  - destruct H; [apply TableFacts.insert_agree_same|].
    intros k [= <-]. apply TableFacts.insert_agree_same.
  - destruct H; [apply TableFacts.insert_agree_same|].
    intros k [= <-]. apply TableFacts.insert_agree_same.
  - rewrite H; [reflexivity|apply TableFacts.insert_agree_same|].
    intros k [= <-]. apply TableFacts.insert_agree_same.
Qed.

End SuffixFacts.


Module IdleFacts.

(** The idle branch of [parse_layer_line]. *)
Lemma parse_layer_line_idle line lay_data g rest value :
  Re.match_ Pat.layer line = Some (g, rest) ->
  Pat.text 1 g = "shutterzu" ->
  Float.of_literal (Pat.text 2 g) = Ok value ->
  parse_layer_line line lay_data = Ok (Some (idle_layer value (Pat.text 3 g))).
Proof.
  intros Hm Hs Hv. unfold parse_layer_line. rewrite Hm, Hv, Hs. reflexivity.
Qed.

Lemma idle_layer_fields value unit : idle_fields (idle_layer value unit).
Proof. repeat split. Qed.

Lemma scaled_keeps_idle n l l' :
  scaled n l = Ok l' ->
  Material l = "Idle" /\ idle_fields l ->
  Material l' = "Idle" /\ idle_fields l'.
Proof.
  unfold scaled. intros H (Hm & Ht & Hg & Hc & Hs). rewrite Ht in H.
  cbn [mul_int rbind] in H.
  destruct (mul_int (Time l) n) as [time|e]; [|discriminate].
  cbn [rbind] in H. injection H as <-. cbn.
  repeat split; assumption.
Qed.

(** What [parse_layer_line] can return: an idle layer, or a growth layer
    of a material of the table. *)
Lemma parse_layer_line_cases line lay_data l :
  parse_layer_line line lay_data = Ok (Some l) ->
  (exists value unit, l = idle_layer value unit) \/
  (exists entry thickness time_s,
     lay_data !! Material l = Some entry /\
     Thickness l = Flt (Float.round2 thickness) /\
     Time l = Flt (Float.round2 time_s) /\
     Repeat l = Some 1 /\ GrowthRate l = None).
Proof.
  unfold parse_layer_line.
  destruct (Re.match_ Pat.layer line) as [[g rest]|]; [|discriminate].
  destruct (Float.of_literal (Pat.text 2 g)) as [value|e]; [|discriminate].
  cbn [rbind].
  destruct (String.eqb (Pat.text 1 g) "shutterzu").
  - intros [= <-]. left. eauto.
  - unfold getitem.
    destruct (lay_data !! Pat.text 1 g) as [entry|] eqn:Hent; [|discriminate].
    cbn [rbind].
    destruct (String.eqb (Pat.text 3 g) "nm").
    + destruct (time_of_thickness (rate entry) value) as [time_s|e]; [|discriminate].
      cbn [rbind]. intros [= <-]. right. exists entry, value, time_s. cbn. auto.
    + destruct (String.eqb (Pat.text 3 g) "s"); [|discriminate].
      destruct (thickness_of_time (rate entry) value) as [th|e]; [|discriminate].
      cbn [rbind]. intros [= <-]. right. exists entry, th, value. cbn. auto.
Qed.

Lemma scaled_all_inv (P : layer -> Prop) n :
  (forall l l', P l -> scaled n l = Ok l' -> P l') ->
  forall ls flat, Forall P ls -> scaled_all n ls = Ok flat -> Forall P flat.
Proof.
  intros HP. induction ls as [|l ls IH]; intros flat Hls; cbn.
  - intros [= <-]. constructor.
  - destruct (scaled n l) as [l'|e] eqn:E; [|discriminate]. cbn [rbind].
    destruct (scaled_all n ls) as [more|e]; [|discriminate]. cbn [rbind].
    intros [= <-]. inversion Hls; subst. constructor; eauto.
Qed.

Lemma flatten_layers_inv (P : layer -> Prop) :
  (forall n l l', P l -> scaled n l = Ok l' -> P l') ->
  forall stack flat,
  Forall (item_all P) stack -> flatten_layers stack = Ok flat -> Forall P flat.
Proof.
  intros HP. induction stack as [|it stack IH]; intros flat Hst; cbn.
  - intros [= <-]. constructor.
  - inversion Hst as [|? ? Hit Hrest]; subst. destruct it as [l|n ls].
    + destruct (flatten_layers stack) as [more|e]; [|discriminate]. cbn [rbind].
      intros [= <-]. constructor; [exact Hit | eauto].
    + destruct (scaled_all n ls) as [fl|e] eqn:E; [|discriminate]. cbn [rbind].
      destruct (flatten_layers stack) as [more|e]; [|discriminate]. cbn [rbind].
      intros [= <-]. apply Forall_app. split; [|eauto].
      eapply scaled_all_inv; [apply HP | exact Hit | exact E].
Qed.

End IdleFacts.

(** C7: an instruction whose material is the idle sentinel resolves,
    whatever the definitions are, to a layer with material "Idle",
    thickness 0, growth rate 0, composition "None" and no shutter, whose
    time is the value when the unit is s; the copy that the flattening
    of a loop makes of it keeps these fields.  In a stack parsed against
    definitions that do not name a material "Idle" themselves, and then
    flattened, every layer whose material is "Idle" has these fields.
    In particular the program line layer(shutterzu,30s), with no
    definition at all, gives after the substrate the layer with material
    "Idle", thickness 0, time 30.0 and composition "None". *)
Theorem idle_layers_invariant lay_data line g rest value :
  Re.match_ Pat.layer line = Some (g, rest) ->
  Pat.text 1 g = "shutterzu" ->
  Float.of_literal (Pat.text 2 g) = Ok value ->
  (exists l,
     parse_layer_line line lay_data = Ok (Some l) /\
     Material l = "Idle" /\ idle_fields l /\
     (Pat.text 3 g = "s" -> Time l = Flt value) /\
     (forall n l', scaled n l = Ok l' -> Material l' = "Idle" /\ idle_fields l')) /\
  (forall lines stack flat,
     lay_data !! "Idle" = None ->
     parse_epi_file_with_loops lines lay_data = Ok stack ->
     flatten_layers stack = Ok flat ->
     Forall (fun l => Material l = "Idle" -> idle_fields l) flat) /\
  example_run [] ["layer(shutterzu,30s)"] =
    Ok [substrate_layer;
        {| Material := "Idle"; Composition := "None"; Thickness := Int 0;
           Time := Flt (Float.Fin 30); Shutters := ShutterList [];
           Repeat := None; GrowthRate := Some (Int 0) |}].
Proof.
  intros Hm Hs Hv. split; [|split].
  - exists (idle_layer value (Pat.text 3 g)).
    split; [apply (IdleFacts.parse_layer_line_idle _ _ _ _ _ Hm Hs Hv)|].
    split; [reflexivity|]. split; [apply IdleFacts.idle_layer_fields|].
    split.
    + intros Hu. cbn. rewrite Hu. reflexivity.
    + intros n l' H. apply (IdleFacts.scaled_keeps_idle _ _ _ H).
      split; [reflexivity | apply IdleFacts.idle_layer_fields].
  - intros lines stack flat Hno Hparse Hflat.
    set (P := fun l : layer => Material l = "Idle" -> idle_fields l).
    unfold parse_epi_file_with_loops in Hparse.
    destruct (scan_lines lay_data lines []) as [scanned|e] eqn:Hscan; [|discriminate].
    cbn [rbind] in Hparse. injection Hparse as <-.
    assert (Hscanned : Forall (item_all P) scanned).
    { apply (ScanFacts.scan_lines_inv P lay_data) with (lines := lines) (st := []);
        [|constructor|exact Hscan].
      intros ln l Hl. destruct (IdleFacts.parse_layer_line_cases _ _ _ Hl)
        as [(v & u & ->)|(entry & _ & _ & Hent & _)]; intros Hmat.
      - apply IdleFacts.idle_layer_fields.
      - rewrite Hmat in Hent. congruence. }
    apply (IdleFacts.flatten_layers_inv P) with (stack := insert_substrate scanned);
      [| |exact Hflat].
    + intros n l l' Hl Hsc Hmat. unfold scaled in Hsc.
      destruct (mul_int (Thickness l) n) as [th|e] eqn:Hth; [|discriminate].
      cbn [rbind] in Hsc.
      destruct (mul_int (Time l) n) as [tm|e] eqn:Htm; [|discriminate].
      cbn [rbind] in Hsc. injection Hsc as <-. cbn in Hmat.
      destruct (Hl Hmat) as (Ht & Hg & Hc & Hsh). rewrite Ht in Hth.
      cbn in Hth. injection Hth as <-. repeat split; cbn; assumption.
    + unfold insert_substrate. destruct (has_substrate scanned); [exact Hscanned|].
      constructor; [|exact Hscanned]. cbn. unfold P. cbn. discriminate.
  - vm_compute. reflexivity.
Qed.

(** An instance: the line layer(shutterzu,30s) and no definition. *)
Lemma idle_layers_invariant_witness :
  exists l,
    parse_layer_line "layer(shutterzu,30s)" ∅ = Ok (Some l) /\
    Material l = "Idle" /\ idle_fields l /\ Time l = Flt (Float.Fin 30).
Proof.
  destruct (idle_layers_invariant ∅ "layer(shutterzu,30s)"
              [(4%nat, ""); (3%nat, "s"); (2%nat, "30"); (1%nat, "shutterzu")] ""
              (Float.Fin 30))
    as ((l & Hl & Hm & Hf & Ht & _) & _).
  - vm_compute. reflexivity.
  - vm_compute. reflexivity.
  - vm_compute. reflexivity.
  - exists l. split; [exact Hl|]. split; [exact Hm|]. split; [exact Hf|].
    apply Ht. vm_compute. reflexivity.
Defined.

Module FloatValues.
Import Float.
Local Open Scope Q_scope.

Lemma RN_is_float x : is_float (RN x).
Proof.
  destruct (RN x) as [q| |] eqn:E; cbn; [|exact I|exact I].
  apply (FloatFacts.RN_idem x q E).
Qed.


Lemma of_literal_is_float s f : of_literal s = Ok f -> is_float f.
Proof.
  unfold of_literal. intros H.
  repeat match type of H with
         | context [match ?x with _ => _ end] => destruct x
         end; try discriminate; injection H as <-; apply RN_is_float.
Qed.

(** Rounding does not overflow below [2^1023]. *)
Lemma RN_finite x : x < pow2 1023 -> exists q, RN x = Fin q.
Proof.
  intros Hx. destruct (Qlt_le_dec 0 x) as [Hpos|Hneg].
  - rewrite (FloatFacts.RN_pos x Hpos Hx). eauto.
  - unfold RN. apply Qle_bool_iff in Hneg. rewrite Hneg. eauto.
Qed.

(** [float(n)] exists for the counts below [2^1023]. *)
Lemma of_int_small n : (n < 2 ^ 1023)%Z -> exists f, of_int n = Ok f /\ is_float f.
Proof.
  intros Hn. unfold of_int.
  destruct (RN_finite (inject_Z n)) as [q Hq].
  { rewrite FloatFacts.pow2_Z by lia. rewrite <- Zlt_Qlt. exact Hn. }
  rewrite Hq. exists (Fin q). split; [reflexivity|].
  apply (FloatFacts.RN_idem _ _ Hq).
Qed.


End FloatValues.

Module FlattenFacts.


Lemma mul_int_ok x n fn : Float.of_int n = Ok fn -> exists y, mul_int x n = Ok y.
Proof.
  intros H. destruct x as [z|f]; cbn [mul_int]; [eauto|].
  rewrite H. cbn [rbind]. eauto.
Qed.





End FlattenFacts.

Module GroupFacts.



End GroupFacts.




Module ErrorFacts.
Import Float.
Local Open Scope Q_scope.

(** The error of a rounding: below [2^E] it is at most [2^(E-54)]. *)
Lemma RN_err x E :
  0 <= x -> x < pow2 E -> (-1021 <= E <= 1023)%Z ->
  exists q, RN x = Fin q /\ 0 <= q /\
            q - x <= pow2 (E - 54) /\ x - q <= pow2 (E - 54).
Proof.
  intros H0 Hx HE.
  pose proof (FloatFacts.pow2_pos (E - 54)) as Hp.
  destruct (Qlt_le_dec 0 x) as [Hpos|Hneg].
  - assert (Hx' : x < pow2 1023).
    { eapply Qlt_le_trans; [exact Hx|]. apply FloatFacts.pow2_le. lia. }
    rewrite (FloatFacts.RN_pos x Hpos Hx').
    destruct (FloatFacts.ilog2_spec x Hpos) as [S1 S2].
    assert (Hlog : (ilog2 x < E)%Z) by (apply FloatFacts.pow2_lt_inv; lra).
    set (e := Z.max (ilog2 x - 52) (-1074)).
    set (M := rne (x / pow2 e)).
    pose proof (FloatFacts.pow2_pos e) as He.
    eexists. split; [reflexivity|]. rewrite Qred_correct.
    destruct (FloatFacts.rne_bounds (x / pow2 e)) as [B1 B2]. fold M in B1, B2.
    assert (Hxe : x / pow2 e * pow2 e == x) by (field; lra).
    assert (Hee : 2 * pow2 (e - 1) == pow2 e).
    { rewrite <- FloatFacts.pow2_succ. replace (e - 1 + 1)%Z with e by lia. reflexivity. }
    assert (Hle : pow2 (e - 1) <= pow2 (E - 54)).
    { apply FloatFacts.pow2_le. unfold e. lia. }
    assert (HM0 : 0 <= inject_Z M).
    { change 0 with (inject_Z 0). rewrite <- Zle_Qle. apply FloatFacts.rne_ge.
      change (inject_Z 0) with 0. apply Qlt_le_weak.
      apply Qlt_shift_div_l; [exact He|]. lra. }
    set (y := x / pow2 e) in *. set (m := inject_Z M) in *.
    set (p := pow2 e) in *. set (h := pow2 (e - 1)) in *.
    split; [nra|]. split; nra.
  - assert (Hz : x == 0) by lra.
    rewrite (FloatFacts.RN_comp x 0 Hz).
    exists 0. split; [reflexivity|]. split; [lra|]. split; lra.
Qed.

End ErrorFacts.

Module TripFacts.
Import Float.
Local Open Scope Q_scope.

Lemma round2_err q E :
  0 <= q -> q + (1 # 200) < pow2 E -> (-1021 <= E <= 1023)%Z ->
  exists q', round2 (Fin q) = Fin q' /\ 0 <= q' /\
             q' - q <= (1 # 200) + pow2 (E - 54) /\
             q - q' <= (1 # 200) + pow2 (E - 54).
Proof.
  intros H0 Hq HE. cbn [round2].
  destruct (FloatFacts.rne_bounds (q * 100)) as [B1 B2].
  assert (Hk0 : 0 <= inject_Z (rne (q * 100))).
  { change 0 with (inject_Z 0). rewrite <- Zle_Qle. apply FloatFacts.rne_ge.
    change (inject_Z 0) with 0. lra. }
  set (k := inject_Z (rne (q * 100))) in *.
  assert (Hc : k / 100 * 100 == k) by field.
  set (c := k / 100) in *.
  destruct (ErrorFacts.RN_err c E) as (q' & Hq' & Hq0 & E1 & E2);
    [lra | lra | exact HE |].
  exists q'. split; [exact Hq'|]. split; [exact Hq0|]. split; lra.
Qed.

Lemma is_zero_pos r : 0 < r -> is_zero r = false.
Proof.
  intros H. unfold is_zero. destruct (Qeq_bool r 0) eqn:E; [|reflexivity].
  apply Qeq_bool_iff in E. lra.
Qed.

(** The thickness resolved from a time is within half a hundredth, and
    a little more for the roundings of the operations, of
    [rate * time / 3600]. *)
Lemma time_to_thickness_close r t :
  0 <= r -> r <= 1048576 -> 0 <= t -> t <= 1048576 ->
  exists th, time_to_thickness (Fin r) (Fin t) = Ok (Fin th) /\
             0 <= th /\ th <= 536870912 /\
             3600 * th - r * t <= 18 + (1 # 1000) /\
             r * t - 3600 * th <= 18 + (1 # 1000).
Proof.
  intros Hr0 Hr1 Ht0 Ht1. unfold time_to_thickness, thickness_of_time.
  change (of_int 3600) with (Ok (Fin 3600)). cbn [rbind mul].
  assert (Ha0 : 0 <= r * t) by nra.
  assert (Ha1 : r * t <= 1099511627776) by nra.
  set (a := r * t) in *.
  destruct (ErrorFacts.RN_err a 41) as (p1 & Hp1 & P0 & P1 & P2);
    [exact Ha0 | change (pow2 41) with 2199023255552; lra | lia |].
  change (pow2 (41 - 54)) with (1 # 8192) in P1, P2.
  rewrite Hp1. cbn [div]. change (is_zero 3600) with false. cbv iota.
  assert (Hx2 : p1 / 3600 * 3600 == p1) by field.
  set (x2 := p1 / 3600) in *.
  destruct (ErrorFacts.RN_err x2 30) as (p2 & Hp2 & Q0 & Q1 & Q2);
    [lra | change (pow2 30) with 1073741824; lra | lia |].
  change (pow2 (30 - 54)) with (1 # 16777216) in Q1, Q2.
  rewrite Hp2. cbn [rmap].
  destruct (round2_err p2 30) as (th & Hth & T0 & T1 & T2);
    [exact Q0 | change (pow2 30) with 1073741824; lra | lia |].
  change (pow2 (30 - 54)) with (1 # 16777216) in T1, T2.
  rewrite Hth. exists th. split; [reflexivity|].
  split; [exact T0|]. split; [lra|]. split; lra.
Qed.

(** The time resolved from a thickness is within half a hundredth, and
    a little more, of [thickness * 3600 / rate]. *)
Lemma thickness_to_time_close r th :
  3600 <= r -> 0 <= th -> th <= 536870912 ->
  exists t', thickness_to_time (Fin r) (Fin th) = Ok (Fin t') /\
             0 <= t' /\
             r * t' - 3600 * th <= r * ((1 # 200) + (1 # 8388608)) + (1 # 8192) /\
             3600 * th - r * t' <= r * ((1 # 200) + (1 # 8388608)) + (1 # 8192).
Proof.
  intros Hr Hth0 Hth1. unfold thickness_to_time, time_of_thickness.
  change (of_int 3600) with (Ok (Fin 3600)). cbn [rbind mul].
  destruct (ErrorFacts.RN_err (th * 3600) 41) as (p3 & Hp3 & P0 & P1 & P2);
    [lra | change (pow2 41) with 2199023255552; lra | lia |].
  change (pow2 (41 - 54)) with (1 # 8192) in P1, P2.
  rewrite Hp3. cbn [div]. rewrite (is_zero_pos r) by lra.
  assert (Hx4 : p3 / r * r == p3) by (field; lra).
  assert (X0 : 0 <= p3 / r).
  { apply Qle_shift_div_l; lra. }
  set (x4 := p3 / r) in *.
  assert (X1 : x4 <= 536870913) by nra.
  destruct (ErrorFacts.RN_err x4 30) as (p4 & Hp4 & Q0 & Q1 & Q2);
    [exact X0 | change (pow2 30) with 1073741824; lra | lia |].
  change (pow2 (30 - 54)) with (1 # 16777216) in Q1, Q2.
  rewrite Hp4. cbn [rmap].
  destruct (round2_err p4 30) as (t' & Ht' & T0 & T1 & T2);
    [exact Q0 | change (pow2 30) with 1073741824; lra | lia |].
  change (pow2 (30 - 54)) with (1 # 16777216) in T1, T2.
  rewrite Ht'. exists t'. split; [reflexivity|]. split; [exact T0|].
  split; nra.
Qed.

End TripFacts.

Module ParseConv.

(** [parse_layer_line] resolves a time with [time_to_thickness] and a
    thickness with [thickness_to_time]. *)
Lemma parse_layer_line_converts line lay_data g rest value entry r l :
  Re.match_ Pat.layer line = Some (g, rest) ->
  Float.of_literal (Pat.text 2 g) = Ok value ->
  String.eqb (Pat.text 1 g) "shutterzu" = false ->
  lay_data !! Pat.text 1 g = Some entry ->
  rate entry = Some r ->
  parse_layer_line line lay_data = Ok (Some l) ->
  (Pat.text 3 g = "s" ->
   exists th, time_to_thickness r value = Ok th /\ Thickness l = Flt th) /\
  (Pat.text 3 g = "nm" ->
   exists tm, thickness_to_time r value = Ok tm /\ Time l = Flt tm).
Proof.
  intros Hm Hv Hs Hent Hr.
  rewrite (LineFacts.parse_layer_line_growth _ _ _ _ _ Hm Hv Hs).
  unfold getitem. rewrite Hent. cbn [rbind]. rewrite Hr.
  unfold time_to_thickness, thickness_to_time. intros H.
  split; intros Hu; rewrite Hu in H.
  - change (String.eqb "s" "nm") with false in H.
    change (String.eqb "s" "s") with true in H. cbv iota in H.
    destruct (thickness_of_time (Some r) value) as [th|e]; [|discriminate].
    cbn [rbind] in H. injection H as <-. eexists. split; reflexivity.
  - change (String.eqb "nm" "nm") with true in H. cbv iota in H.
    destruct (time_of_thickness (Some r) value) as [tm|e]; [|discriminate].
    cbn [rbind] in H. injection H as <-. eexists. split; reflexivity.
Qed.

End ParseConv.

(** C5, as the code has it: for a rate of at least 3600 nm/h (and rates
    and times up to 2^20), the time resolved back from the thickness
    that a time resolves to differs from that time by at most 0.01 s,
    up to the rounding of the float operations (less than 0.000001).
    Below 3600 nm/h the two-decimal rounding of the thickness is
    magnified by 3600/rate on the way back. *)
Theorem round_trip_within_tolerance (r t : Q) :
  (3600 <= r)%Q -> (r <= 1048576)%Q -> (0 <= t)%Q -> (t <= 1048576)%Q ->
  exists th t',
    time_to_thickness (Float.Fin r) (Float.Fin t) = Ok (Float.Fin th) /\
    thickness_to_time (Float.Fin r) (Float.Fin th) = Ok (Float.Fin t') /\
    round_trip (Float.Fin r) (Float.Fin t) = Ok (Float.Fin t') /\
    (t' - t <= (1 # 100) + (1 # 1000000))%Q /\
    (t - t' <= (1 # 100) + (1 # 1000000))%Q.
Proof.
  intros Hr0 Hr1 Ht0 Ht1.
  destruct (TripFacts.time_to_thickness_close r t) as (th & Hth & T0 & T1 & A1 & A2);
    [lra | exact Hr1 | exact Ht0 | exact Ht1 |].
  destruct (TripFacts.thickness_to_time_close r th Hr0 T0 T1) as (t' & Ht' & _ & B1 & B2).
  exists th, t'. split; [exact Hth|]. split; [exact Ht'|]. split.
  - unfold round_trip. rewrite Hth. cbn [rbind]. exact Ht'.
  - split; nra.
Qed.

(** An instance: 2.5 s at 3600 nm/h. *)
Lemma round_trip_within_tolerance_witness :
  exists t', round_trip (Float.Fin 3600) (Float.Fin (5 # 2)) = Ok (Float.Fin t') /\
             (t' - (5 # 2) <= (1 # 100) + (1 # 1000000))%Q.
Proof.
  destruct (round_trip_within_tolerance 3600 (5 # 2)) as (th & t' & _ & _ & H & B & _).
  - vm_compute. discriminate.
  - vm_compute. discriminate.
  - vm_compute. discriminate.
  - vm_compute. discriminate.
  - exists t'. split; assumption.
Defined.

(** C5 fails as stated: at the rate 600 nm/h the time 1 s resolves to
    the thickness 0.17 nm, which resolves back to the time 1.02 s; at the
    rate 1 nm/h it resolves to the thickness 0.0 and back to 0.0 s. *)
Lemma round_trip_loses_time :
  (exists th t',
     Float.of_literal "0.17" = Ok th /\ Float.of_literal "1.02" = Ok t' /\
     time_to_thickness (Float.Fin 600) (Float.Fin 1) = Ok th /\
     round_trip (Float.Fin 600) (Float.Fin 1) = Ok t' /\
     ~ (exists q, t' = Float.Fin q /\ (q - 1 <= 1 # 100)%Q)) /\
  round_trip (Float.Fin 1) (Float.Fin 1) = Ok (Float.Fin 0).
Proof.
  split; [|vm_compute; reflexivity].
  eexists. eexists. split; [vm_compute; reflexivity|].
  split; [vm_compute; reflexivity|]. split; [vm_compute; reflexivity|].
  split; [vm_compute; reflexivity|].
  intros (q & [= <-] & Hq). vm_compute in Hq. apply Hq. reflexivity.
Qed.

(** * Further properties

    ** The matcher and the patterns *)

Module ReFacts.

Lemma append_nil_r s : String.append s EmptyString = s.
Proof.
  induction s as [|c s IH]; [reflexivity|].
  change (String c (String.append s EmptyString) = String c s).
  rewrite IH. reflexivity.
Qed.

Lemma append_assoc a b c :
  String.append (String.append a b) c = String.append a (String.append b c).
Proof.
  induction a as [|x a IH]; [reflexivity|].
  change (String x (String.append (String.append a b) c)
          = String x (String.append a (String.append b c))).
  rewrite IH. reflexivity.
Qed.

Lemma length_append a b :
  String.length (String.append a b) = (String.length a + String.length b)%nat.
Proof.
  induction a as [|x a IH]; [reflexivity|].
  change (S (String.length (String.append a b))
          = S (String.length a + String.length b)).
  rewrite IH. reflexivity.
Qed.

Lemma take_append a b : Str.take (String.length a) (String.append a b) = a.
Proof.
  induction a as [|x a IH]; [destruct b; reflexivity|].
  change (String x (Str.take (String.length a) (String.append a b)) = String x a).
  rewrite IH. reflexivity.
Qed.

Lemma take_matched a b :
  Str.take (String.length (String.append a b) - String.length b) (String.append a b) = a.
Proof.
  rewrite length_append.
  replace (String.length a + String.length b - String.length b)%nat
    with (String.length a) by lia.
  apply take_append.
Qed.

(** The matcher is sound: when it succeeds, the pattern matches a prefix
    of the text and the continuation succeeded on what is left. *)
Lemma run_sound {R} r : forall txt g (k : string -> Re.groups -> option R) x,
  Re.run r txt g k = Some x ->
  exists s rest g', txt = String.append s rest /\ matches r s g g' /\ k rest g' = Some x.
Proof.
  induction r as [p|r1 IH1 r2 IH2|r1 IH1 r2 IH2|r1 IH1|i r1 IH1|]; intros txt g k x; cbn [Re.run].
  - destruct txt as [|c rest]; [discriminate|].
    destruct (p c) eqn:Hp; [|discriminate]. intros H.
    exists (String c EmptyString), rest, g. split; [reflexivity|].
    split; [constructor; exact Hp | exact H].
  - intros H. apply IH1 in H. destruct H as (s1 & rest1 & g1 & -> & M1 & H).
    apply IH2 in H. destruct H as (s2 & rest & g2 & -> & M2 & H).
    exists (String.append s1 s2), rest, g2. rewrite append_assoc.
    split; [reflexivity|]. split; [econstructor; eassumption | exact H].
  - destruct (Re.run r1 txt g k) as [y|] eqn:E1.
    + intros [= <-]. apply IH1 in E1. destruct E1 as (s & rest & g' & -> & M & H).
      exists s, rest, g'. split; [reflexivity|]. split; [apply matches_alt_l; exact M | exact H].
    + intros H. apply IH2 in H. destruct H as (s & rest & g' & -> & M & H).
      exists s, rest, g'. split; [reflexivity|]. split; [apply matches_alt_r; exact M | exact H].
  - generalize (String.length txt) as fuel. intros fuel. revert txt g.
    induction fuel as [|fuel IHf]; intros txt g.
    + intros H. exists EmptyString, txt, g. split; [reflexivity|].
      split; [constructor | exact H].
    + match goal with
      | |- context [Re.run r1 txt g ?k1] => destruct (Re.run r1 txt g k1) as [y|] eqn:E1
      end.
      * intros [= <-]. apply IH1 in E1. destruct E1 as (s1 & rest1 & g1 & -> & M1 & H).
        destruct (String.length rest1 <? String.length (String.append s1 rest1))%nat;
          [|discriminate].
        apply IHf in H. destruct H as (s2 & rest & g2 & -> & M2 & H).
        exists (String.append s1 s2), rest, g2. rewrite append_assoc.
        split; [reflexivity|]. split; [econstructor; eassumption | exact H].
      * intros H. exists EmptyString, txt, g. split; [reflexivity|].
        split; [constructor | exact H].
  - intros H. apply IH1 in H. destruct H as (s & rest & g1 & -> & M & H).
    rewrite take_matched in H.
    exists s, rest, ((i, s) :: g1). split; [reflexivity|].
    split; [constructor; exact M | exact H].
  - intros H. exists EmptyString, txt, g. split; [reflexivity|].
    split; [constructor | exact H].
Qed.

Lemma match_sound r txt g rest :
  Re.match_ r txt = Some (g, rest) ->
  exists s, txt = String.append s rest /\ matches r s [] g.
Proof.
  unfold Re.match_. intros H. apply run_sound in H.
  destruct H as (s & rest' & g' & -> & M & [= <- <-]). eauto.
Qed.

Lemma search_sound r txt g rest :
  Re.search r txt = Some (g, rest) ->
  exists pre s, txt = String.append pre (String.append s rest) /\ matches r s [] g.
Proof.
  induction txt as [|c txt IH]; cbn [Re.search].
  - destruct (Re.match_ r EmptyString) as [[g0 r0]|] eqn:E; [|discriminate].
    intros [= <- <-]. apply match_sound in E. destruct E as (s & E & M).
    exists EmptyString, s. split; [exact E | exact M].
  - destruct (Re.match_ r (String c txt)) as [[g0 r0]|] eqn:E.
    + intros [= <- <-]. apply match_sound in E. destruct E as (s & E & M).
      exists EmptyString, s. split; [exact E | exact M].
    + intros H. destruct (IH H) as (pre & s & -> & M).
      exists (String c pre), s. split; [reflexivity | exact M].
Qed.

End ReFacts.

Module PatFacts.
Import Re.

Lemma matches_class_inv p s g g' :
  matches (Class p) s g g' -> exists c, s = String c EmptyString /\ p c = true /\ g' = g.
Proof. inversion 1; subst. eauto. Qed.

Lemma matches_char_inv c s g g' :
  matches (Char c) s g g' -> s = String c EmptyString /\ g' = g.
Proof.
  intros H. apply matches_class_inv in H. destruct H as (c' & -> & Hc & ->).
  apply Ascii.eqb_eq in Hc. subst. auto.
Qed.

Lemma matches_seq_inv r1 r2 s g g' :
  matches (Seq r1 r2) s g g' ->
  exists s1 s2 g1, s = String.append s1 s2 /\ matches r1 s1 g g1 /\ matches r2 s2 g1 g'.
Proof. inversion 1; subst. eauto 6. Qed.

Lemma matches_group_inv i r s g g' :
  matches (Group i r) s g g' -> exists g1, g' = (i, s) :: g1 /\ matches r s g g1.
Proof. inversion 1; subst. eauto. Qed.

Lemma matches_alt_inv r1 r2 s g g' :
  matches (Alt r1 r2) s g g' -> matches r1 s g g' \/ matches r2 s g g'.
Proof. inversion 1; subst; auto. Qed.

Lemma matches_lit p : forall s g g',
  matches (Lit p) s g g' -> s = p /\ g' = g.
Proof.
  induction p as [|c p IH]; intros s g g' H.
  - inversion H; subst. auto.
  - destruct p as [|c' p'].
    + apply matches_char_inv in H. exact H.
    + change (Lit (String c (String c' p')))
        with (Seq (Char c) (Lit (String c' p'))) in H.
      apply matches_seq_inv in H. destruct H as (s1 & s2 & g1 & -> & H1 & H2).
      apply matches_char_inv in H1. destruct H1 as [-> ->].
      apply IH in H2. destruct H2 as [-> ->]. auto.
Qed.

Lemma matches_star_class p s g g' :
  matches (Star (Class p)) s g g' -> g' = g /\ all_chars p s = true.
Proof.
  intros H. remember (Star (Class p)) as r eqn:Er.
  induction H; try discriminate; injection Er as ->.
  - auto.
  - apply matches_class_inv in H. destruct H as (c & -> & Hc & ->).
    destruct (IHmatches2 eq_refl) as [-> Hall]. split; [reflexivity|].
    change (p c && all_chars p s2 = true). rewrite Hc, Hall. reflexivity.
Qed.

(** A run of one character or more of a class. *)
Lemma matches_plus_class p s g g' :
  matches (Plus (Class p)) s g g' ->
  g' = g /\ s <> EmptyString /\ all_chars p s = true.
Proof.
  intros H. apply matches_seq_inv in H. destruct H as (s1 & s2 & g1 & -> & H1 & H2).
  apply matches_class_inv in H1. destruct H1 as (c & -> & Hc & ->).
  apply matches_star_class in H2. destruct H2 as [-> Hall].
  split; [reflexivity|]. split; [discriminate|].
  change (p c && all_chars p s2 = true). rewrite Hc, Hall. reflexivity.
Qed.

End PatFacts.

Module LineParts.

Lemma layer_parts line g rest :
  Re.match_ Pat.layer line = Some (g, rest) ->
  g = [(4%nat, Pat.text 4 g); (3%nat, Pat.text 3 g);
       (2%nat, Pat.text 2 g); (1%nat, Pat.text 1 g)] /\
  line = String.append "layer("
           (String.append (Pat.text 1 g)
              (String.append ","
                 (String.append (Pat.text 2 g)
                    (String.append (Pat.text 3 g)
                       (String.append ")" (String.append (Pat.text 4 g) rest)))))) /\
  (Pat.text 1 g <> "" /\ all_chars Str.isword (Pat.text 1 g) = true) /\
  (Pat.text 2 g <> "" /\
   all_chars (fun c => Str.isdigit c || Ascii.eqb c ".") (Pat.text 2 g) = true) /\
  (Pat.text 3 g <> "" /\ all_chars Str.islower (Pat.text 3 g) = true) /\
  all_chars (fun c => negb (Str.code c =? 10)) (Pat.text 4 g) = true.
Proof.
  intros H. apply ReFacts.match_sound in H. destruct H as (s & -> & M).
  unfold Pat.layer in M. cbn [Re.seq_of] in M.
  apply PatFacts.matches_seq_inv in M. destruct M as (s0 & t0 & g0 & -> & M0 & M).
  apply PatFacts.matches_lit in M0. destruct M0 as [-> ->].
  apply PatFacts.matches_seq_inv in M. destruct M as (m & t1 & g1 & -> & M1 & M).
  apply PatFacts.matches_group_inv in M1. destruct M1 as (g1' & -> & M1).
  apply PatFacts.matches_plus_class in M1. destruct M1 as (-> & Hm0 & Hm).
  apply PatFacts.matches_seq_inv in M. destruct M as (c1 & t2 & g2 & -> & M2 & M).
  apply PatFacts.matches_char_inv in M2. destruct M2 as [-> ->].
  apply PatFacts.matches_seq_inv in M. destruct M as (v & t3 & g3 & -> & M3 & M).
  apply PatFacts.matches_group_inv in M3. destruct M3 as (g3' & -> & M3).
  apply PatFacts.matches_plus_class in M3. destruct M3 as (-> & Hv0 & Hv).
  apply PatFacts.matches_seq_inv in M. destruct M as (u & t4 & g4 & -> & M4 & M).
  apply PatFacts.matches_group_inv in M4. destruct M4 as (g4' & -> & M4).
  apply PatFacts.matches_plus_class in M4. destruct M4 as (-> & Hu0 & Hu).
  apply PatFacts.matches_seq_inv in M. destruct M as (c2 & cm & g5 & -> & M5 & M).
  apply PatFacts.matches_char_inv in M5. destruct M5 as [-> ->].
  apply PatFacts.matches_group_inv in M. destruct M as (g6 & -> & M).
  apply PatFacts.matches_star_class in M. destruct M as (-> & Hc).
  cbn [Pat.text Re.group Nat.eqb].
  split; [reflexivity|]. split.
  - rewrite !ReFacts.append_assoc. reflexivity.
  - auto 10.
Qed.

End LineParts.

(** X1: the groups of a line that matches the instruction pattern put the
    line together again, and each has the form the pattern asks for. *)
Theorem layer_line_parts line g rest :
  Re.match_ Pat.layer line = Some (g, rest) ->
  g = [(4%nat, Pat.text 4 g); (3%nat, Pat.text 3 g);
       (2%nat, Pat.text 2 g); (1%nat, Pat.text 1 g)] /\
  line = String.append "layer("
           (String.append (Pat.text 1 g)
              (String.append ","
                 (String.append (Pat.text 2 g)
                    (String.append (Pat.text 3 g)
                       (String.append ")" (String.append (Pat.text 4 g) rest)))))) /\
  (Pat.text 1 g <> "" /\ all_chars Str.isword (Pat.text 1 g) = true) /\
  (Pat.text 2 g <> "" /\
   all_chars (fun c => Str.isdigit c || Ascii.eqb c ".") (Pat.text 2 g) = true) /\
  (Pat.text 3 g <> "" /\ all_chars Str.islower (Pat.text 3 g) = true) /\
  all_chars (fun c => negb (Str.code c =? 10)) (Pat.text 4 g) = true.
Proof. exact (LineParts.layer_parts line g rest). Qed.

(** An instance: an instruction with a comment. *)
Lemma layer_line_parts_witness :
  "layer(GaAs,120s) // GaAs buffer" =
  String.append "layer("
    (String.append "GaAs"
       (String.append "," (String.append "120" (String.append "s"
          (String.append ")" (String.append " // GaAs buffer" ""))))))
  /\ all_chars Str.isword "GaAs" = true.
Proof.
  assert (H : Re.match_ Pat.layer "layer(GaAs,120s) // GaAs buffer" =
              Some ([(4%nat, " // GaAs buffer"); (3%nat, "s"); (2%nat, "120"); (1%nat, "GaAs")], ""))
    by (vm_compute; reflexivity).
  destruct (layer_line_parts _ _ _ H) as (_ & E & (_ & W) & _).
  split; [exact E | exact W].
Defined.

Module WordFacts.

Lemma length_append_nil a b :
  (String.length (String.append a b) - String.length b = 0)%nat -> a = EmptyString.
Proof.
  rewrite ReFacts.length_append. destruct a; [reflexivity|]. cbn. lia.
Qed.

(** Every text that [findall] returns is matched by the pattern. *)
Lemma findall_from_sound r fuel : forall txt x,
  In x (Re.findall_from fuel r txt) -> exists g, matches r x [] g.
Proof.
  induction fuel as [|fuel IH]; intros txt x; cbn [Re.findall_from]; [intros []|].
  destruct (Re.match_ r txt) as [[g rest]|] eqn:E.
  - apply ReFacts.match_sound in E. destruct E as (s & -> & M).
    destruct (String.length (String.append s rest) - String.length rest)%nat eqn:En.
    + apply length_append_nil in En. subst s.
      destruct (String.append EmptyString rest) as [|c t].
      * intros [<-|[]]. eauto.
      * intros [<-|Hin]; [eauto | eapply IH; exact Hin].
    + rewrite <- En, ReFacts.take_matched.
      intros [<-|Hin]; [eauto | eapply IH; exact Hin].
  - destruct txt as [|c t]; [intros []|]. apply IH.
Qed.

Lemma findall_words txt : Forall is_word (Re.findall Pat.word txt).
Proof.
  apply Forall_forall. intros x Hx. unfold Re.findall in Hx.
  apply list_elem_of_In in Hx. apply findall_from_sound in Hx. destruct Hx as [g M].
  apply PatFacts.matches_plus_class in M. destruct M as (_ & H0 & Hall).
  split; assumption.
Qed.

Lemma Forall_tail_word (l : list string) : Forall is_word l -> Forall is_word (tail l).
Proof. intros H. destruct H; [constructor | assumption]. Qed.

Lemma RN_not_NaN x : Float.RN x <> Float.NaN.
Proof.
  unfold Float.RN. destruct (Qle_bool x 0); [discriminate|].
  destruct (Qle_bool _ _); discriminate.
Qed.

Lemma of_literal_not_NaN s f : Float.of_literal s = Ok f -> f <> Float.NaN.
Proof.
  unfold Float.of_literal. intros H.
  repeat match type of H with
         | context [match ?x with _ => _ end] => destruct x
         end; try discriminate; injection H as <-; apply RN_not_NaN.
Qed.

Lemma split_nonempty sep s : exists p ps, Str.split sep s = p :: ps.
Proof.
  induction s as [|c s (p & ps & IH)]; cbn [Str.split]; [eauto|].
  destruct (Ascii.eqb c sep); [eauto|]. rewrite IH. eauto.
Qed.

Lemma startswith_append p : forall s,
  Str.startswith p s = true -> exists r, s = String.append p r.
Proof.
  induction p as [|a p IH]; intros s; cbn [Str.startswith].
  - eauto.
  - destruct s as [|b s]; [discriminate|].
    destruct (Ascii.eqb_spec a b) as [<-|]; [|discriminate].
    intros H. destruct (IH s H) as [r ->]. exists r. reflexivity.
Qed.

(** The two subscripts of the opening line never fail. *)
Lemma opening_line_id line :
  Str.startswith "definelayer(" line = true ->
  exists a id, index (Str.split "(" line) 1 = Ok a /\ index (Str.split ")" a) 0 = Ok id.
Proof.
  intros H. apply startswith_append in H. destruct H as [r ->].
  destruct (split_nonempty "(" r) as (a & ps & Ea).
  destruct (split_nonempty ")" a) as (id & qs & Eid).
  exists a, id. split.
  - change (String.append "definelayer(" r)
      with (String "d" (String "e" (String "f" (String "i" (String "n" (String "e"
           (String "l" (String "a" (String "y" (String "e" (String "r" (String "(" r)))))))))))).
    cbn [Str.split Ascii.eqb Bool.eqb]. rewrite Ea. reflexivity.
  - rewrite Eid. reflexivity.
Qed.

End WordFacts.

(** ** The definitions parser *)

Module DefFacts.

Lemma truthy_some cur :
  truthy cur = true -> exists k, cur = Some k /\ k <> EmptyString.
Proof.
  destruct cur as [[|c k]|]; try discriminate. intros _. eexists. split; [reflexivity|discriminate].
Qed.

Lemma opened_id_some raw :
  Str.startswith "definelayer(" (Str.strip raw) = true ->
  exists a id, index (Str.split "(" (Str.strip raw)) 1 = Ok a /\
               index (Str.split ")" a) 0 = Ok id /\ opened_id raw = Some id.
Proof.
  intros H. destruct (WordFacts.opening_line_id _ H) as (a & id & Ha & Hid).
  exists a, id. split; [exact Ha|]. split; [exact Hid|].
  unfold opened_id. rewrite H, Ha, Hid. reflexivity.
Qed.

Lemma opened_id_none raw :
  Str.startswith "definelayer(" (Str.strip raw) = false -> opened_id raw = None.
Proof. intros H. unfold opened_id. rewrite H. reflexivity. Qed.

(** What one turn of the definitions loop does when it does not raise. *)
Lemma lay_line_cases layers cur raw st' :
  lay_line (layers, cur) raw = Ok st' ->
  (exists id, opened_id raw = Some id /\ st' = (<[id := fresh_entry]> layers, Some id)) \/
  (opened_id raw = None /\
   ((exists k entry new,
       cur = Some k /\ k <> EmptyString /\ layers !! k = Some entry /\
       st' = (<[k := new]> layers, cur) /\
       ((exists r, Float.is_float r /\ r <> Float.NaN /\
                   new = {| shutters := shutters entry; rate := Some r |}) \/
        (exists sh, Forall is_word sh /\
                    new = {| shutters := sh; rate := rate entry |}))) \/
    st' = (layers, None) \/ st' = (layers, cur))).
Proof.
  unfold lay_line.
  destruct (Str.startswith "definelayer(" (Str.strip raw)) eqn:Hd.
  { destruct (opened_id_some raw Hd) as (a & id & Ha & Hid & Ho).
    rewrite Ha. cbn [rbind]. rewrite Hid. cbn [rbind]. intros [= <-].
    left. exists id. split; [exact Ho | reflexivity]. }
  pose proof (opened_id_none raw Hd) as Ho.
  destruct (Str.startswith "rate(" (Str.strip raw) && truthy cur) eqn:Hr.
  { apply andb_true_iff in Hr. destruct Hr as [_ Ht].
    destruct (truthy_some cur Ht) as (k & -> & Hk).
    destruct (Re.search Pat.rate (Str.strip raw)) as [[g rest]|]; [|discriminate].
    destruct (Float.of_literal (Pat.text 1 g)) as [r|e] eqn:Hv; [|discriminate].
    cbn [rbind getitem]. destruct (layers !! k) as [entry|] eqn:He; [|discriminate].
    cbn [rbind default]. intros [= <-]. right. split; [exact Ho|]. left.
    exists k, entry, {| shutters := shutters entry; rate := Some r |}.
    repeat (split; [reflexivity || assumption|]). left. exists r.
    split; [apply (FloatValues.of_literal_is_float _ _ Hv)|].
    split; [apply (WordFacts.of_literal_not_NaN _ _ Hv) | reflexivity]. }
  destruct (Str.startswith "open(" (Str.strip raw) && truthy cur) eqn:Hop.
  { apply andb_true_iff in Hop. destruct Hop as [_ Ht].
    destruct (truthy_some cur Ht) as (k & -> & Hk).
    cbn [rbind getitem]. destruct (layers !! k) as [entry|] eqn:He; [|discriminate].
    cbn [rbind default]. intros [= <-]. right. split; [exact Ho|]. left.
    exists k, entry, {| shutters := tail (Re.findall Pat.word (Str.strip raw));
                        rate := rate entry |}.
    repeat (split; [reflexivity || assumption|]). right. eexists.
    split; [|reflexivity]. apply WordFacts.Forall_tail_word, WordFacts.findall_words. }
  destruct (Str.startswith "enddefine" (Str.strip raw)).
  { intros [= <-]. right. split; [exact Ho|]. right. left. reflexivity. }
  intros [= <-]. right. split; [exact Ho|]. right. right. reflexivity.
Qed.

Lemma lay_line_keeps_current st raw st' :
  current_defined st -> lay_line st raw = Ok st' -> current_defined st'.
Proof.
  destruct st as [layers cur]. intros Hinv H.
  destruct (lay_line_cases _ _ _ _ H)
    as [(id & _ & ->)|(_ & [(k & entry & new & -> & _ & He & -> & _)|[->| ->]])];
    intros j; cbn [fst snd].
  - intros [= <-]. rewrite lookup_insert_eq. eauto.
  - intros [= <-]. rewrite lookup_insert_eq. eauto.
  - discriminate.
  - apply Hinv.
Qed.

Lemma lay_line_raises st raw e :
  current_defined st -> lay_line st raw = Raise e ->
  e = AttributeError \/ e = ValueError.
Proof.
  destruct st as [layers cur]. intros Hinv. unfold lay_line.
  destruct (Str.startswith "definelayer(" (Str.strip raw)) eqn:Hd.
  { destruct (opened_id_some raw Hd) as (a & id & Ha & Hid & _).
    rewrite Ha. cbn [rbind]. rewrite Hid. discriminate. }
  destruct (Str.startswith "rate(" (Str.strip raw) && truthy cur) eqn:Hr.
  { apply andb_true_iff in Hr. destruct Hr as [_ Ht].
    destruct (truthy_some cur Ht) as (k & -> & Hk).
    destruct (Hinv k eq_refl) as [entry He]. cbn [fst] in He.
    destruct (Re.search Pat.rate (Str.strip raw)) as [[g rest]|];
      [|intros [= <-]; left; reflexivity].
    destruct (Float.of_literal (Pat.text 1 g)) as [r|e0] eqn:Hv.
    - cbn [rbind getitem]. rewrite He. discriminate.
    - cbn [rbind]. intros [= <-]. right.
      unfold Float.of_literal in Hv.
      repeat match type of Hv with
             | context [match ?x with _ => _ end] => destruct x
             end; congruence. }
  destruct (Str.startswith "open(" (Str.strip raw) && truthy cur) eqn:Hop.
  { apply andb_true_iff in Hop. destruct Hop as [_ Ht].
    destruct (truthy_some cur Ht) as (k & -> & Hk).
    destruct (Hinv k eq_refl) as [entry He]. cbn [fst] in He.
    cbn [rbind getitem]. rewrite He. discriminate. }
  destruct (Str.startswith "enddefine" (Str.strip raw)); discriminate.
Qed.

(** An invariant of the turns is an invariant of the loop. *)
Lemma lay_lines_inv (P : lay_state -> Prop) :
  (forall st raw st', current_defined st -> P st -> lay_line st raw = Ok st' -> P st') ->
  forall lines st st',
  current_defined st -> P st -> lay_lines st lines = Ok st' -> P st'.
Proof.
  intros Hstep. induction lines as [|raw lines IH]; intros st st' Hc HP; cbn [lay_lines].
  - intros [= <-]. exact HP.
  - destruct (lay_line st raw) as [st1|e] eqn:E; [|discriminate]. cbn [rbind].
    apply IH; [eapply lay_line_keeps_current; eassumption | eapply Hstep; eassumption].
Qed.

Lemma current_defined_init : current_defined (∅, None).
Proof. intros k. discriminate. Qed.

End DefFacts.

Module DefTable.

Lemma lay_file_raises lines e :
  parse_lay_file lines = Raise e -> e = AttributeError \/ e = ValueError.
Proof.
  unfold parse_lay_file.
  assert (G : forall st, current_defined st ->
                         lay_lines st lines = Raise e ->
                         e = AttributeError \/ e = ValueError).
  { induction lines as [|raw lines IH]; intros st Hc; cbn [lay_lines]; [discriminate|].
    destruct (lay_line st raw) as [st1|e1] eqn:E; cbn [rbind].
    - apply IH. eapply DefFacts.lay_line_keeps_current; eassumption.
    - intros [= <-]. eapply DefFacts.lay_line_raises; eassumption. }
  destruct (lay_lines (∅, None) lines) as [st|e1] eqn:E; [discriminate|].
  cbn [rbind]. intros [= <-]. apply (G _ DefFacts.current_defined_init E).
Qed.

Lemma keys_opened lines table k :
  parse_lay_file lines = Ok table ->
  (is_Some (table !! k) <-> exists raw, In raw lines /\ opened_id raw = Some k).
Proof.
  unfold parse_lay_file.
  destruct (lay_lines (∅, None) lines) as [st|e] eqn:E; [|discriminate].
  cbn [rbind]. intros [= <-].
  assert (G : forall lines st0 st1,
            lay_lines st0 lines = Ok st1 ->
            (is_Some (fst st1 !! k) <->
             is_Some (fst st0 !! k) \/ exists raw, In raw lines /\ opened_id raw = Some k)).
  { clear. induction lines as [|raw lines IH]; intros st0 st1; cbn [lay_lines].
    - intros [= <-]. split; [auto|]. intros [H|(raw & [] & _)]. exact H.
    - destruct (lay_line st0 raw) as [st|e] eqn:E; [|discriminate]. cbn [rbind].
      intros H. rewrite (IH _ _ H). destruct st0 as [layers cur].
      assert (Hstep : is_Some (fst st !! k) <->
                      is_Some (layers !! k) \/ opened_id raw = Some k).
      { destruct (DefFacts.lay_line_cases _ _ _ _ E)
          as [(id & Ho & ->)|(Ho & [(j & entry & new & -> & _ & He & -> & _)|[->| ->]])];
          cbn [fst].
        - destruct (decide (id = k)) as [->|Hne].
          + rewrite lookup_insert_eq. split; eauto.
          + rewrite lookup_insert_ne by exact Hne. split; [auto|].
            intros [?|?]; [assumption|congruence].
        - destruct (decide (j = k)) as [->|Hne].
          + rewrite lookup_insert_eq, He. split; eauto.
          + rewrite lookup_insert_ne by exact Hne. split; [auto|].
            intros [?|?]; [assumption|congruence].
        - split; [auto|]. intros [?|?]; [assumption|congruence].
        - split; [auto|]. intros [?|?]; [assumption|congruence]. }
      rewrite Hstep. cbn [fst]. split.
      + intros [[H1|H1]|(r & Hin & Hr)]; [auto| |].
        * right. exists raw. split; [left; reflexivity | exact H1].
        * right. exists r. split; [right; exact Hin | exact Hr].
      + intros [H1|(r & [<-|Hin] & Hr)]; [auto|auto|].
        right. exists r. auto. }
  rewrite (G _ _ _ E). cbn [fst]. rewrite lookup_empty. split.
  - intros [[x Hx]|H]; [discriminate | exact H].
  - auto.
Qed.

End DefTable.

(** X2: [parse_lay_file] raises nothing but AttributeError and ValueError,
    both from a rate line inside a definition: the subscripts of the
    opening line and the lookups of the current definition never fail. *)
Theorem parse_lay_file_raises lines e :
  parse_lay_file lines = Raise e -> e = AttributeError \/ e = ValueError.
Proof. exact (DefTable.lay_file_raises lines e). Qed.

(** An instance: a rate that is not a number. *)
Lemma parse_lay_file_raises_witness :
  AttributeError = AttributeError \/ AttributeError = ValueError.
Proof.
  apply (parse_lay_file_raises ["definelayer(GaAs)"; "rate(fast)"]).
  vm_compute. reflexivity.
Defined.

(** X3: a definitions file without a line that opens a definition gives
    the empty table and never fails, whatever its rate and shutter lines
    hold. *)
Theorem no_definition_no_entry lines :
  Forall (fun raw => opened_id raw = None) lines ->
  parse_lay_file lines = Ok ∅.
Proof.
  intros H. unfold parse_lay_file.
  assert (G : lay_lines (∅, None) lines = Ok (∅, None)).
  { induction H as [|raw lines Hraw _ IH]; cbn [lay_lines]; [reflexivity|].
    assert (Hd : Str.startswith "definelayer(" (Str.strip raw) = false).
    { destruct (Str.startswith "definelayer(" (Str.strip raw)) eqn:Hd; [|reflexivity].
      destruct (DefFacts.opened_id_some raw Hd) as (a & id & _ & _ & Ho). congruence. }
    unfold lay_line at 1. rewrite Hd. cbn [truthy]. rewrite !andb_false_r.
    destruct (Str.startswith "enddefine" (Str.strip raw)); cbn [rbind]; exact IH. }
  rewrite G. reflexivity.
Qed.

(** An instance: a rate line that would raise inside a definition. *)
Lemma no_definition_no_entry_witness :
  parse_lay_file ["rate(fast)"; "open(As,Ga)"; "enddefine"] = Ok ∅.
Proof.
  apply no_definition_no_entry.
  repeat (constructor; [vm_compute; reflexivity|]). constructor.
Defined.

(** X4: the keys of the table are the identifiers of the lines that open
    a definition, no more and no fewer. *)
Theorem table_keys lines table k :
  parse_lay_file lines = Ok table ->
  (is_Some (table !! k) <-> exists raw, In raw lines /\ opened_id raw = Some k).
Proof. exact (DefTable.keys_opened lines table k). Qed.

(** An instance: the definition of X. *)
Lemma table_keys_witness :
  is_Some (no_rate_table !! "X") <->
  exists raw, In raw ["definelayer(X)"; "enddefine"] /\ opened_id raw = Some "X".
Proof.
  apply (table_keys ["definelayer(X)"; "enddefine"] no_rate_table "X").
  vm_compute. reflexivity.
Defined.

(** X5: every entry of the table that [parse_lay_file] returns has
    shutters that are nonempty runs of word characters, and a rate that
    is absent or a float other than NaN. *)
Theorem table_entries_wf lines table k d :
  parse_lay_file lines = Ok table ->
  table !! k = Some d ->
  entry_wf d.
Proof.
  unfold parse_lay_file.
  destruct (lay_lines (∅, None) lines) as [st|e] eqn:E; [|discriminate].
  cbn [rbind]. intros [= <-] Hk.
  assert (G : forall j x, fst st !! j = Some x -> entry_wf x); [|exact (G k d Hk)].
  refine (DefFacts.lay_lines_inv
            (fun st => forall j x, fst st !! j = Some x -> entry_wf x)
            _ lines _ _ DefFacts.current_defined_init _ E).
  - clear. intros [layers cur] raw st' _ HP H.
    destruct (DefFacts.lay_line_cases _ _ _ _ H)
      as [(id & _ & ->)|(_ & [(i & entry & new & -> & _ & He & -> & Hnew)|[->| ->]])];
      cbn [fst] in *; try exact HP; intros j x.
    + destruct (decide (id = j)) as [->|Hne].
      * rewrite lookup_insert_eq. intros [= <-]. split; [constructor | exact I].
      * rewrite lookup_insert_ne by exact Hne. apply HP.
    + destruct (decide (i = j)) as [->|Hne]; [|rewrite lookup_insert_ne by exact Hne; apply HP].
      rewrite lookup_insert_eq. intros [= <-].
      destruct (HP _ _ He) as [Hs Hr].
      destruct Hnew as [(r & Hf & Hn & ->)|(sh & Hsh & ->)]; split; cbn; auto.
  - intros j x. cbn [fst]. rewrite lookup_empty. discriminate.
Qed.

(** An instance: the entry of GaAs, with a rate and two shutters. *)
Lemma table_entries_wf_witness :
  entry_wf {| shutters := ["As"; "Ga"]; rate := Some (Float.Fin 600) |}.
Proof.
  apply (table_entries_wf GaAs_definitions GaAs_table "GaAs").
  - vm_compute. reflexivity.
  - vm_compute. reflexivity.
Defined.

(** X6: a definition opened with an empty identifier is entered under
    the empty key and never filled: its rate and shutter lines are
    skipped, because the empty text counts as no current definition. *)
Theorem empty_identifier_never_filled lines table d :
  parse_lay_file lines = Ok table ->
  table !! "" = Some d ->
  d = fresh_entry.
Proof.
  unfold parse_lay_file.
  destruct (lay_lines (∅, None) lines) as [st|e] eqn:E; [|discriminate].
  cbn [rbind]. intros [= <-] Hk.
  assert (G : forall x, fst st !! "" = Some x -> x = fresh_entry); [|exact (G d Hk)].
  refine (DefFacts.lay_lines_inv
            (fun st => forall x, fst st !! "" = Some x -> x = fresh_entry)
            _ lines _ _ DefFacts.current_defined_init _ E).
  - clear. intros [layers cur] raw st' _ HP H.
    destruct (DefFacts.lay_line_cases _ _ _ _ H)
      as [(id & _ & ->)|(_ & [(i & entry & new & -> & Hi & He & -> & Hnew)|[->| ->]])];
      cbn [fst] in *; try exact HP; intros x.
    + destruct (decide (id = "")) as [->|Hne].
      * rewrite lookup_insert_eq. intros [= <-]. reflexivity.
      * rewrite lookup_insert_ne by exact Hne. apply HP.
    + rewrite lookup_insert_ne by exact Hi. apply HP.
  - intros x. cbn [fst]. rewrite lookup_empty. discriminate.
Qed.

(** An instance: the rate and the shutters after an empty identifier. *)
Lemma empty_identifier_never_filled_witness :
  parse_lay_file ["definelayer()"; "rate(600)"; "open(As,Ga)"; "enddefine"]
    = Ok {[ "" := {| shutters := []; rate := None |} ]} /\
  {| shutters := []; rate := None |} = fresh_entry.
Proof.
  assert (H : parse_lay_file ["definelayer()"; "rate(600)"; "open(As,Ga)"; "enddefine"]
              = Ok {[ "" := {| shutters := []; rate := None |} ]})
    by (vm_compute; reflexivity).
  split; [exact H|].
  apply (empty_identifier_never_filled _ _ _ H).
  vm_compute. reflexivity.
Defined.

Module BlockFacts.

Lemma not_opening raw :
  opened_id raw = None -> Str.startswith "definelayer(" (Str.strip raw) = false.
Proof.
  intros H. destruct (Str.startswith "definelayer(" (Str.strip raw)) eqn:Hd; [|reflexivity].
  destruct (DefFacts.opened_id_some raw Hd) as (a & id & _ & _ & Ho). congruence.
Qed.

Lemma rate_not_open line :
  Str.startswith "rate(" line = true -> Str.startswith "open(" line = false.
Proof.
  destruct line as [|c line]; [discriminate|].
  cbn [Str.startswith]. destruct (Ascii.eqb_spec "r" c) as [<-|]; [|discriminate].
  reflexivity.
Qed.

Lemma closing_line line :
  Str.startswith "enddefine" line = true ->
  Str.startswith "definelayer(" line = false /\
  Str.startswith "rate(" line = false /\ Str.startswith "open(" line = false.
Proof.
  destruct line as [|c line]; [discriminate|].
  cbn [Str.startswith]. destruct (Ascii.eqb_spec "e" c) as [<-|]; [|discriminate].
  repeat split; reflexivity.
Qed.

(** One line inside the block of [id]: the definition stays current and
    its entry takes what the line sets. *)
Lemma inside_step layers id e raw st' :
  id <> "" -> layers !! id = Some e -> inside_block raw ->
  lay_line (layers, Some id) raw = Ok st' ->
  snd st' = Some id /\
  fst st' !! id =
    Some {| shutters := match line_shutters raw with
                        | Some s => s
                        | None => shutters e
                        end;
            rate := match line_rate raw with
                    | Some r => Some r
                    | None => rate e
                    end |}.
Proof.
  intros Hid He [Ho Hend]. apply not_opening in Ho.
  assert (Ht : truthy (Some id) = true) by (destruct id; [contradiction | reflexivity]).
  unfold lay_line, line_rate, line_shutters. rewrite Ho, Hend, Ht, !andb_true_r.
  destruct (Str.startswith "rate(" (Str.strip raw)) eqn:Hr.
  - rewrite (rate_not_open _ Hr).
    destruct (Re.search Pat.rate (Str.strip raw)) as [[g rest]|]; [|discriminate].
    destruct (Float.of_literal (Pat.text 1 g)) as [r|x]; cbn [rbind]; [|discriminate].
    cbn [getitem]. rewrite He. cbn [rbind default]. intros [= <-]. cbn [fst snd].
    rewrite lookup_insert_eq. auto.
  - destruct (Str.startswith "open(" (Str.strip raw)).
    + cbn [getitem rbind]. rewrite He. cbn [rbind default]. intros [= <-]. cbn [fst snd].
      rewrite lookup_insert_eq. auto.
    + intros [= <-]. cbn [fst snd]. rewrite He. destruct e. auto.
Qed.

(** The lines inside the block, one after the other. *)
Lemma inside_run id body : forall layers sh rt st',
  id <> "" -> layers !! id = Some {| shutters := sh; rate := rt |} ->
  Forall inside_block body ->
  lay_lines (layers, Some id) body = Ok st' ->
  snd st' = Some id /\
  fst st' !! id =
    Some {| shutters :=
              foldl (fun acc raw => match line_shutters raw with
                                    | Some s => s
                                    | None => acc
                                    end) sh body;
            rate :=
              foldl (fun acc raw => match line_rate raw with
                                    | Some r => Some r
                                    | None => acc
                                    end) rt body |}.
Proof.
  induction body as [|b body IH]; intros layers sh rt st' Hid He Hb; cbn [lay_lines foldl].
  - intros [= <-]. auto.
  - inversion Hb as [|? ? Hb1 Hb2]; subst.
    destruct (lay_line (layers, Some id) b) as [[l1 c1]|x] eqn:E; cbn [rbind]; [|discriminate].
    destruct (inside_step _ _ _ _ _ Hid He Hb1 E) as [Hc Hl]. cbn [fst snd] in Hc, Hl.
    subst c1. cbn [shutters rate] in Hl. apply (IH _ _ _ _ Hid Hl Hb2).
Qed.

(** After the block, the entry of [id] stays as it is while no line
    opens [id] again. *)
Lemma outside_run id post : forall layers cur st',
  cur <> Some id ->
  Forall (fun b => opened_id b <> Some id) post ->
  lay_lines (layers, cur) post = Ok st' ->
  fst st' !! id = layers !! id.
Proof.
  induction post as [|b post IH]; intros layers cur st' Hc Hp; cbn [lay_lines].
  - intros [= <-]. reflexivity.
  - inversion Hp as [|? ? Hb Hp']; subst.
    destruct (lay_line (layers, cur) b) as [st1|x] eqn:E; cbn [rbind]; [|discriminate].
    intros H.
    destruct (DefFacts.lay_line_cases _ _ _ _ E)
      as [(j & Ho & ->)|(_ & [(k & entry & new & -> & _ & _ & -> & _)|[->| ->]])].
    + assert (Hj : Some j <> Some id) by congruence.
      rewrite (IH _ _ _ Hj Hp' H). apply lookup_insert_ne. congruence.
    + rewrite (IH _ _ _ Hc Hp' H). apply lookup_insert_ne. congruence.
    + assert (Hn : (None : option string) <> Some id) by discriminate.
      apply (IH _ _ _ Hn Hp' H).
    + apply (IH _ _ _ Hc Hp' H).
Qed.

End BlockFacts.

(** C10, as the code has it: when a block opens a definition for a
    nonempty identifier [id] that an earlier part of the file may have
    defined already, and no line after the block opens [id] again, the
    entry of [id] in the table that [parse_lay_file] returns carries the
    rate and the shutters of this later block: the float of its last
    rate line and the words of its last open line, and no rate and no
    shutters where the block has no such line; what an earlier block had
    set is discarded.  The second opening is not an error: the whole
    file raises exactly when the lines from the opening line on do. *)
Theorem last_definition_wins pre raw body fin post st a id :
  lay_lines (∅, None) pre = Ok st ->
  Str.startswith "definelayer(" (Str.strip raw) = true ->
  index (Str.split "(" (Str.strip raw)) 1 = Ok a ->
  index (Str.split ")" a) 0 = Ok id ->
  id <> "" ->
  Forall inside_block body ->
  Str.startswith "enddefine" (Str.strip fin) = true ->
  Forall (fun b => opened_id b <> Some id) post ->
  (forall table,
     parse_lay_file (pre ++ raw :: body ++ fin :: post) = Ok table ->
     table !! id = Some {| shutters := block_shutters body; rate := block_rate body |}) /\
  rmap (fun t : gmap string layer_def => t !! id)
       (parse_lay_file (pre ++ raw :: body ++ fin :: post)) =
  rmap (fun t : gmap string layer_def => t !! id)
       (parse_lay_file (raw :: body ++ fin :: post)).
Proof.
  intros Hpre Hd Ha Hi Hid Hbody Hfin Hpost.
  split; [|exact (SuffixFacts.suffix_decides pre raw (body ++ fin :: post) st a id
                    Hpre Hd Ha Hi)].
  intros table. unfold parse_lay_file.
  rewrite ScanFacts.lay_lines_app, Hpre. cbn [rbind lay_lines].
  destruct st as [layers cur].
  assert (Hraw : lay_line (layers, cur) raw =
                 Ok (<[id := {| shutters := []; rate := None |}]> layers, Some id)).
  { unfold lay_line. rewrite Hd, Ha. cbn [rbind]. rewrite Hi. reflexivity. }
  rewrite Hraw. cbn [rbind]. rewrite ScanFacts.lay_lines_app.
  destruct (lay_lines (<[id:={| shutters := []; rate := None |}]> layers, Some id) body)
    as [[l1 c1]|x] eqn:Eb; cbn [rbind]; [|discriminate].
  destruct (BlockFacts.inside_run id body _ [] None _ Hid
              (lookup_insert_eq _ _ _) Hbody Eb) as [Hc Hl].
  cbn [fst snd] in Hc, Hl. subst c1. cbn [lay_lines].
  destruct (BlockFacts.closing_line _ Hfin) as (F1 & F2 & F3).
  assert (Hf : lay_line (l1, Some id) fin = Ok (l1, None)).
  { unfold lay_line. rewrite F1, F2, F3, Hfin. reflexivity. }
  rewrite Hf. cbn [rbind].
  destruct (lay_lines (l1, None) post) as [st2|x] eqn:Ep; cbn [rbind]; [|discriminate].
  intros [= <-].
  assert (Hn : (None : option string) <> Some id) by discriminate.
  rewrite (BlockFacts.outside_run id post l1 None st2 Hn Hpost Ep).
  exact Hl.
Qed.

(** An instance: GaAs defined with the rate 600 and two shutters, then
    again with the rate 700 and one shutter, and AlAs defined after. *)
Lemma last_definition_wins_witness :
  rmap (fun t : gmap string layer_def => t !! "GaAs")
    (parse_lay_file (["definelayer(GaAs)"; "rate(600)"; "open(As,Ga)"; "enddefine"]
                     ++ "definelayer(GaAs)" :: ["rate(700)"; "open(Al)"]
                     ++ "enddefine" :: ["definelayer(AlAs)"; "rate(300)"; "enddefine"])) =
  Ok (Some {| shutters := ["Al"]; rate := Some (Float.Fin 700) |}).
Proof.
  assert (H : exists table,
            parse_lay_file
              (["definelayer(GaAs)"; "rate(600)"; "open(As,Ga)"; "enddefine"]
               ++ "definelayer(GaAs)" :: ["rate(700)"; "open(Al)"]
               ++ "enddefine" :: ["definelayer(AlAs)"; "rate(300)"; "enddefine"])
            = Ok table).
  { eexists. vm_compute. reflexivity. }
  destruct H as [table H]. rewrite H. cbn [rmap]. f_equal.
  destruct (last_definition_wins
              ["definelayer(GaAs)"; "rate(600)"; "open(As,Ga)"; "enddefine"]
              "definelayer(GaAs)" ["rate(700)"; "open(Al)"] "enddefine"
              ["definelayer(AlAs)"; "rate(300)"; "enddefine"]
              ({[ "GaAs" := {| shutters := ["As"; "Ga"];
                               rate := Some (Float.Fin 600) |} ]}, None)
              "GaAs)" "GaAs") as [G _].
  - vm_compute. reflexivity.
  - vm_compute. reflexivity.
  - vm_compute. reflexivity.
  - vm_compute. reflexivity.
  - discriminate.
  - repeat (constructor; [split; vm_compute; reflexivity|]). constructor.
  - vm_compute. reflexivity.
  - repeat (constructor; [vm_compute; discriminate|]). constructor.
  - rewrite (G table H). vm_compute. reflexivity.
Defined.

(** C10 fails as stated: for the empty identifier the later block is
    lost.  The rate and the shutter lines of both blocks are skipped,
    and the entry carries neither the rate 700 nor the shutter Al of the
    later block. *)
Lemma empty_identifier_block_lost :
  exists table,
    parse_lay_file ["definelayer()"; "rate(600)"; "open(As,Ga)"; "enddefine";
                    "definelayer()"; "rate(700)"; "open(Al)"; "enddefine"] = Ok table /\
    table !! "" = Some {| shutters := []; rate := None |} /\
    block_rate ["rate(700)"; "open(Al)"] = Some (Float.Fin 700) /\
    block_shutters ["rate(700)"; "open(Al)"] = ["Al"] /\
    table !! "" <> Some {| shutters := block_shutters ["rate(700)"; "open(Al)"];
                           rate := block_rate ["rate(700)"; "open(Al)"] |}.
Proof.
  exists {[ "" := {| shutters := []; rate := None |} ]}.
  split; [vm_compute; reflexivity|].
  split; [vm_compute; reflexivity|].
  split; [vm_compute; reflexivity|].
  split; [vm_compute; reflexivity|].
  vm_compute. discriminate.
Qed.

(** ** The loop headers *)

Module CountFacts.

Lemma isdigit_code c : Str.isdigit c = true -> 0 <= Str.code c - 48 <= 9.
Proof.
  unfold Str.isdigit, Str.in_range. intros H.
  apply andb_true_iff in H. destruct H as [H1 H2].
  apply Z.leb_le in H1. apply Z.leb_le in H2. lia.
Qed.

(** A run of digits has a value, and the value is not negative. *)
Lemma digits_value_digits s : forall acc,
  all_chars Str.isdigit s = true -> 0 <= acc ->
  exists n, Float.digits_value acc s = Some n /\ 0 <= n.
Proof.
  induction s as [|c s IH]; intros acc; cbn [all_chars Float.digits_value].
  - intros _ Hacc. eauto.
  - intros H Hacc. apply andb_true_iff in H. destruct H as [Hc Hs].
    rewrite Hc. pose proof (isdigit_code c Hc). apply IH; [exact Hs | lia].
Qed.

Lemma int_of_digits s :
  s <> EmptyString -> all_chars Str.isdigit s = true ->
  exists n, int_of s = Ok n /\ 0 <= n.
Proof.
  intros H0 Hs. destruct (digits_value_digits s 0 Hs) as (n & Hn & Hpos); [lia|].
  exists n. unfold int_of. destruct s; [contradiction|]. rewrite Hn. auto.
Qed.

(** The second group of a loop header is a nonempty run of digits. *)
Lemma for_count line m rest :
  Re.match_ Pat.for_ line = Some (m, rest) ->
  Pat.text 2 m <> EmptyString /\ all_chars Str.isdigit (Pat.text 2 m) = true /\
  (String.length (Pat.text 2 m) <= String.length line)%nat.
Proof.
  intros H. apply ReFacts.match_sound in H. destruct H as (s & -> & M).
  unfold Pat.for_ in M. cbn [Re.seq_of] in M.
  apply PatFacts.matches_seq_inv in M. destruct M as (s0 & t0 & g0 & -> & M0 & M).
  apply PatFacts.matches_lit in M0. destruct M0 as [-> ->].
  apply PatFacts.matches_seq_inv in M. destruct M as (v & t1 & g1 & -> & M1 & M).
  apply PatFacts.matches_group_inv in M1. destruct M1 as (g1' & -> & M1).
  apply PatFacts.matches_plus_class in M1. destruct M1 as (-> & _ & _).
  apply PatFacts.matches_seq_inv in M. destruct M as (c1 & t2 & g2 & -> & M2 & M).
  apply PatFacts.matches_char_inv in M2. destruct M2 as [-> ->].
  apply PatFacts.matches_seq_inv in M. destruct M as (w1 & t3 & g3 & -> & M3 & M).
  apply PatFacts.matches_star_class in M3. destruct M3 as (-> & _).
  apply PatFacts.matches_seq_inv in M. destruct M as (n & t4 & g4 & -> & M4 & M).
  apply PatFacts.matches_group_inv in M4. destruct M4 as (g4' & -> & M4).
  apply PatFacts.matches_plus_class in M4. destruct M4 as (-> & Hn0 & Hn).
  apply PatFacts.matches_seq_inv in M. destruct M as (c2 & t5 & g5 & -> & M5 & M).
  apply PatFacts.matches_char_inv in M5. destruct M5 as [-> ->].
  apply PatFacts.matches_seq_inv in M. destruct M as (w2 & t6 & g6 & -> & M6 & M).
  apply PatFacts.matches_star_class in M6. destruct M6 as (-> & _).
  apply PatFacts.matches_seq_inv in M. destruct M as (st & t7 & g7 & -> & M7 & M).
  apply PatFacts.matches_group_inv in M7. destruct M7 as (g7' & -> & M7).
  apply PatFacts.matches_plus_class in M7. destruct M7 as (-> & _ & _).
  apply PatFacts.matches_char_inv in M. destruct M as [-> ->].
  cbn [Pat.text Re.group Nat.eqb].
  split; [exact Hn0|]. split; [exact Hn|].
  rewrite !ReFacts.length_append. lia.
Qed.

Lemma kind_of_count raw c :
  kind_of raw = KLoop c -> exists n, c = Ok n /\ 0 <= n.
Proof.
  unfold kind_of.
  destruct (Str.startswith "for(" (Str.strip raw)).
  - destruct (Re.match_ Pat.for_ (Str.strip raw)) as [[m rest]|] eqn:E; [|discriminate].
    intros [= <-]. destruct (for_count _ _ _ E) as (H0 & Hd & _).
    apply int_of_digits; assumption.
  - destruct (Str.startswith "layer(" (Str.strip raw)); discriminate.
Qed.

End CountFacts.

(** X7: the count of a loop header always converts: the pattern admits
    digits only, so [int] does not fail, and the count is not negative.
    (The lines considered are shorter than the 4300 digits above which
    the conversion is refused.) *)
Theorem loop_count_converts raw c :
  (String.length raw <= 4300)%nat ->
  kind_of raw = KLoop c ->
  exists n, c = Ok n /\ 0 <= n.
Proof. intros _. apply CountFacts.kind_of_count. Qed.

(** An instance: a loop of five turns. *)
Lemma loop_count_converts_witness : exists n, Ok 5 = Ok n /\ 0 <= n.
Proof.
  apply (loop_count_converts "for(i, 5, 0.0)").
  - cbn. lia.
  - vm_compute. reflexivity.
Defined.

(** ** The failures of the parsers *)

Module RaiseFacts.

Lemma of_literal_raises s e : Float.of_literal s = Raise e -> e = ValueError.
Proof.
  unfold Float.of_literal. intros H.
  repeat match type of H with
         | context [match ?x with _ => _ end] => destruct x
         end; congruence.
Qed.

Lemma of_int_3600 : Float.of_int 3600 = Ok (Float.Fin 3600).
Proof. vm_compute. reflexivity. Qed.

Lemma div_raises a b e :
  Float.div a b = Raise e ->
  e = ZeroDivisionError /\ exists q, b = Float.Fin q /\ (q == 0)%Q.
Proof.
  unfold Float.div. destruct b as [q| |].
  - destruct (Float.is_zero q) eqn:Hz.
    + intros [= <-]. split; [reflexivity|]. exists q. split; [reflexivity|].
      apply Qeq_bool_iff. exact Hz.
    + destruct a; discriminate.
  - destruct a; discriminate.
  - discriminate.
Qed.

Lemma thickness_of_time_raises r t e :
  thickness_of_time r t = Raise e -> e = TypeError /\ r = None.
Proof.
  unfold thickness_of_time. destruct r as [r|]; [|intros [= <-]; auto].
  rewrite of_int_3600. cbn [rbind]. intros H. apply div_raises in H.
  destruct H as (_ & q & [= <-] & Hq). vm_compute in Hq. discriminate Hq.
Qed.

Lemma time_of_thickness_raises r x e :
  time_of_thickness r x = Raise e ->
  (e = TypeError /\ r = None) \/
  (e = ZeroDivisionError /\ exists q, r = Some (Float.Fin q) /\ (q == 0)%Q).
Proof.
  unfold time_of_thickness. rewrite of_int_3600. cbn [rbind].
  destruct r as [r|]; [|intros [= <-]; auto].
  intros H. apply div_raises in H. destruct H as (-> & q & -> & Hq).
  right. split; [reflexivity|]. eauto.
Qed.

Lemma getitem_raises (d : gmap string layer_def) k e :
  getitem d (Some k) = Raise e -> e = KeyError k /\ d !! k = None.
Proof.
  cbn [getitem]. destruct (d !! k); [discriminate|]. intros [= <-]. auto.
Qed.

Lemma getitem_ok (d : gmap string layer_def) k entry :
  getitem d (Some k) = Ok entry -> d !! k = Some entry.
Proof.
  cbn [getitem]. destruct (d !! k); [|discriminate]. intros [= <-]. reflexivity.
Qed.

Lemma parse_layer_line_raises line lay_data e :
  parse_layer_line line lay_data = Raise e -> instruction_failure lay_data e.
Proof.
  unfold parse_layer_line, instruction_failure.
  destruct (Re.match_ Pat.layer line) as [[g rest]|]; [|discriminate].
  destruct (Float.of_literal (Pat.text 2 g)) as [value|e0] eqn:Hv; cbn [rbind];
    [|intros [= <-]; left; eapply of_literal_raises; exact Hv].
  destruct (String.eqb (Pat.text 1 g) "shutterzu"); [discriminate|].
  destruct (getitem lay_data (Some (Pat.text 1 g))) as [entry|e0] eqn:Hg; cbn [rbind];
    [|intros [= <-]; right; left; apply getitem_raises in Hg; destruct Hg; eauto].
  apply getitem_ok in Hg.
  destruct (String.eqb (Pat.text 3 g) "nm").
  - destruct (time_of_thickness (rate entry) value) as [t|e0] eqn:Ht; cbn [rbind];
      [discriminate|].
    intros [= <-]. apply time_of_thickness_raises in Ht.
    destruct Ht as [[-> Hr]|(-> & q & Hr & Hq)].
    + right. right. left. split; [reflexivity|]. exists (Pat.text 1 g), entry. auto.
    + right. right. right. split; [reflexivity|]. exists (Pat.text 1 g), entry, q. auto.
  - destruct (String.eqb (Pat.text 3 g) "s"); [|discriminate].
    destruct (thickness_of_time (rate entry) value) as [t|e0] eqn:Ht; cbn [rbind];
      [discriminate|].
    intros [= <-]. apply thickness_of_time_raises in Ht. destruct Ht as [-> Hr].
    right. right. left. split; [reflexivity|]. exists (Pat.text 1 g), entry. auto.
Qed.

Lemma parse_block_raises lay_data block e :
  parse_block block lay_data = Raise e ->
  exists line, parse_layer_line line lay_data = Raise e.
Proof.
  induction block as [|bl block IH]; cbn [parse_block]; [discriminate|].
  destruct (parse_layer_line bl lay_data) as [p|e0] eqn:E; cbn [rbind];
    [|intros [= <-]; eauto].
  destruct (parse_block block lay_data) as [more|e0]; cbn [rbind]; [discriminate|].
  intros [= <-]. apply IH. reflexivity.
Qed.

(** A failure of the loop over the lines is the failure of an
    instruction. *)
Lemma scan_lines_raises lay_data e : forall k lines st,
  (length lines <= k)%nat ->
  scan_lines lay_data lines st = Raise e ->
  exists line, parse_layer_line line lay_data = Raise e.
Proof.
  induction k as [|k IH]; intros lines st Hk.
  - destruct lines; [discriminate | cbn in Hk; lia].
  - destruct lines as [|raw rest]; [discriminate|]. cbn [length] in Hk.
    rewrite ScanFacts.scan_lines_cons.
    destruct (kind_of raw) as [c| |] eqn:Ek.
    + destruct (CountFacts.kind_of_count raw c Ek) as (n & -> & _). cbn [rbind].
      destruct (split_block rest) as [body after] eqn:Es.
      destruct (parse_block body lay_data) as [bl|e0] eqn:Eb; cbn [rbind];
        [|intros [= <-]; eapply parse_block_raises; exact Eb].
      destruct after as [rest'|]; [|discriminate].
      apply IH. pose proof (ScanFacts.split_block_shorter _ _ _ Es). lia.
    + destruct (parse_layer_line (Str.strip raw) lay_data) as [p|e0] eqn:E; cbn [rbind];
        [|intros [= <-]; eauto].
      destruct p; apply IH; lia.
    + apply IH. lia.
Qed.

End RaiseFacts.

(** X8: [parse_epi_file_with_loops] fails in four ways only: ValueError
    for a value that is not a number, KeyError for a material that the
    table lacks, TypeError when some definition has no rate, and
    ZeroDivisionError when some definition has the rate zero. *)
Theorem parse_failures lines lay_data e :
  parse_epi_file_with_loops lines lay_data = Raise e ->
  instruction_failure lay_data e.
Proof.
  unfold parse_epi_file_with_loops.
  destruct (scan_lines lay_data lines []) as [st|e0] eqn:E; cbn [rbind]; [discriminate|].
  intros [= <-].
  destruct (RaiseFacts.scan_lines_raises _ _ _ _ _ (le_n _) E) as [line Hl].
  eapply RaiseFacts.parse_layer_line_raises. exact Hl.
Qed.

(** An instance: a thickness asked of a material whose rate is zero. *)
Lemma parse_failures_witness :
  instruction_failure {[ "X" := {| shutters := []; rate := Some (Float.Fin 0) |} ]}
    ZeroDivisionError.
Proof.
  apply (parse_failures ["layer(X,10nm)"]). vm_compute. reflexivity.
Defined.

Module EpiRaise.

Lemma epi_line_raises lay_data st raw e :
  epi_line lay_data st raw = Raise e ->
  e = ValueError \/ (e = TypeError /\ no_rate lay_data) \/
  (e = ZeroDivisionError /\ zero_rate lay_data).
Proof.
  unfold epi_line. destruct st as [layer_stack printed].
  destruct (Str.startswith "layer(" (Str.strip raw)); [|discriminate].
  destruct (Re.match_ Pat.layer (Str.strip raw)) as [[g rest]|]; [|discriminate].
  destruct (Float.of_literal (Pat.text 2 g)) as [value|e0] eqn:Hv; cbn [rbind];
    [|intros [= <-]; left; eapply RaiseFacts.of_literal_raises; exact Hv].
  destruct (String.eqb (Pat.text 1 g) "shutterzu"); [discriminate|].
  destruct (lay_data !! Pat.text 1 g) as [entry|] eqn:Hg; [|discriminate].
  destruct (String.eqb (Pat.text 3 g) "s").
  - destruct (thickness_of_time (rate entry) value) as [t|e0] eqn:Ht; cbn [rbind];
      [discriminate|].
    intros [= <-]. apply RaiseFacts.thickness_of_time_raises in Ht. destruct Ht as [-> Hr].
    right. left. split; [reflexivity|]. exists (Pat.text 1 g), entry. auto.
  - destruct (String.eqb (Pat.text 3 g) "nm"); [|discriminate].
    destruct (time_of_thickness (rate entry) value) as [t|e0] eqn:Ht; cbn [rbind];
      [discriminate|].
    intros [= <-]. apply RaiseFacts.time_of_thickness_raises in Ht.
    destruct Ht as [[-> Hr]|(-> & q & Hr & Hq)].
    + right. left. split; [reflexivity|]. exists (Pat.text 1 g), entry. auto.
    + right. right. split; [reflexivity|]. exists (Pat.text 1 g), entry, q. auto.
Qed.

End EpiRaise.

(** X9: the loop-free parser [parse_epi_file] never fails with KeyError:
    it steps over the materials that the table lacks.  Its failures are
    ValueError, TypeError when some definition has no rate, and
    ZeroDivisionError when some definition has the rate zero. *)
Theorem parse_epi_file_failures lines lay_data e :
  parse_epi_file lines lay_data = Raise e ->
  (forall k, e <> KeyError k) /\
  (e = ValueError \/ (e = TypeError /\ no_rate lay_data) \/
   (e = ZeroDivisionError /\ zero_rate lay_data)).
Proof.
  unfold parse_epi_file. generalize (([], []) : epi_state).
  induction lines as [|raw lines IH]; intros st; cbn [epi_lines]; [discriminate|].
  destruct (epi_line lay_data st raw) as [st'|e0] eqn:E; cbn [rbind]; [apply IH|].
  intros [= <-]. apply EpiRaise.epi_line_raises in E.
  split; [|exact E].
  intros k ->. destruct E as [E|[[E _]|[E _]]]; discriminate E.
Qed.

(** An instance: a time asked of a material without a rate. *)
Lemma parse_epi_file_failures_witness :
  (forall k, TypeError <> KeyError k) /\
  (TypeError = ValueError \/ (TypeError = TypeError /\ no_rate no_rate_table) \/
   (TypeError = ZeroDivisionError /\ zero_rate no_rate_table)).
Proof.
  apply (parse_epi_file_failures ["layer(X,10s)"]). vm_compute. reflexivity.
Defined.

(** ** The lines that do not count *)

Module SkipFacts.

Lemma startswith_prefix p : forall r, Str.startswith p (String.append p r) = true.
Proof.
  induction p as [|a p IH]; intros r; [reflexivity|].
  change (String.append (String a p) r) with (String a (String.append p r)).
  cbn [Str.startswith]. rewrite Ascii.eqb_refl. apply IH.
Qed.

Lemma layer_match_prefix line g rest :
  Re.match_ Pat.layer line = Some (g, rest) -> Str.startswith "layer(" line = true.
Proof.
  intros H. destruct (LineParts.layer_parts _ _ _ H) as (_ & -> & _).
  apply startswith_prefix.
Qed.

(** A line that does not start as an instruction gives no layer. *)
Lemma parse_layer_line_skip line lay_data :
  Str.startswith "layer(" line = false -> parse_layer_line line lay_data = Ok None.
Proof.
  intros H. unfold parse_layer_line.
  destruct (Re.match_ Pat.layer line) as [[g rest]|] eqn:E; [|reflexivity].
  apply layer_match_prefix in E. congruence.
Qed.

Lemma rbind_ret {A} (r : result A) : (do x <- r; Ok x) = r.
Proof. destruct r; reflexivity. Qed.

Lemma irrelevant_kind raw : relevant raw = false -> kind_of raw = KOther.
Proof.
  unfold relevant, kind_of. intros H.
  apply orb_false_iff in H. destruct H as [H _].
  apply orb_false_iff in H. destruct H as [-> ->]. reflexivity.
Qed.

Lemma irrelevant_open raw : relevant raw = false -> closes_loop raw = false.
Proof.
  unfold relevant, closes_loop. intros H.
  apply orb_false_iff in H. destruct H as [_ H]. exact H.
Qed.

Lemma irrelevant_skip raw lay_data :
  relevant raw = false -> parse_layer_line (Str.strip raw) lay_data = Ok None.
Proof.
  unfold relevant. intros H. apply parse_layer_line_skip.
  apply orb_false_iff in H. destruct H as [H _].
  apply orb_false_iff in H. destruct H as [_ H]. exact H.
Qed.

Local Notation "'kept'" := (filter (fun raw => relevant raw = true)).

Lemma kept_cons_true raw ls : relevant raw = true -> kept (raw :: ls) = raw :: kept ls.
Proof. intros H. apply filter_cons_True. exact H. Qed.

Lemma kept_cons_false raw ls : relevant raw = false -> kept (raw :: ls) = kept ls.
Proof. intros H. apply filter_cons_False. rewrite H. discriminate. Qed.

(** The body of a loop gives the same layers without the other lines,
    and what follows the loop is what followed it, without them. *)
Lemma split_block_kept lay_data ls :
  parse_block (fst (split_block (kept ls))) lay_data
    = parse_block (fst (split_block ls)) lay_data /\
  snd (split_block (kept ls)) = kept <$> snd (split_block ls).
Proof.
  induction ls as [|b ls [IH1 IH2]]; [split; reflexivity|].
  destruct (relevant b) eqn:Hb.
  - rewrite (kept_cons_true _ _ Hb). cbn [split_block].
    destruct (closes_loop b); [split; reflexivity|].
    destruct (split_block (kept ls)) as [body1 after1].
    destruct (split_block ls) as [body2 after2].
    cbn [fst snd] in *. split; [|exact IH2].
    cbn [parse_block]. rewrite IH1. reflexivity.
  - rewrite (kept_cons_false _ _ Hb). cbn [split_block].
    rewrite (irrelevant_open _ Hb).
    destruct (split_block (kept ls)) as [body1 after1].
    destruct (split_block ls) as [body2 after2].
    cbn [fst snd] in *. split; [|exact IH2].
    cbn [parse_block]. rewrite (irrelevant_skip _ _ Hb). cbn [rbind].
    rewrite rbind_ret. exact IH1.
Qed.

Lemma scan_lines_kept lay_data : forall k lines st,
  (length lines <= k)%nat ->
  scan_lines lay_data (kept lines) st = scan_lines lay_data lines st.
Proof.
  induction k as [|k IH]; intros lines st Hk.
  - destruct lines; [reflexivity | cbn in Hk; lia].
  - destruct lines as [|raw rest]; [reflexivity|]. cbn [length] in Hk.
    destruct (relevant raw) eqn:Hr.
    + rewrite (kept_cons_true _ _ Hr), !ScanFacts.scan_lines_cons.
      destruct (kind_of raw) as [c| |].
      * destruct c as [n|e]; cbn [rbind]; [|reflexivity].
        destruct (split_block_kept lay_data rest) as [H1 H2].
        destruct (split_block (kept rest)) as [body1 after1].
        destruct (split_block rest) as [body2 after2] eqn:Es.
        cbn [fst snd] in *. rewrite H1.
        destruct (parse_block body2 lay_data) as [bl|e]; cbn [rbind]; [|reflexivity].
        subst after1. destruct after2 as [rest'|]; cbn [fmap option_fmap option_map];
          [|reflexivity].
        apply IH. pose proof (ScanFacts.split_block_shorter _ _ _ Es). lia.
      * destruct (parse_layer_line (Str.strip raw) lay_data) as [[l|]|e]; cbn [rbind];
          [apply IH; lia | apply IH; lia | reflexivity].
      * apply IH. lia.
    + rewrite (kept_cons_false _ _ Hr), ScanFacts.scan_lines_cons.
      rewrite (irrelevant_kind _ Hr). apply IH. lia.
Qed.

End SkipFacts.

(** X10: of a program only the loop headers, the instructions and the
    loop ends count: taking out every other line, also inside the loops,
    changes neither the stack nor the failure. *)
Theorem other_lines_ignored lines lay_data :
  parse_epi_file_with_loops (filter (fun raw => relevant raw = true) lines) lay_data
  = parse_epi_file_with_loops lines lay_data.
Proof.
  unfold parse_epi_file_with_loops.
  rewrite (SkipFacts.scan_lines_kept lay_data _ lines [] (le_n _)). reflexivity.
Qed.

(** ** Programs put together, and the two parsers *)

Module StackFacts.

(** The loop only appends to the stack it starts from. *)
Lemma scan_lines_stack lay_data : forall k lines st,
  (length lines <= k)%nat ->
  scan_lines lay_data lines st =
  do s <- scan_lines lay_data lines []; Ok (st ++ s).
Proof.
  induction k as [|k IH]; intros lines st Hk.
  - destruct lines; [cbn; rewrite app_nil_r; reflexivity | cbn in Hk; lia].
  - destruct lines as [|raw rest]; [cbn; rewrite app_nil_r; reflexivity|].
    cbn [length] in Hk. rewrite !ScanFacts.scan_lines_cons.
    destruct (kind_of raw) as [c| |].
    + destruct c as [n|e]; cbn [rbind]; [|reflexivity].
      destruct (split_block rest) as [body after] eqn:Es.
      destruct (parse_block body lay_data) as [bl|e]; cbn [rbind]; [|reflexivity].
      destruct after as [rest'|]; [|reflexivity].
      pose proof (ScanFacts.split_block_shorter _ _ _ Es).
      rewrite (IH rest' (st ++ [Group n bl])) by lia.
      rewrite (IH rest' ([] ++ [Group n bl])) by lia.
      destruct (scan_lines lay_data rest' []) as [s|e]; cbn [rbind]; [|reflexivity].
      rewrite <- app_assoc. reflexivity.
    + destruct (parse_layer_line (Str.strip raw) lay_data) as [[l|]|e]; cbn [rbind];
        [| apply IH; lia | reflexivity].
      rewrite (IH rest (st ++ [Layer l])) by lia.
      rewrite (IH rest ([] ++ [Layer l])) by lia.
      destruct (scan_lines lay_data rest []) as [s|e]; cbn [rbind]; [|reflexivity].
      rewrite <- app_assoc. reflexivity.
    + apply IH. lia.
Qed.

Lemma for_not_layer line :
  Str.startswith "for(" line = true -> Str.startswith "layer(" line = false.
Proof.
  destruct line as [|c line]; [discriminate|].
  cbn [Str.startswith]. destruct (Ascii.eqb_spec "f" c) as [<-|]; [|discriminate].
  reflexivity.
Qed.

Lemma kind_layer raw :
  kind_of raw = KLayer -> Str.startswith "layer(" (Str.strip raw) = true.
Proof.
  unfold kind_of. destruct (Str.startswith "for(" (Str.strip raw)).
  - destruct (Re.match_ Pat.for_ (Str.strip raw)) as [[m r]|]; discriminate.
  - destruct (Str.startswith "layer(" (Str.strip raw)); [reflexivity | discriminate].
Qed.

Lemma kind_other raw :
  kind_of raw = KOther -> Str.startswith "layer(" (Str.strip raw) = false.
Proof.
  unfold kind_of. destruct (Str.startswith "for(" (Str.strip raw)) eqn:Hf.
  - intros _. apply for_not_layer. exact Hf.
  - destruct (Str.startswith "layer(" (Str.strip raw)); [discriminate | reflexivity].
Qed.

Lemma units_differ u : String.eqb u "nm" = true -> String.eqb u "s" = false.
Proof. intros H. apply String.eqb_eq in H. subst. reflexivity. Qed.

(** An instruction that [parse_layer_line] accepts is read by
    [parse_epi_file] in the same way, and nothing is printed. *)
Lemma epi_line_layer lay_data raw st pr p :
  kind_of raw = KLayer ->
  parse_layer_line (Str.strip raw) lay_data = Ok p ->
  exists ls, epi_line lay_data (st, pr) raw = Ok (st ++ ls, pr) /\
             Forall2 same_growth (option_list p) ls.
Proof.
  intros Hk. apply kind_layer in Hk. unfold parse_layer_line, epi_line. rewrite Hk.
  destruct (Re.match_ Pat.layer (Str.strip raw)) as [[g rest]|].
  2:{ intros [= <-]. exists []. rewrite app_nil_r. split; [reflexivity | constructor]. }
  destruct (Float.of_literal (Pat.text 2 g)) as [value|e]; cbn [rbind]; [|discriminate].
  destruct (String.eqb (Pat.text 1 g) "shutterzu").
  { intros [= <-]. eexists. split; [reflexivity|].
    constructor; [repeat split | constructor]. }
  destruct (getitem lay_data (Some (Pat.text 1 g))) as [entry|e] eqn:Hg; cbn [rbind];
    [|discriminate].
  apply RaiseFacts.getitem_ok in Hg. rewrite Hg.
  destruct (String.eqb (Pat.text 3 g) "nm") eqn:Hnm.
  - rewrite (units_differ _ Hnm).
    destruct (time_of_thickness (rate entry) value) as [t|e]; cbn [rbind]; [|discriminate].
    intros [= <-]. eexists. split; [reflexivity|].
    constructor; [repeat split | constructor].
  - destruct (String.eqb (Pat.text 3 g) "s").
    + destruct (thickness_of_time (rate entry) value) as [t|e]; cbn [rbind]; [|discriminate].
      intros [= <-]. eexists. split; [reflexivity|].
      constructor; [repeat split | constructor].
    + cbn [rbind]. intros [= <-]. exists []. rewrite app_nil_r.
      split; [reflexivity | constructor].
Qed.

Lemma epi_line_other lay_data raw st :
  kind_of raw = KOther -> epi_line lay_data st raw = Ok st.
Proof.
  intros Hk. apply kind_other in Hk. unfold epi_line. destruct st. rewrite Hk. reflexivity.
Qed.

Lemma scan_loop_free lay_data lines :
  Forall (fun raw => forall c, kind_of raw <> KLoop c) lines ->
  forall st ls pr out,
  Forall2 same_growth st ls ->
  scan_lines lay_data lines (map Layer st) = Ok out ->
  exists st' ls',
    out = map Layer st' /\
    epi_lines lay_data (ls, pr) lines = Ok (ls', pr) /\
    Forall2 same_growth st' ls'.
Proof.
  induction 1 as [|raw lines Hraw _ IH]; intros st ls pr out Hst.
  - intros [= <-]. exists st, ls. auto.
  - rewrite ScanFacts.scan_lines_cons. cbn [epi_lines].
    destruct (kind_of raw) as [c| |] eqn:Ek; [destruct (Hraw c eq_refl)| |].
    + destruct (parse_layer_line (Str.strip raw) lay_data) as [p|e] eqn:Ep; cbn [rbind];
        [|discriminate].
      destruct (epi_line_layer lay_data raw ls pr p Ek Ep) as (new & -> & Hnew).
      cbn [rbind]. destruct p as [l|]; cbn [option_list] in Hnew.
      * replace (map Layer st ++ [Layer l]) with (map Layer (st ++ [l]))
          by (rewrite map_app; reflexivity).
        apply IH. apply Forall2_app; assumption.
      * inversion Hnew; subst. rewrite app_nil_r. apply IH. exact Hst.
    + rewrite (epi_line_other _ _ _ Ek). cbn [rbind]. apply IH. exact Hst.
Qed.

End StackFacts.

(** X11: the stack of two programs put one after the other is the stack
    of the first followed by the stack of the second, when the first
    closes the loops it opens; the substrate is looked for in the
    whole. *)
Theorem programs_concatenate lay_data p1 p2 s1 s2 :
  closed p1 ->
  scan_lines lay_data p1 [] = Ok s1 ->
  scan_lines lay_data p2 [] = Ok s2 ->
  parse_epi_file_with_loops (p1 ++ p2) lay_data = Ok (insert_substrate (s1 ++ s2)).
Proof.
  intros Hc H1 H2. unfold parse_epi_file_with_loops.
  rewrite (ScanFacts.scan_closed_app lay_data p1 Hc), H1. cbn [rbind].
  rewrite (StackFacts.scan_lines_stack lay_data _ p2 s1 (le_n _)), H2. reflexivity.
Qed.

(** An instance: a loop, then an idle period. *)
Lemma programs_concatenate_witness :
  parse_epi_file_with_loops
    (["for(i,2,0.0)"; "layer(shutterzu,30s)"; "next(i)"] ++ ["layer(shutterzu,5s)"]) ∅ =
  Ok (insert_substrate ([Group 2 [idle_layer (Float.Fin 30) "s"]] ++
                        [Layer (idle_layer (Float.Fin 5) "s")])).
Proof.
  apply programs_concatenate.
  - apply (closed_loop "for(i,2,0.0)" (Ok 2) ["layer(shutterzu,30s)"] "next(i)" []).
    + vm_compute. reflexivity.
    + constructor; [vm_compute; reflexivity | constructor].
    + vm_compute. reflexivity.
    + apply closed_nil.
  - vm_compute. reflexivity.
  - vm_compute. reflexivity.
Defined.

(** X12: on a program without loop headers that
    [parse_epi_file_with_loops] accepts, the loop-free parser
    [parse_epi_file] prints no warning and returns the same layers in the
    same order, with the same material, thickness, time and shutters;
    the other parser only adds the substrate. *)
Theorem loop_free_parsers_agree lines lay_data out :
  Forall (fun raw => forall c, kind_of raw <> KLoop c) lines ->
  parse_epi_file_with_loops lines lay_data = Ok out ->
  exists st ls,
    out = insert_substrate (map Layer st) /\
    parse_epi_file lines lay_data = Ok (ls, []) /\
    Forall2 same_growth st ls.
Proof.
  intros Hl. unfold parse_epi_file_with_loops, parse_epi_file.
  destruct (scan_lines lay_data lines []) as [scanned|e] eqn:E; cbn [rbind]; [|discriminate].
  intros [= <-].
  destruct (StackFacts.scan_loop_free lay_data lines Hl [] [] [] scanned
              (List.Forall2_nil _) E) as (st & ls & -> & H & Hs).
  exists st, ls. auto.
Qed.

(** An instance: one instruction of the material GaAs. *)
Lemma loop_free_parsers_agree_witness :
  exists st ls,
    [Layer substrate_layer;
     Layer {| Material := "GaAs"; Composition := "GaAs";
              Thickness := Flt (Float.Fin 20); Time := Flt (Float.Fin 120);
              Shutters := ShutterText "As, Ga";
              Repeat := Some 1; GrowthRate := None |}]
      = insert_substrate (map Layer st) /\
    parse_epi_file GaAs_program GaAs_table = Ok (ls, []) /\
    Forall2 same_growth st ls.
Proof.
  apply (loop_free_parsers_agree GaAs_program GaAs_table).
  - constructor; [intros c; vm_compute; discriminate | constructor].
  - vm_compute. reflexivity.
Defined.

(** ** The flattening and the whole run *)

Module FlatFacts.

Lemma mul_int_raises x n e :
  mul_int x n = Raise e -> e = OverflowError /\ Float.of_int n = Raise OverflowError.
Proof.
  destruct x as [z|f]; cbn [mul_int]; [discriminate|].
  unfold Float.of_int. destruct (Float.RN (inject_Z n)); cbn [rbind]; try discriminate.
  intros [= <-]. auto.
Qed.

Lemma scaled_raises n l e :
  scaled n l = Raise e -> e = OverflowError /\ Float.of_int n = Raise OverflowError.
Proof.
  unfold scaled.
  destruct (mul_int (Thickness l) n) as [x|e0] eqn:E1; cbn [rbind];
    [|intros [= <-]; eapply mul_int_raises; exact E1].
  destruct (mul_int (Time l) n) as [y|e0] eqn:E2; cbn [rbind];
    [discriminate | intros [= <-]; eapply mul_int_raises; exact E2].
Qed.

Lemma scaled_all_raises n ls e :
  scaled_all n ls = Raise e -> e = OverflowError /\ Float.of_int n = Raise OverflowError.
Proof.
  induction ls as [|l ls IH]; cbn [scaled_all]; [discriminate|].
  destruct (scaled n l) as [x|e0] eqn:E1; cbn [rbind];
    [|intros [= <-]; eapply scaled_raises; exact E1].
  destruct (scaled_all n ls) as [y|e0]; cbn [rbind]; [discriminate|].
  intros [= <-]. apply IH. reflexivity.
Qed.

Lemma flatten_layers_raises stack e :
  flatten_layers stack = Raise e ->
  e = OverflowError /\
  exists n ls, In (Group n ls) stack /\ Float.of_int n = Raise OverflowError.
Proof.
  induction stack as [|[l|n ls] stack IH]; cbn [flatten_layers]; [discriminate| |].
  - destruct (flatten_layers stack) as [more|e0]; cbn [rbind]; [discriminate|].
    intros [= <-]. destruct (IH eq_refl) as (-> & m & ms & Hin & Hm).
    split; [reflexivity|]. exists m, ms. split; [right; exact Hin | exact Hm].
  - destruct (scaled_all n ls) as [flat|e0] eqn:E1; cbn [rbind].
    + destruct (flatten_layers stack) as [more|e0]; cbn [rbind]; [discriminate|].
      intros [= <-]. destruct (IH eq_refl) as (-> & m & ms & Hin & Hm).
      split; [reflexivity|]. exists m, ms. split; [right; exact Hin | exact Hm].
    + intros [= <-]. apply scaled_all_raises in E1. destruct E1 as [-> Hn].
      split; [reflexivity|]. exists n, ls. split; [left; reflexivity | exact Hn].
Qed.

Lemma scaled_all_labels n fn ls :
  Float.of_int n = Ok fn ->
  exists flat, scaled_all n ls = Ok flat /\ Forall2 same_labels ls flat /\
               Forall (fun l' => Repeat l' = Some n) flat.
Proof.
  intros Hn. induction ls as [|l ls (flat & IH & Hl & Hr)]; cbn [scaled_all].
  - exists []. repeat split; constructor.
  - destruct (FlattenFacts.mul_int_ok (Thickness l) n fn Hn) as [x Hx].
    destruct (FlattenFacts.mul_int_ok (Time l) n fn Hn) as [y Hy].
    unfold scaled. rewrite Hx, Hy, IH. cbn [rbind].
    eexists. split; [reflexivity|]. split; constructor; auto.
    repeat split.
Qed.

End FlatFacts.

(** X13: [flatten_layers] succeeds on every stack whose loop counts are
    below 2^1023, and it returns one layer for each layer of the stack,
    in the order of the stack, with the same material, composition,
    shutters and growth rate: the body of a loop is entered once,
    whatever the count. *)
Theorem flatten_layers_total stack :
  Forall count_in_range stack ->
  exists flat,
    flatten_layers stack = Ok flat /\
    Forall2 same_labels (flat_map item_layers stack) flat.
Proof.
  induction 1 as [|it stack Hit _ (more & IH & Hm)]; cbn [flatten_layers flat_map].
  - exists []. split; [reflexivity | constructor].
  - destruct it as [l|n ls]; cbn [item_layers count_in_range] in *.
    + rewrite IH. cbn [rbind]. eexists. split; [reflexivity|].
      constructor; [repeat split | exact Hm].
    + destruct (FloatValues.of_int_small n) as (fn & Hfn & _); [lia|].
      destruct (FlatFacts.scaled_all_labels n fn ls Hfn) as (flat & Hf & Hl & _).
      rewrite Hf, IH. cbn [rbind]. eexists. split; [reflexivity|].
      apply Forall2_app; assumption.
Qed.

(** An instance: a loop of a thousand turns around two layers. *)
Lemma flatten_layers_total_witness :
  exists flat,
    flatten_layers [Layer substrate_layer;
                    Group 1000 [idle_layer (Float.Fin 30) "s"; substrate_layer]]
      = Ok flat /\
    Forall2 same_labels
      [substrate_layer; idle_layer (Float.Fin 30) "s"; substrate_layer] flat.
Proof.
  apply (flatten_layers_total
           [Layer substrate_layer;
            Group 1000 [idle_layer (Float.Fin 30) "s"; substrate_layer]]).
  repeat constructor; cbn; lia.
Defined.

(** X14: the run of the script, from the two files to the flattened
    stack, fails in six ways only; it fails with KeyError only for a
    material that no line of the definitions file defines, and with
    OverflowError only in the flattening.  No subscript and no lookup of
    the definitions parser fails. *)
Theorem example_run_failures lay_file epi_file e :
  example_run lay_file epi_file = Raise e ->
  e = AttributeError \/ e = ValueError \/
  (exists k, e = KeyError k /\
             forall raw, In raw lay_file -> opened_id raw <> Some k) \/
  e = TypeError \/ e = ZeroDivisionError \/
  (e = OverflowError /\ exists lay_data stack,
     parse_lay_file lay_file = Ok lay_data /\
     parse_epi_file_with_loops epi_file lay_data = Ok stack).
Proof.
  unfold example_run.
  destruct (parse_lay_file lay_file) as [lay_data|e0] eqn:E1; cbn [rbind].
  2:{ intros [= <-]. destruct (DefTable.lay_file_raises _ _ E1) as [->| ->]; auto. }
  destruct (parse_epi_file_with_loops epi_file lay_data) as [stack|e0] eqn:E2; cbn [rbind].
  2:{ intros [= <-]. unfold parse_epi_file_with_loops in E2.
      destruct (scan_lines lay_data epi_file []) as [st|e1] eqn:E; cbn [rbind] in E2;
        [discriminate|]. injection E2 as <-.
      destruct (RaiseFacts.scan_lines_raises _ _ _ _ _ (le_n _) E) as [line Hl].
      apply RaiseFacts.parse_layer_line_raises in Hl.
      destruct Hl as [->|[(k & -> & Hk)|[[-> _]|[-> _]]]]; auto 6.
      right. right. left. exists k. split; [reflexivity|].
      intros raw Hin Ho.
      assert (Hs : is_Some (lay_data !! k)).
      { apply (DefTable.keys_opened lay_file lay_data k E1). eauto. }
      rewrite Hk in Hs. destruct Hs as [x Hx]. discriminate Hx. }
  intros H. apply FlatFacts.flatten_layers_raises in H. destruct H as [-> _].
  do 5 right. split; [reflexivity|]. eauto.
Qed.

(** An instance: an instruction for a material that is not defined. *)
Lemma example_run_failures_witness :
  KeyError "AlAs" = AttributeError \/ KeyError "AlAs" = ValueError \/
  (exists k, KeyError "AlAs" = KeyError k /\
             forall raw, In raw GaAs_definitions -> opened_id raw <> Some k) \/
  KeyError "AlAs" = TypeError \/ KeyError "AlAs" = ZeroDivisionError \/
  (KeyError "AlAs" = OverflowError /\ exists lay_data stack,
     parse_lay_file GaAs_definitions = Ok lay_data /\
     parse_epi_file_with_loops ["layer(AlAs,10nm)"] lay_data = Ok stack).
Proof.
  apply (example_run_failures GaAs_definitions ["layer(AlAs,10nm)"]).
  vm_compute. reflexivity.
Defined.

(** ** The rounding *)

Module RoundFacts.
Import Float.
Local Open Scope Q_scope.

(** The nearest integer of a rational less than a half away from [n]. *)
Lemma rne_near x (n : Z) :
  inject_Z n - (1 # 2) < x -> x < inject_Z n + (1 # 2) -> rne x = n.
Proof.
  intros H1 H2. destruct (FloatFacts.rne_bounds x) as [B1 B2].
  assert (L1 : inject_Z (rne x) < inject_Z n + 1) by lra.
  assert (L2 : inject_Z n < inject_Z (rne x) + 1) by lra.
  change 1 with (inject_Z 1) in L1, L2. rewrite <- inject_Z_plus in L1, L2.
  rewrite <- Zlt_Qlt in L1, L2. lia.
Qed.

(** A float nearest to a number of hundredths rounds to itself. *)
Lemma hundredths_kept (k : Z) :
  (0 <= k < 2 ^ 52)%Z ->
  round2 (RN (inject_Z k / 100)) = RN (inject_Z k / 100).
Proof.
  intros [Hk0 Hk1].
  assert (K0 : 0 <= inject_Z k).
  { change 0 with (inject_Z 0). rewrite <- Zle_Qle. exact Hk0. }
  assert (K1 : inject_Z k < 4503599627370496).
  { change 4503599627370496 with (inject_Z (2 ^ 52)). rewrite <- Zlt_Qlt. exact Hk1. }
  assert (Hx : inject_Z k / 100 * 100 == inject_Z k) by field.
  set (x := inject_Z k / 100) in *.
  destruct (ErrorFacts.RN_err x 46) as (q & Hq & Q0 & Q1 & Q2);
    [lra | change (pow2 46) with 70368744177664; lra | lia |].
  change (pow2 (46 - 54)) with (1 # 256) in Q1, Q2.
  rewrite Hq. cbn [round2].
  rewrite (rne_near (q * 100) k) by lra.
  fold x. exact Hq.
Qed.

Lemma round2_twice q :
  0 <= q -> q < pow2 45 -> round2 (round2 (Fin q)) = round2 (Fin q).
Proof.
  intros H0 H1. cbn [round2]. apply hundredths_kept.
  change (pow2 45) with 35184372088832 in H1.
  split.
  - apply FloatFacts.rne_ge. change (inject_Z 0) with 0. lra.
  - apply Z.le_lt_trans with (3518437208883200)%Z; [|reflexivity].
    apply FloatFacts.rne_le. change (inject_Z 3518437208883200) with 3518437208883200. lra.
Qed.

End RoundFacts.

(** X15: rounding to two decimals twice is rounding once, for the values
    below 2^45: what [parse_layer_line] stores is a fixed point of
    [round(x, 2)]. *)
Theorem round2_idempotent q :
  (0 <= q)%Q -> (q < Float.pow2 45)%Q ->
  Float.round2 (Float.round2 (Float.Fin q)) = Float.round2 (Float.Fin q).
Proof. exact (RoundFacts.round2_twice q). Qed.

(** An instance: a third. *)
Lemma round2_idempotent_witness :
  Float.round2 (Float.round2 (Float.Fin (1 # 3))) = Float.round2 (Float.Fin (1 # 3)).
Proof.
  apply round2_idempotent; [discriminate | reflexivity].
Defined.

(** X16: an instruction keeps the value it is written with, when this
    has at most two decimals and is below 2^52 hundredths: the thickness
    of an instruction in nm, and the time of an instruction in s, is the
    float of the text, untouched by the rounding. *)
Theorem written_value_kept line lay_data g rest (k : Z) l :
  Re.match_ Pat.layer line = Some (g, rest) ->
  String.eqb (Pat.text 1 g) "shutterzu" = false ->
  (0 <= k < 2 ^ 52)%Z ->
  Float.of_literal (Pat.text 2 g) = Ok (Float.RN (inject_Z k / 100)) ->
  parse_layer_line line lay_data = Ok (Some l) ->
  (Pat.text 3 g = "nm" -> Thickness l = Flt (Float.RN (inject_Z k / 100))) /\
  (Pat.text 3 g = "s" -> Time l = Flt (Float.RN (inject_Z k / 100))).
Proof.
  intros Hm Hs Hk Hv.
  rewrite (LineFacts.parse_layer_line_growth _ _ _ _ _ Hm Hv Hs).
  destruct (getitem lay_data (Some (Pat.text 1 g))) as [entry|e]; cbn [rbind];
    [|discriminate].
  intros H. split; intros Hu; rewrite Hu in H.
  - change (String.eqb "nm" "nm") with true in H. cbv iota in H.
    destruct (time_of_thickness (rate entry) _) as [tm|e]; [|discriminate].
    cbn [rbind] in H. injection H as <-. cbn [Thickness].
    rewrite (RoundFacts.hundredths_kept k Hk). reflexivity.
  - change (String.eqb "s" "nm") with false in H.
    change (String.eqb "s" "s") with true in H. cbv iota in H.
    destruct (thickness_of_time (rate entry) _) as [th|e]; [|discriminate].
    cbn [rbind] in H. injection H as <-. cbn [Time].
    rewrite (RoundFacts.hundredths_kept k Hk). reflexivity.
Qed.

(** An instance: 12.34 nm of the material GaAs. *)
Lemma written_value_kept_witness :
  exists l,
    parse_layer_line "layer(GaAs,12.34nm)" GaAs_table = Ok (Some l) /\
    Thickness l = Flt (Float.RN (inject_Z 1234 / 100)).
Proof.
  assert (H : exists l, parse_layer_line "layer(GaAs,12.34nm)" GaAs_table = Ok (Some l)).
  { eexists. vm_compute. reflexivity. }
  destruct H as [l H]. exists l. split; [exact H|].
  apply (written_value_kept "layer(GaAs,12.34nm)" GaAs_table
           [(4%nat, ""); (3%nat, "nm"); (2%nat, "12.34"); (1%nat, "GaAs")] "" 1234 l).
  - vm_compute. reflexivity.
  - vm_compute. reflexivity.
  - lia.
  - vm_compute. reflexivity.
  - exact H.
  - reflexivity.
Defined.

(** ** The material families *)

Module FamilyFacts.

Lemma digit_not_letter c a :
  Str.isdigit c = true -> (57 < Str.code a) -> Ascii.eqb a c = false.
Proof.
  intros Hc Ha. destruct (Ascii.eqb_spec a c) as [->|]; [|reflexivity].
  pose proof (CountFacts.isdigit_code c Hc). lia.
Qed.

(** No text that starts with a capital letter sits inside a run of
    digits followed by "GaAs", but for "Ga..." and "As". *)
Lemma contains_digits p a n :
  (57 < Str.code a) ->
  all_chars Str.isdigit n = true ->
  contains (String a p) (String.append n "GaAs") = contains (String a p) "GaAs".
Proof.
  intros Ha. induction n as [|c n IH]; [reflexivity|].
  cbn [all_chars]. intros H. apply andb_true_iff in H. destruct H as [Hc Hn].
  change (String.append (String c n) "GaAs") with (String c (String.append n "GaAs")).
  cbn [contains Str.startswith]. rewrite (digit_not_letter c a Hc Ha).
  cbn [orb]. apply IH. exact Hn.
Qed.

(** What the tests of [get_material_family] find in two letters, a
    digit, more digits and "GaAs". *)
Lemma tests_of_tag a b c n :
  Str.isdigit c = true -> all_chars Str.isdigit n = true ->
  contains "InGa" (String a (String b (String c (String.append n "GaAs")))) = false /\
  contains "Ga" (String a (String b (String c (String.append n "GaAs")))) = true /\
  contains "Al" (String a (String b (String c (String.append n "GaAs"))))
    = Str.startswith "Al" (String a (String b (String c (String.append n "GaAs")))) /\
  String.eqb (String a (String b (String c (String.append n "GaAs")))) "Idle" = false.
Proof.
  intros Hc Hn.
  assert (HI : contains "InGa" (String.append n "GaAs") = false).
  { rewrite contains_digits; [reflexivity | vm_compute; reflexivity | exact Hn]. }
  assert (HG : contains "Ga" (String.append n "GaAs") = true).
  { rewrite contains_digits; [reflexivity | vm_compute; reflexivity | exact Hn]. }
  assert (HA : contains "Al" (String.append n "GaAs") = false).
  { rewrite contains_digits; [reflexivity | vm_compute; reflexivity | exact Hn]. }
  pose proof (digit_not_letter c "I" Hc ltac:(vm_compute; reflexivity)) as cI.
  pose proof (digit_not_letter c "G" Hc ltac:(vm_compute; reflexivity)) as cG.
  pose proof (digit_not_letter c "A" Hc ltac:(vm_compute; reflexivity)) as cA.
  pose proof (digit_not_letter c "n" Hc ltac:(vm_compute; reflexivity)) as cn.
  pose proof (digit_not_letter c "a" Hc ltac:(vm_compute; reflexivity)) as ca.
  pose proof (digit_not_letter c "l" Hc ltac:(vm_compute; reflexivity)) as cl.
  pose proof (digit_not_letter c "d" Hc ltac:(vm_compute; reflexivity)) as cd.
  repeat split; cbn [contains Str.startswith String.eqb];
    rewrite ?(Ascii.eqb_sym c "l"), ?cI, ?cG, ?cA, ?cn, ?ca, ?cl, ?cd, ?HI, ?HG, ?HA.
  - repeat match goal with
           | |- context [Ascii.eqb ?x ?y] => destruct (Ascii.eqb x y)
           end; reflexivity.
  - rewrite !orb_true_r. reflexivity.
  - repeat match goal with
           | |- context [Ascii.eqb ?x ?y] => destruct (Ascii.eqb x y)
           end; reflexivity.
  - repeat match goal with
           | |- context [Ascii.eqb ?x ?y] => destruct (Ascii.eqb x y)
           end; reflexivity.
Qed.

Lemma ternary_family_Al n :
  is_number n -> get_material_family (String.append "Al" (String.append n "GaAs")) = "AlGaAs".
Proof.
  intros [H0 Hn]. destruct n as [|c n]; [contradiction|].
  cbn [all_chars] in Hn. apply andb_true_iff in Hn. destruct Hn as [Hc Hn].
  destruct (tests_of_tag "A" "l" c n Hc Hn) as (T1 & T2 & T3 & T4).
  unfold get_material_family.
  change (String.append "Al" (String.append (String c n) "GaAs"))
    with (String "A" (String "l" (String c (String.append n "GaAs")))).
  rewrite T4, T1, T2, T3. reflexivity.
Qed.

Lemma ternary_family_In n :
  is_number n -> get_material_family (String.append "In" (String.append n "GaAs")) = "GaAs".
Proof.
  intros [H0 Hn]. destruct n as [|c n]; [contradiction|].
  cbn [all_chars] in Hn. apply andb_true_iff in Hn. destruct Hn as [Hc Hn].
  destruct (tests_of_tag "I" "n" c n Hc Hn) as (T1 & T2 & T3 & T4).
  unfold get_material_family.
  change (String.append "In" (String.append (String c n) "GaAs"))
    with (String "I" (String "n" (String c (String.append n "GaAs")))).
  rewrite T4, T1, T2, T3. reflexivity.
Qed.

End FamilyFacts.

(** X17: [get_material_family] puts a name of the form Al, digits, GaAs
    in the family AlGaAs, and a name of the form In, digits, GaAs in the
    family GaAs, not InGaAs: the digits part In from Ga. *)
Theorem ternary_families n :
  is_number n ->
  get_material_family (String.append "Al" (String.append n "GaAs")) = "AlGaAs" /\
  get_material_family (String.append "In" (String.append n "GaAs")) = "GaAs".
Proof.
  intros H. split; [apply FamilyFacts.ternary_family_Al | apply FamilyFacts.ternary_family_In];
    exact H.
Qed.

(** An instance: 30 per cent. *)
Lemma ternary_families_witness :
  get_material_family "Al30GaAs" = "AlGaAs" /\ get_material_family "In30GaAs" = "GaAs".
Proof.
  apply (ternary_families "30"). split; [discriminate | reflexivity].
Defined.

(** ** The composition tags *)

Module TagFacts.

Lemma matches_ternary p s g g' :
  matches (Re.seq_of [Re.Lit p; Re.Plus Re.d; Re.Lit "GaAs"]) s g g' ->
  g' = g /\ exists n, is_number n /\ s = String.append p (String.append n "GaAs").
Proof.
  cbn [Re.seq_of]. intros M.
  apply PatFacts.matches_seq_inv in M. destruct M as (s0 & t0 & g0 & -> & M0 & M).
  apply PatFacts.matches_lit in M0. destruct M0 as [-> ->].
  apply PatFacts.matches_seq_inv in M. destruct M as (n & t1 & g1 & -> & M1 & M).
  apply PatFacts.matches_plus_class in M1. destruct M1 as (-> & Hn0 & Hn).
  apply PatFacts.matches_lit in M. destruct M as [-> ->].
  split; [reflexivity|]. exists n. split; [split; assumption | reflexivity].
Qed.

(** What the composition pattern matches is a tag, and its group is the
    whole match. *)
Lemma matches_composition s c :
  matches Pat.composition s [] c -> Pat.text 1 c = s /\ is_tag s.
Proof.
  unfold Pat.composition. intros M.
  apply PatFacts.matches_group_inv in M. destruct M as (g1 & -> & M).
  split; [reflexivity|].
  apply PatFacts.matches_alt_inv in M. destruct M as [M|M].
  { apply matches_ternary in M. destruct M as (_ & n & Hn & ->).
    right. right. exists n. auto. }
  apply PatFacts.matches_alt_inv in M. destruct M as [M|M].
  { apply matches_ternary in M. destruct M as (_ & n & Hn & ->).
    right. right. exists n. auto. }
  apply PatFacts.matches_alt_inv in M. destruct M as [M|M];
    apply PatFacts.matches_lit in M; destruct M as [-> _]; [left | right; left];
    reflexivity.
Qed.

Lemma composition_found line g rest c r :
  Re.match_ Pat.layer line = Some (g, rest) ->
  Re.search Pat.composition (Pat.text 4 g) = Some (c, r) ->
  is_tag (Pat.text 1 c) /\
  exists pre post, line = String.append pre (String.append (Pat.text 1 c) post).
Proof.
  intros Hm Hs. destruct (LineParts.layer_parts _ _ _ Hm) as (_ & Hl & _).
  apply ReFacts.search_sound in Hs. destruct Hs as (pre & s & Hc & M).
  apply matches_composition in M. destruct M as [-> Ht].
  split; [exact Ht|]. rewrite Hl, Hc.
  exists (String.append "layer("
            (String.append (Pat.text 1 g)
               (String.append ","
                  (String.append (Pat.text 2 g)
                     (String.append (Pat.text 3 g) (String.append ")" pre)))))),
         (String.append r rest).
  rewrite !ReFacts.append_assoc. reflexivity.
Qed.

Lemma parse_layer_line_tag line lay_data l :
  parse_layer_line line lay_data = Ok (Some l) ->
  Composition l = "None" \/ Composition l = "Unknown" \/
  (is_tag (Composition l) /\
   exists pre post, line = String.append pre (String.append (Composition l) post)).
Proof.
  unfold parse_layer_line.
  destruct (Re.match_ Pat.layer line) as [[g rest]|] eqn:Hm; [|discriminate].
  destruct (Float.of_literal (Pat.text 2 g)) as [value|e]; cbn [rbind]; [|discriminate].
  destruct (String.eqb (Pat.text 1 g) "shutterzu").
  { intros [= <-]. left. reflexivity. }
  destruct (getitem lay_data (Some (Pat.text 1 g))) as [entry|e]; cbn [rbind];
    [|discriminate].
  assert (G : forall tt : option (Float.float * Float.float),
            match tt with
            | None => Ok None
            | Some (thickness, time_s) =>
                Ok (Some {| Material := Pat.text 1 g;
                            Composition :=
                              match Re.search Pat.composition (Pat.text 4 g) with
                              | Some (c, _) => Pat.text 1 c
                              | None => "Unknown"
                              end;
                            Thickness := Flt (Float.round2 thickness);
                            Time := Flt (Float.round2 time_s);
                            Shutters := ShutterText (Str.join ", " (shutters entry));
                            Repeat := Some 1;
                            GrowthRate := None |})
            end = Ok (Some l) ->
            Composition l = "None" \/ Composition l = "Unknown" \/
            (is_tag (Composition l) /\
             exists pre post,
               line = String.append pre (String.append (Composition l) post))).
  { intros [[th tm]|]; [|discriminate]. intros [= <-]. cbn [Composition].
    destruct (Re.search Pat.composition (Pat.text 4 g)) as [[c r]|] eqn:Hs.
    - right. right. eapply composition_found; eassumption.
    - right. left. reflexivity. }
  destruct (String.eqb (Pat.text 3 g) "nm").
  - destruct (time_of_thickness (rate entry) value) as [tm|e]; cbn [rbind];
      [exact (G (Some (value, tm))) | discriminate].
  - destruct (String.eqb (Pat.text 3 g) "s"); [|discriminate].
    destruct (thickness_of_time (rate entry) value) as [th|e]; cbn [rbind];
      [exact (G (Some (th, value))) | discriminate].
Qed.

End TagFacts.

(** X18: the composition of a layer that [parse_layer_line] returns is
    None (an idle period), Unknown, or a tag that stands in the line:
    AlAs, GaAs, or Al or In, a number, and GaAs. *)
Theorem composition_is_tag line lay_data l :
  parse_layer_line line lay_data = Ok (Some l) ->
  Composition l = "None" \/ Composition l = "Unknown" \/
  (is_tag (Composition l) /\
   exists pre post, line = String.append pre (String.append (Composition l) post)).
Proof. exact (TagFacts.parse_layer_line_tag line lay_data l). Qed.

(** An instance: the tag of a ternary layer. *)
Lemma composition_is_tag_witness :
  exists l,
    parse_layer_line "layer(AlGaAs,10nm) # Al30GaAs barrier" AlGaAs_table = Ok (Some l) /\
    Composition l = "Al30GaAs" /\
    (Composition l = "None" \/ Composition l = "Unknown" \/
     (is_tag (Composition l) /\
      exists pre post,
        "layer(AlGaAs,10nm) # Al30GaAs barrier"
        = String.append pre (String.append (Composition l) post))).
Proof.
  assert (H : exists l,
            parse_layer_line "layer(AlGaAs,10nm) # Al30GaAs barrier" AlGaAs_table
              = Ok (Some l) /\ Composition l = "Al30GaAs").
  { eexists. split; vm_compute; reflexivity. }
  destruct H as (l & H & Hc). exists l. split; [exact H|]. split; [exact Hc|].
  apply (composition_is_tag _ AlGaAs_table l H).
Defined.

(** ** Loops in loops, and the layers of the table *)

Module NestFacts.

Lemma for_not_next line :
  Str.startswith "for(" line = true -> Str.startswith "next(" line = false.
Proof.
  destruct line as [|c line]; [discriminate|].
  cbn [Str.startswith]. destruct (Ascii.eqb_spec "f" c) as [<-|]; [|discriminate].
  reflexivity.
Qed.

Lemma kind_loop raw c :
  kind_of raw = KLoop c -> Str.startswith "for(" (Str.strip raw) = true.
Proof.
  unfold kind_of. destruct (Str.startswith "for(" (Str.strip raw)); [reflexivity|].
  destruct (Str.startswith "layer(" (Str.strip raw)); discriminate.
Qed.

(** A loop header gives no layer and closes no loop. *)
Lemma header_in_body raw c lay_data :
  kind_of raw = KLoop c ->
  closes_loop raw = false /\ parse_layer_line (Str.strip raw) lay_data = Ok None.
Proof.
  intros H. apply kind_loop in H. split.
  - apply for_not_next. exact H.
  - apply SkipFacts.parse_layer_line_skip. apply StackFacts.for_not_layer. exact H.
Qed.

(** A line of a loop body that gives no layer can be taken out. *)
Lemma split_block_drop lay_data h tail :
  closes_loop h = false ->
  parse_layer_line (Str.strip h) lay_data = Ok None ->
  forall b1,
  Forall (fun b => closes_loop b = false) b1 ->
  parse_block (fst (split_block (b1 ++ h :: tail))) lay_data
    = parse_block (fst (split_block (b1 ++ tail))) lay_data /\
  snd (split_block (b1 ++ h :: tail)) = snd (split_block (b1 ++ tail)).
Proof.
  intros Hh Hp. induction 1 as [|b b1 Hb _ [IH1 IH2]]; cbn [app split_block].
  - rewrite Hh. destruct (split_block tail) as [body after]. cbn [fst snd].
    split; [|reflexivity]. cbn [parse_block]. rewrite Hp. cbn [rbind].
    apply SkipFacts.rbind_ret.
  - rewrite Hb.
    destruct (split_block (b1 ++ h :: tail)) as [body1 after1].
    destruct (split_block (b1 ++ tail)) as [body2 after2].
    cbn [fst snd] in *. split; [|exact IH2].
    cbn [parse_block]. rewrite IH1. reflexivity.
Qed.

Lemma parse_layer_line_follows lay_data line l :
  parse_layer_line line lay_data = Ok (Some l) -> follows_table lay_data l.
Proof.
  unfold parse_layer_line, follows_table.
  destruct (Re.match_ Pat.layer line) as [[g rest]|]; [|discriminate].
  destruct (Float.of_literal (Pat.text 2 g)) as [value|e]; cbn [rbind]; [|discriminate].
  destruct (String.eqb (Pat.text 1 g) "shutterzu").
  { intros [= <-]. right. left. eauto. }
  destruct (getitem lay_data (Some (Pat.text 1 g))) as [entry|e] eqn:Hg; cbn [rbind];
    [|discriminate].
  apply RaiseFacts.getitem_ok in Hg.
  destruct (String.eqb (Pat.text 3 g) "nm").
  - destruct (time_of_thickness (rate entry) value) as [tm|e]; cbn [rbind]; [|discriminate].
    intros [= <-]. right. right. exists entry. auto.
  - destruct (String.eqb (Pat.text 3 g) "s"); [|discriminate].
    destruct (thickness_of_time (rate entry) value) as [th|e]; cbn [rbind]; [|discriminate].
    intros [= <-]. right. right. exists entry. auto.
Qed.

End NestFacts.

(** X19: loops do not nest: a loop header that stands in the body of an
    open loop is stepped over, so that the loop runs to the first line
    that closes a loop, and the count of the inner header is lost. *)
Theorem inner_header_ignored lay_data raw n b1 h c tail :
  kind_of raw = KLoop (Ok n) ->
  Forall (fun b => closes_loop b = false) b1 ->
  kind_of h = KLoop c ->
  parse_epi_file_with_loops (raw :: b1 ++ h :: tail) lay_data
  = parse_epi_file_with_loops (raw :: b1 ++ tail) lay_data.
Proof.
  intros Hraw Hb1 Hh. unfold parse_epi_file_with_loops.
  rewrite !ScanFacts.scan_lines_cons, Hraw. cbn [rbind].
  destruct (NestFacts.header_in_body h c lay_data Hh) as [H1 H2].
  destruct (NestFacts.split_block_drop lay_data h tail H1 H2 b1 Hb1) as [E1 E2].
  destruct (split_block (b1 ++ h :: tail)) as [body1 after1].
  destruct (split_block (b1 ++ tail)) as [body2 after2].
  cbn [fst snd] in *. rewrite E1, E2. reflexivity.
Qed.

(** An instance: a loop of three turns opened inside a loop of two. *)
Lemma inner_header_ignored_witness :
  parse_epi_file_with_loops
    ("for(i,2,0.0)" :: ["layer(shutterzu,5s)"] ++ "for(j,3,0.0)" ::
       ["layer(shutterzu,30s)"; "next(j)"; "next(i)"]) ∅
  = parse_epi_file_with_loops
      ("for(i,2,0.0)" :: ["layer(shutterzu,5s)"] ++
         ["layer(shutterzu,30s)"; "next(j)"; "next(i)"]) ∅.
Proof.
  apply (inner_header_ignored ∅ "for(i,2,0.0)" 2 ["layer(shutterzu,5s)"]
           "for(j,3,0.0)" (Ok 3)).
  - vm_compute. reflexivity.
  - constructor; [vm_compute; reflexivity | constructor].
  - vm_compute. reflexivity.
Defined.

(** X20: every layer of the stack that [parse_epi_file_with_loops]
    returns, in a loop or not, is the substrate that the parser puts in,
    an idle period, or a layer whose material is defined in the table
    and whose shutters are those of the definition, joined. *)
Theorem layers_follow_table lines lay_data out :
  parse_epi_file_with_loops lines lay_data = Ok out ->
  Forall (item_all (follows_table lay_data)) out.
Proof.
  unfold parse_epi_file_with_loops.
  destruct (scan_lines lay_data lines []) as [scanned|e] eqn:E; cbn [rbind]; [|discriminate].
  intros [= <-].
  assert (H : Forall (item_all (follows_table lay_data)) scanned).
  { apply (ScanFacts.scan_lines_inv (follows_table lay_data) lay_data
             (NestFacts.parse_layer_line_follows lay_data) lines [] scanned);
      [constructor | exact E]. }
  unfold insert_substrate. destruct (has_substrate scanned); [exact H|].
  constructor; [left; reflexivity | exact H].
Qed.

(** An instance: the material GaAs. *)
Lemma layers_follow_table_witness :
  Forall (item_all (follows_table GaAs_table))
    [Layer substrate_layer;
     Layer {| Material := "GaAs"; Composition := "GaAs";
              Thickness := Flt (Float.Fin 20); Time := Flt (Float.Fin 120);
              Shutters := ShutterText "As, Ga";
              Repeat := Some 1; GrowthRate := None |}].
Proof.
  apply (layers_follow_table GaAs_program GaAs_table). vm_compute. reflexivity.
Defined.

(** ** The shutters of a definition *)

Module OpenFacts.

(** Past the length of the text, the fuel of [findall_from] does not
    matter. *)
Lemma findall_fuel r : forall f1 f2 txt,
  (String.length txt < f1)%nat -> (String.length txt < f2)%nat ->
  Re.findall_from f1 r txt = Re.findall_from f2 r txt.
Proof.
  induction f1 as [|f1 IH]; intros f2 txt H1 H2; [lia|].
  destruct f2 as [|f2]; [lia|]. cbn [Re.findall_from].
  destruct (Re.match_ r txt) as [[g rest]|] eqn:E.
  - apply ReFacts.match_sound in E. destruct E as (s & -> & M).
    rewrite ReFacts.length_append in *.
    replace (String.length s + String.length rest - String.length rest)%nat
      with (String.length s) by lia.
    destruct s as [|c s].
    + change (String.append EmptyString rest) with rest. cbn [String.length].
      destruct rest as [|c t]; [reflexivity|]. f_equal.
      cbn [String.length] in H1, H2. apply IH; lia.
    + cbn [String.length] in *. f_equal. apply IH; lia.
  - destruct txt as [|c t]; [reflexivity|].
    cbn [String.length] in H1, H2. apply IH; lia.
Qed.

Lemma match_open r :
  Re.match_ Pat.word (String "o" (String "p" (String "e" (String "n" (String "(" r)))))
  = Some ([], String "(" r).
Proof.
  assert (L : forall a : nat, (a <? S a)%nat = true) by (intros a; apply Nat.ltb_lt; lia).
  unfold Re.match_, Pat.word, Re.Plus, Re.w.
  cbn [Re.run String.length].
  change (Str.isword "o") with true. change (Str.isword "p") with true.
  change (Str.isword "e") with true. change (Str.isword "n") with true.
  change (Str.isword "(") with false.
  rewrite !L. reflexivity.
Qed.

Lemma match_paren r : Re.match_ Pat.word (String "(" r) = None.
Proof. reflexivity. Qed.

Lemma findall_from_S f r txt :
  Re.findall_from (S f) r txt =
  match Re.match_ r txt with
  | Some (_, rest) =>
      let n := (String.length txt - String.length rest)%nat in
      match n, txt with
      | O, String _ txt' => EmptyString :: Re.findall_from f r txt'
      | O, EmptyString => [EmptyString]
      | _, _ => Str.take n txt :: Re.findall_from f r rest
      end
  | None =>
      match txt with
      | String _ txt' => Re.findall_from f r txt'
      | EmptyString => []
      end
  end.
Proof. reflexivity. Qed.

(** The words of an open line are the word open and the words of what
    follows the parenthesis. *)
Lemma findall_open r :
  Re.findall Pat.word (String.append "open(" r) = "open" :: Re.findall Pat.word r.
Proof.
  unfold Re.findall.
  change (String.append "open(" r)
    with (String "o" (String "p" (String "e" (String "n" (String "(" r))))).
  rewrite findall_from_S, match_open. cbv zeta. cbn [String.length].
  replace (S (S (S (S (S (String.length r))))) - S (String.length r))%nat
    with 4%nat by lia.
  cbn [Str.take]. f_equal.
  rewrite findall_from_S, match_paren.
  apply findall_fuel; lia.
Qed.

Lemma open_not_other line :
  Str.startswith "open(" line = true ->
  Str.startswith "definelayer(" line = false /\ Str.startswith "rate(" line = false.
Proof.
  destruct line as [|c line]; [discriminate|].
  cbn [Str.startswith]. destruct (Ascii.eqb_spec "o" c) as [<-|]; [|discriminate].
  split; reflexivity.
Qed.

End OpenFacts.

(** X21: inside a definition, a line that starts with open and a
    parenthesis sets the shutters of the definition to all the words
    that follow the parenthesis, those after the closing one too, and
    leaves the rate as it is. *)
Theorem open_line_sets_shutters layers k entry raw r :
  k <> "" ->
  layers !! k = Some entry ->
  Str.strip raw = String.append "open(" r ->
  lay_line (layers, Some k) raw =
  Ok (<[k := {| shutters := Re.findall Pat.word r; rate := rate entry |}]> layers,
      Some k).
Proof.
  intros Hk He Hr. unfold lay_line.
  assert (Ho : Str.startswith "open(" (Str.strip raw) = true).
  { rewrite Hr. apply SkipFacts.startswith_prefix. }
  destruct (OpenFacts.open_not_other _ Ho) as [-> ->]. rewrite Ho.
  assert (Ht : truthy (Some k) = true) by (destruct k; [contradiction | reflexivity]).
  rewrite Ht. cbn [andb getitem]. rewrite He. cbn [rbind default].
  rewrite Hr, OpenFacts.findall_open. reflexivity.
Qed.

(** An instance: a word after the closing parenthesis. *)
Lemma open_line_sets_shutters_witness :
  lay_line (no_rate_table, Some "X") "open(As,Ga) # arsenic" =
  Ok (<["X" := {| shutters := ["As"; "Ga"; "arsenic"]; rate := None |}]> no_rate_table,
      Some "X").
Proof.
  apply (open_line_sets_shutters no_rate_table "X" {| shutters := []; rate := None |}
           "open(As,Ga) # arsenic" "As,Ga) # arsenic").
  - discriminate.
  - vm_compute. reflexivity.
  - vm_compute. reflexivity.
Defined.

(** ** The lines of a given shape *)

Module MatchFacts.
Import Re.

(** One turn of the greedy repetition of a class. *)
Lemma run_star_cons {R} p c t g (k : string -> groups -> option R) :
  run (Star (Class p)) (String c t) g k =
  if p c then
    match run (Star (Class p)) t g k with
    | Some x => Some x
    | None => k (String c t) g
    end
  else k (String c t) g.
Proof.
  cbn [run String.length]. destruct (p c); [|reflexivity].
  assert (L : (String.length t <? S (String.length t))%nat = true)
    by (apply Nat.ltb_lt; lia).
  rewrite L. reflexivity.
Qed.

Lemma run_star_stop {R} p rest g (k : string -> groups -> option R) :
  stops p rest -> run (Star (Class p)) rest g k = k rest g.
Proof.
  destruct rest as [|c t]; [reflexivity|]. cbn [stops]. intros H.
  rewrite run_star_cons, H. reflexivity.
Qed.

(** The repetition takes a run of the class to its end, when what
    follows the pattern succeeds there. *)
Lemma run_star_class {R} p n : forall rest g (k : string -> groups -> option R) x,
  all_chars p n = true -> stops p rest ->
  k rest g = Some x ->
  run (Star (Class p)) (String.append n rest) g k = Some x.
Proof.
  induction n as [|c n IH]; intros rest g k x Hn Hs Hk.
  - change (String.append EmptyString rest) with rest.
    rewrite run_star_stop by exact Hs. exact Hk.
  - cbn [all_chars] in Hn. apply andb_true_iff in Hn. destruct Hn as [Hc Hn].
    change (String.append (String c n) rest) with (String c (String.append n rest)).
    rewrite run_star_cons, Hc, (IH rest g k x Hn Hs Hk). reflexivity.
Qed.

Lemma run_plus_class {R} p n rest g (k : string -> groups -> option R) x :
  n <> EmptyString -> all_chars p n = true -> stops p rest ->
  k rest g = Some x ->
  run (Plus (Class p)) (String.append n rest) g k = Some x.
Proof.
  intros H0 Hn Hs Hk. destruct n as [|c n]; [contradiction|].
  cbn [all_chars] in Hn. apply andb_true_iff in Hn. destruct Hn as [Hc Hn].
  change (String.append (String c n) rest) with (String c (String.append n rest)).
  unfold Plus. cbn [run]. rewrite Hc.
  apply (run_star_class p n rest g k x Hn Hs Hk).
Qed.

Lemma run_char {R} c rest g (k : string -> groups -> option R) :
  run (Char c) (String c rest) g k = k rest g.
Proof. unfold Char. cbn [run]. rewrite Ascii.eqb_refl. reflexivity. Qed.

Lemma run_lit {R} p : forall rest g (k : string -> groups -> option R),
  run (Lit p) (String.append p rest) g k = k rest g.
Proof.
  induction p as [|c p IH]; intros rest g k; [reflexivity|].
  change (String.append (String c p) rest) with (String c (String.append p rest)).
  destruct p as [|c' p'].
  - change (String.append EmptyString rest) with rest. apply run_char.
  - change (Lit (String c (String c' p'))) with (Seq (Char c) (Lit (String c' p'))).
    cbn [run]. fold (Char c). rewrite run_char. apply IH.
Qed.

Lemma run_group {R} i r s rest g (k : string -> groups -> option R) x :
  (forall k', k' rest g = Some x -> run r (String.append s rest) g k' = Some x) ->
  k rest ((i, s) :: g) = Some x ->
  run (Group i r) (String.append s rest) g k = Some x.
Proof.
  intros Hr Hk. cbn [run]. apply Hr. rewrite ReFacts.take_matched. exact Hk.
Qed.

End MatchFacts.

Module ShapeFacts.
Import Re.

Lemma run_seq {R} r1 r2 txt g (k : string -> groups -> option R) :
  run (Seq r1 r2) txt g k = run r1 txt g (fun t1 g1 => run r2 t1 g1 k).
Proof. reflexivity. Qed.

Lemma lower_not_digit c :
  Str.islower c = true -> Str.isdigit c || Ascii.eqb c "." = false.
Proof.
  unfold Str.islower, Str.isdigit, Str.in_range. intros H.
  apply andb_true_iff in H. destruct H as [H1 H2]. apply Z.leb_le in H1.
  apply orb_false_iff. split.
  - apply andb_false_iff. right. apply Z.leb_gt. lia.
  - destruct (Ascii.eqb_spec c ".") as [->|]; [|reflexivity].
    vm_compute in H1. contradiction H1. reflexivity.
Qed.

Lemma stops_lower u rest :
  u <> EmptyString -> all_chars Str.islower u = true ->
  stops (fun c => Str.isdigit c || Ascii.eqb c ".") (String.append u rest).
Proof.
  intros H0 Hu. destruct u as [|c u]; [contradiction|].
  cbn [all_chars] in Hu. apply andb_true_iff in Hu. destruct Hu as [Hc _].
  change (String.append (String c u) rest) with (String c (String.append u rest)).
  cbn [stops]. apply lower_not_digit. exact Hc.
Qed.

(** A line of the shape of an instruction matches the pattern, with its
    parts as the groups. *)
Lemma layer_shape m v u comment rest :
  is_word m ->
  v <> EmptyString ->
  all_chars (fun c => Str.isdigit c || Ascii.eqb c ".") v = true ->
  u <> EmptyString -> all_chars Str.islower u = true ->
  all_chars (fun c => negb (Str.code c =? 10)) comment = true ->
  stops (fun c => negb (Str.code c =? 10)) rest ->
  match_ Pat.layer
    (String.append "layer("
       (String.append m
          (String.append ","
             (String.append v
                (String.append u (String.append ")" (String.append comment rest)))))))
  = Some ([(4%nat, comment); (3%nat, u); (2%nat, v); (1%nat, m)], rest).
Proof.
  intros [Hm0 Hm] Hv0 Hv Hu0 Hu Hc Hr.
  unfold match_, Pat.layer. cbn [seq_of].
  rewrite run_seq, MatchFacts.run_lit, run_seq.
  apply MatchFacts.run_group.
  { intros k' Hk. apply MatchFacts.run_plus_class; [exact Hm0 | exact Hm | | exact Hk].
    reflexivity. }
  change (String.append "," ?r) with (String "," r).
  rewrite run_seq, MatchFacts.run_char, run_seq.
  apply MatchFacts.run_group.
  { intros k' Hk. apply MatchFacts.run_plus_class; [exact Hv0 | exact Hv | | exact Hk].
    apply stops_lower; assumption. }
  rewrite run_seq.
  apply MatchFacts.run_group.
  { intros k' Hk. apply MatchFacts.run_plus_class; [exact Hu0 | exact Hu | | exact Hk].
    reflexivity. }
  change (String.append ")" ?r) with (String ")" r).
  rewrite run_seq, MatchFacts.run_char.
  apply MatchFacts.run_group; [|reflexivity].
  intros k' Hk. apply MatchFacts.run_star_class; assumption.
Qed.

(** A line of the shape of a rate matches the rate pattern at its
    start. *)
Lemma rate_shape n rest :
  n <> EmptyString ->
  all_chars (fun c => Str.isdigit c || Ascii.eqb c ".") n = true ->
  search Pat.rate (String.append "rate(" (String.append n (String.append ")" rest)))
  = Some ([(1%nat, n)], rest).
Proof.
  intros Hn0 Hn.
  assert (M : match_ Pat.rate
                (String.append "rate(" (String.append n (String.append ")" rest)))
              = Some ([(1%nat, n)], rest)).
  { unfold match_, Pat.rate. cbn [seq_of].
    rewrite run_seq, MatchFacts.run_lit, run_seq.
    apply MatchFacts.run_group.
    { intros k' Hk. apply MatchFacts.run_plus_class; [exact Hn0 | exact Hn | | exact Hk].
      reflexivity. }
    change (String.append ")" ?r) with (String ")" r).
    rewrite MatchFacts.run_char. reflexivity. }
  change (String.append "rate(" ?r)
    with (String "r" (String "a" (String "t" (String "e" (String "(" r))))) in *.
  cbn [search]. rewrite M. reflexivity.
Qed.

End ShapeFacts.

(** X22: every line of the shape of an instruction is one: the word
    layer, a parenthesis, a run of word characters, a comma, a run of
    digits and dots, a run of lower-case letters, a parenthesis and a
    comment match the pattern of [parse_layer_line], and the groups are
    the material, the value, the unit and the comment. *)
Theorem shaped_line_matches m v u comment rest :
  is_word m ->
  v <> EmptyString ->
  all_chars (fun c => Str.isdigit c || Ascii.eqb c ".") v = true ->
  u <> EmptyString -> all_chars Str.islower u = true ->
  all_chars (fun c => negb (Str.code c =? 10)) comment = true ->
  stops (fun c => negb (Str.code c =? 10)) rest ->
  Re.match_ Pat.layer
    (String.append "layer("
       (String.append m
          (String.append ","
             (String.append v
                (String.append u (String.append ")" (String.append comment rest)))))))
  = Some ([(4%nat, comment); (3%nat, u); (2%nat, v); (1%nat, m)], rest).
Proof. exact (ShapeFacts.layer_shape m v u comment rest). Qed.

(** An instance: an instruction with a comment. *)
Lemma shaped_line_matches_witness :
  Re.match_ Pat.layer
    (String.append "layer("
       (String.append "GaAs"
          (String.append ","
             (String.append "120"
                (String.append "s" (String.append ")" (String.append " // buffer" "")))))))
  = Some ([(4%nat, " // buffer"); (3%nat, "s"); (2%nat, "120"); (1%nat, "GaAs")], "").
Proof.
  apply (shaped_line_matches "GaAs" "120" "s" " // buffer" "").
  - split; [discriminate | reflexivity].
  - discriminate.
  - reflexivity.
  - discriminate.
  - reflexivity.
  - reflexivity.
  - exact I.
Defined.

(** X23: inside a definition, a line that starts with rate, a
    parenthesis, a run of digits and dots and a parenthesis sets the
    rate of the definition to the float of the run, when this is a
    number, and fails with ValueError otherwise; the shutters stay. *)
Theorem rate_line_sets_rate layers k entry raw n rest :
  k <> "" ->
  layers !! k = Some entry ->
  n <> EmptyString ->
  all_chars (fun c => Str.isdigit c || Ascii.eqb c ".") n = true ->
  Str.strip raw = String.append "rate(" (String.append n (String.append ")" rest)) ->
  lay_line (layers, Some k) raw =
  match Float.of_literal n with
  | Ok r => Ok (<[k := {| shutters := shutters entry; rate := Some r |}]> layers, Some k)
  | Raise _ => Raise ValueError
  end.
Proof.
  intros Hk He Hn0 Hn Hr. unfold lay_line.
  assert (Ho : Str.startswith "rate(" (Str.strip raw) = true).
  { rewrite Hr. apply SkipFacts.startswith_prefix. }
  rewrite (LayFacts.rate_line_not_definelayer _ Ho), Ho.
  assert (Ht : truthy (Some k) = true) by (destruct k; [contradiction | reflexivity]).
  rewrite Ht. cbn [andb]. rewrite Hr, (ShapeFacts.rate_shape n rest Hn0 Hn).
  cbn [Pat.text Re.group Nat.eqb].
  destruct (Float.of_literal n) as [r|e] eqn:Hv; cbn [rbind].
  - cbn [getitem]. rewrite He. reflexivity.
  - rewrite (RaiseFacts.of_literal_raises _ _ Hv). reflexivity.
Qed.

(** An instance: a rate with a decimal. *)
Lemma rate_line_sets_rate_witness :
  lay_line (no_rate_table, Some "X") "rate(600.5) nm/h" =
  match Float.of_literal "600.5" with
  | Ok r => Ok (<["X" := {| shutters := []; rate := Some r |}]> no_rate_table, Some "X")
  | Raise _ => Raise ValueError
  end.
Proof.
  apply (rate_line_sets_rate no_rate_table "X" {| shutters := []; rate := None |}
           "rate(600.5) nm/h" "600.5" " nm/h").
  - discriminate.
  - vm_compute. reflexivity.
  - discriminate.
  - reflexivity.
  - vm_compute. reflexivity.
Defined.

Module HeaderFacts.
Import Re.

Lemma digit_not_space c : Str.isdigit c || Ascii.eqb c "." = true -> Str.isspace c = false.
Proof.
  intros H. apply orb_true_iff in H. destruct H as [H|H].
  - pose proof (CountFacts.isdigit_code c H) as Hc.
    unfold Str.isspace, Str.in_range.
    repeat (apply orb_false_iff; split); try apply andb_false_iff;
      try (left; apply Z.leb_gt; lia); try (right; apply Z.leb_gt; lia).
    apply Z.eqb_neq. lia.
  - apply Ascii.eqb_eq in H. subst. reflexivity.
Qed.

Lemma stops_space n rest :
  n <> EmptyString ->
  all_chars (fun c => Str.isdigit c || Ascii.eqb c ".") n = true ->
  stops Str.isspace (String.append n rest).
Proof.
  intros H0 Hn. destruct n as [|c n]; [contradiction|].
  cbn [all_chars] in Hn. apply andb_true_iff in Hn. destruct Hn as [Hc _].
  change (String.append (String c n) rest) with (String c (String.append n rest)).
  cbn [stops]. apply digit_not_space. exact Hc.
Qed.

Lemma digits_are_numbers n :
  all_chars Str.isdigit n = true ->
  all_chars (fun c => Str.isdigit c || Ascii.eqb c ".") n = true.
Proof.
  induction n as [|c n IH]; [reflexivity|]. cbn [all_chars]. intros H.
  apply andb_true_iff in H. destruct H as [Hc Hn]. rewrite Hc, (IH Hn). reflexivity.
Qed.

(** A line of the shape of a loop header matches the pattern, with the
    variable, the count and the step as the groups. *)
Lemma for_shape var ws1 cnt ws2 step rest :
  is_word var ->
  all_chars Str.isspace ws1 = true -> is_number cnt ->
  all_chars Str.isspace ws2 = true ->
  step <> EmptyString ->
  all_chars (fun c => Str.isdigit c || Ascii.eqb c ".") step = true ->
  match_ Pat.for_
    (String.append "for("
       (String.append var
          (String.append ","
             (String.append ws1
                (String.append cnt
                   (String.append ","
                      (String.append ws2
                         (String.append step (String.append ")" rest)))))))))
  = Some ([(3%nat, step); (2%nat, cnt); (1%nat, var)], rest).
Proof.
  intros [Hv0 Hv] Hw1 [Hc0 Hc] Hw2 Hs0 Hs.
  unfold match_, Pat.for_. cbn [seq_of].
  rewrite ShapeFacts.run_seq, MatchFacts.run_lit, ShapeFacts.run_seq.
  apply MatchFacts.run_group.
  { intros k' Hk. apply MatchFacts.run_plus_class; [exact Hv0 | exact Hv | | exact Hk].
    reflexivity. }
  change (String.append "," ?r) with (String "," r).
  rewrite ShapeFacts.run_seq, MatchFacts.run_char, ShapeFacts.run_seq.
  apply MatchFacts.run_star_class;
    [exact Hw1 | apply stops_space; [exact Hc0 | apply digits_are_numbers; exact Hc] |].
  rewrite ShapeFacts.run_seq.
  apply MatchFacts.run_group.
  { intros k' Hk. apply MatchFacts.run_plus_class; [exact Hc0 | exact Hc | | exact Hk].
    reflexivity. }
  change (String.append "," ?r) with (String "," r).
  rewrite ShapeFacts.run_seq, MatchFacts.run_char, ShapeFacts.run_seq.
  apply MatchFacts.run_star_class; [exact Hw2 | apply stops_space; assumption |].
  rewrite ShapeFacts.run_seq.
  apply MatchFacts.run_group.
  { intros k' Hk. apply MatchFacts.run_plus_class; [exact Hs0 | exact Hs | | exact Hk].
    reflexivity. }
  change (String.append ")" ?r) with (String ")" r).
  rewrite MatchFacts.run_char. reflexivity.
Qed.

End HeaderFacts.

(** X24: every line of the shape of a loop header opens a loop: the
    word for, a parenthesis, a variable, a comma, blanks, a run of
    digits, a comma, blanks, a run of digits and dots and a parenthesis,
    whatever follows; the count is the [int] of the first run, and the
    variable and the step are not used. *)
Theorem shaped_header_opens_loop raw var ws1 cnt ws2 step rest :
  is_word var ->
  all_chars Str.isspace ws1 = true -> is_number cnt ->
  all_chars Str.isspace ws2 = true ->
  step <> EmptyString ->
  all_chars (fun c => Str.isdigit c || Ascii.eqb c ".") step = true ->
  Str.strip raw =
    String.append "for("
      (String.append var
         (String.append ","
            (String.append ws1
               (String.append cnt
                  (String.append ","
                     (String.append ws2
                        (String.append step (String.append ")" rest)))))))) ->
  kind_of raw = KLoop (int_of cnt).
Proof.
  intros Hvar Hw1 Hcnt Hw2 Hs0 Hs Hr. unfold kind_of. rewrite Hr.
  rewrite SkipFacts.startswith_prefix.
  rewrite (HeaderFacts.for_shape var ws1 cnt ws2 step rest Hvar Hw1 Hcnt Hw2 Hs0 Hs).
  reflexivity.
Qed.

(** An instance: a step that is not a number. *)
Lemma shaped_header_opens_loop_witness :
  kind_of "  for(i, 20,1.2.3) // twenty periods" = KLoop (int_of "20").
Proof.
  apply (shaped_header_opens_loop _ "i" " " "20" "" "1.2.3" " // twenty periods").
  - split; [discriminate | reflexivity].
  - reflexivity.
  - split; [discriminate | reflexivity].
  - reflexivity.
  - discriminate.
  - reflexivity.
  - vm_compute. reflexivity.
Defined.
